(** * SmartPark front-end: occupancy aggregation, reservation workflow,
      system-status classification and map-marker plumbing.

    A shallow embedding of the TypeScript sources

      - [pages/MapView.tsx]                       (occupancy aggregation)
      - [components/slots/SlotGrid.tsx]           (slot buttons)
      - the [Dashboard] and [Profile] pages       (reservation workflow)
      - [components/monitoring/SystemStatusIndicator.tsx]
      - the [GoogleMapComponent]/[MapTilerMap] map component

    Conventions of the embedding.

      - JavaScript strings are [string]; [===] on strings is [String.eqb].
      - Whole JavaScript numbers (counts, slot numbers, millisecond
        timestamps) are [nat] or [Z].  A fractional number (a percentage,
        a coordinate) is the rational [Q] that the double denotes; the
        arithmetic of the occupancy percentage rounds as IEEE-754 binary64
        does ([Double]), and [MapView.percentage] is the same expression
        without the roundings.
      - [null]/[undefined] is [None].
      - The hosted backend is an external collaborator: a handler receives
        the backend as a function that answers every request, given the
        requests issued so far.  Nothing is assumed about its answers.
      - React state is an explicit record; a handler is a computation in a
        state monad over the component state and the log of observable
        effects (backend requests, toasts, console output). *)

From Stdlib Require Import String Ascii List Bool ZArith QArith Lia Lqa.
From Stdlib Require Import Qpower Qround Qabs.
From Stdlib Require Import DecimalString.
From Stdlib Require Floats Uint63.
Import ListNotations.

Local Open Scope string_scope.
Local Open Scope Z_scope.

(** ** Rows of the backend tables, as the screens read them *)

Module Database.

Record Slot := mkSlot {
  slot_id         : string;
  parking_area_id : string;
  slot_number     : Z;
  slot_status     : string
}.

Record ParkingArea := mkParkingArea {
  area_id     : string;
  area_name   : string;
  area_lat    : option Q;
  area_lng    : option Q;
  total_slots : option Z
}.

Record ReservationInsert := mkReservationInsert {
  ins_user_id    : string;
  ins_slot_id    : string;
  ins_start_time : string;
  ins_end_time   : string;
  ins_status     : string
}.

Record Reservation := mkReservation {
  res_id         : string;
  res_user_id    : string;
  res_slot_id    : string;
  res_start_time : string;
  res_end_time   : string;
  res_status     : string;
  res_created_at : string
}.

Record SystemStatus := mkSystemStatus {
  system_id      : string;
  last_heartbeat : string;
  sys_status     : string;
  sys_location   : option string
}.

(** The answer of a query: [{ data, error }]. *)
Record Response (A : Type) := mkResponse {
  data  : option A;
  error : option string
}.
Arguments mkResponse {A} _ _.
Arguments data {A} _.
Arguments error {A} _.

End Database.
Import Database.

(** ** The JavaScript operators the sources rely on *)

Module JS.

(** [x || 0] on a nullable whole number. *)
Definition or_zero (x : option Z) : Z :=
  match x with
  | Some v => v
  | None => 0
  end.

(** Truthiness of a string: every string but the empty one. *)
Definition truthy_string (s : string) : bool :=
  negb (s =? "")%string.

(** Truthiness of a nullable number: neither [null] nor zero. *)
Definition truthy_number (x : option Q) : bool :=
  match x with
  | Some q => negb (Qnum q =? 0)
  | None => false
  end.

(** [x == null]. *)
Definition is_nullish {A : Type} (x : option A) : bool :=
  match x with
  | Some _ => false
  | None => true
  end.

(** A whole number inside a template literal; [None] is [NaN]. *)
Definition show_number (x : option Z) : string :=
  match x with
  | Some z => NilZero.string_of_int (Z.to_int z)
  | None => "NaN"
  end.

(** [xs.filter(p).length]. *)
Definition count {A : Type} (p : A -> bool) (xs : list A) : nat :=
  length (filter p xs).

End JS.

(** ** Double-precision arithmetic

    A JavaScript number is an IEEE-754 binary64 value.  A finite double is
    a rational, and [/] and [*] return the exact quotient and product
    rounded to the nearest double, ties to the even significand.  The
    rounding is defined on the normal range (53-bit significands, no
    overflow and no gradual underflow), which contains every quotient and
    product of the occupancy percentage. *)

Module Double.

Definition pow2 (e : Z) : Q := (2 ^ e)%Q.

(** The binade of a positive [x]: the [e] with [2^e <= x < 2^(e+1)]. *)
Definition exponent (x : Q) : Z :=
  let e := Z.log2 (Qnum x) - Z.log2 (Z.pos (Qden x)) in
  if Qle_bool (pow2 e) x then e else e - 1.

(** The integer nearest to [m], the even one of the two at a tie. *)
Definition nearest_even (m : Q) : Z :=
  let n := Qfloor m in
  match (m - inject_Z n ?= 1 # 2)%Q with
  | Lt => n
  | Gt => n + 1
  | Eq => if Z.even n then n else n + 1
  end.

(** A positive [x] is rounded to a multiple of the unit in the last place
    of its binade, [2^(e - 52)]. *)
Definition round_positive (x : Q) : Q :=
  let ulp := pow2 (exponent x - 52) in
  (inject_Z (nearest_even (x / ulp)) * ulp)%Q.

Definition round (x : Q) : Q :=
  match Qnum x with
  | 0 => 0%Q
  | Z.pos _ => round_positive x
  | Z.neg _ => (- round_positive (- x))%Q
  end.

Definition mul (x y : Q) : Q := round (x * y).
Definition div (x y : Q) : Q := round (x / y).

(** The rational that a double of the machine denotes. *)
Definition machine_value (f : PrimFloat.float) : option Q :=
  match FloatOps.Prim2SF f with
  | SpecFloat.S754_zero _ => Some 0%Q
  | SpecFloat.S754_finite s m e =>
      Some ((if s then -1 else 1) * inject_Z (Z.pos m) * pow2 e)%Q
  | _ => None
  end.

Definition of_integer (z : Z) : PrimFloat.float :=
  PrimFloat.of_uint63 (Uint63.of_Z z).

End Double.

(** ** pages/MapView.tsx : the occupancy aggregation *)

Module MapView.

Record Occupancy := mkOccupancy {
  freeSlots           : nat;
  occupiedSlots       : nat;
  reservedSlots       : nat;
  occupancyPercentage : Q
}.

Definition has_status (st : string) (s : Slot) : bool :=
  (slot_status s =? st)%string.

(** [slots?.filter(s => s.status === st).length || 0] *)
Definition count_status (st : string) (slots : option (list Slot)) : nat :=
  match slots with
  | Some l => JS.count (has_status st) l
  | None => 0%nat
  end.

(** Line 66,
    [totalSlots > 0 ? ((occupiedSlots + reservedSlots) / totalSlots) * 100 : 0],
    as the page computes it: the quotient is rounded to a double, and so
    is its product with 100.  The sum of the two counts is a whole number
    below [2^53] and is exact. *)
Definition percentage_double (occupied reserved : nat) (totalSlots : Z) : Q :=
  if 0 <? totalSlots
  then Double.mul
         (Double.div (inject_Z (Z.of_nat (occupied + reserved)))
                     (inject_Z totalSlots))
         100
  else 0.

(** The expression of line 66 without the two roundings: the number that
    the percentage approximates. *)
Definition percentage (occupied reserved : nat) (totalSlots : Z) : Q :=
  if 0 <? totalSlots
  then (inject_Z (Z.of_nat (occupied + reserved)) / inject_Z totalSlots) * 100
  else 0.

(** Lines 62-66: the counts and the percentage of one area, with the
    percentage in double precision. *)
Definition aggregate_double (slots : option (list Slot))
           (total_slots : option Z) : Occupancy :=
  let freeSlots := count_status "free" slots in
  let occupiedSlots := count_status "occupied" slots in
  let reservedSlots := count_status "reserved" slots in
  let totalSlots := JS.or_zero total_slots in
  {| freeSlots := freeSlots;
     occupiedSlots := occupiedSlots;
     reservedSlots := reservedSlots;
     occupancyPercentage :=
       percentage_double occupiedSlots reservedSlots totalSlots |}.

(** Lines 62-66 with the percentage before rounding. *)
Definition aggregate (slots : option (list Slot))
           (total_slots : option Z) : Occupancy :=
  let freeSlots := count_status "free" slots in
  let occupiedSlots := count_status "occupied" slots in
  let reservedSlots := count_status "reserved" slots in
  let totalSlots := JS.or_zero total_slots in
  {| freeSlots := freeSlots;
     occupiedSlots := occupiedSlots;
     reservedSlots := reservedSlots;
     occupancyPercentage :=
       percentage occupiedSlots reservedSlots totalSlots |}.

(** Line 66 on the doubles of the machine, for whole numbers below
    [2^62]; it is compared with [percentage_double] on a grid of inputs. *)
Definition machine_percentage (k totalSlots : Z) : PrimFloat.float :=
  PrimFloat.mul
    (PrimFloat.div (Double.of_integer k) (Double.of_integer totalSlots))
    (Double.of_integer 100).

Definition agrees_with_machine (k totalSlots : Z) : bool :=
  match Double.machine_value (machine_percentage k totalSlots) with
  | Some q =>
      Qeq_bool q (percentage_double (Z.to_nat k) 0 totalSlots)
  | None => false
  end.

Definition upto (n : nat) : list Z := map Z.of_nat (seq 0 n).

(** Every capacity from 1 to [n] with every count from 0 to [2 * n - 1]. *)
Definition grid_agrees (n : nat) : bool :=
  forallb (fun t => forallb (fun k => agrees_with_machine k (t + 1))
                            (upto (2 * n)))
          (upto n).

(** The body of the [areas.map] callback of
    [fetchParkingAreasWithOccupancy], once the slots of the area have
    been requested. *)
Definition areaOccupancy (area : ParkingArea)
           (resp : Response (list Slot)) : Occupancy :=
  match error resp with
  | Some _ =>
      {| freeSlots := 0; occupiedSlots := 0; reservedSlots := 0;
         occupancyPercentage := 0 |}
  | None => aggregate_double (data resp) (total_slots area)
  end.

End MapView.

(** ** Observable effects of an event handler *)

Module Effects.

(** What a handler asks of the backend. *)
Inductive Request :=
| InsertReservation (row : ReservationInsert)
    (* from('reservations').insert(row) *)
| UpdateReservationStatus (status id : string)
    (* from('reservations').update({ status }).eq('id', id) *)
| UpdateSlotStatus (status id : string)
    (* from('slots').update({ status }).eq('id', id) *)
| SelectSlots (parking_area_id : string).
    (* from('slots').select('*').eq('parking_area_id', id).order(..) *)

Inductive Toast :=
| ToastError (msg : string)
| ToastSuccess (msg : string).

(** Everything a handler did that is visible outside the component,
    oldest first. *)
Record Log := mkLog {
  requests : list Request;
  toasts   : list Toast;
  console  : list (string * string)
}.

Definition empty_log : Log :=
  {| requests := []; toasts := []; console := [] |}.

(** The backend collaborator.  An answer may depend on the request and on
    every request issued before it. *)
Record Backend := mkBackend {
  write_error : list Request -> Request -> option string;
  slot_rows   : list Request -> string -> Response (list Slot)
}.

(** A handler over component state [S]. *)
Definition M (S A : Type) : Type := Backend -> S -> Log -> A * S * Log.

Definition ret {S A} (a : A) : M S A := fun _ s l => (a, s, l).

Definition bind {S A B} (m : M S A) (k : A -> M S B) : M S B :=
  fun be s l => let '(a, s', l') := m be s l in k a be s' l'.

(** The render-time value of a piece of state. *)
Definition read {S A} (f : S -> A) : M S A := fun _ s l => (f s, s, l).

(** A state setter called with an updater function. *)
Definition update {S} (f : S -> S) : M S unit := fun _ s l => (tt, f s, l).

(** [await] of a write; the result is the [error] field of the answer. *)
Definition await_write {S} (r : Request) : M S (option string) :=
  fun be s l =>
    (write_error be (requests l) r, s,
     {| requests := requests l ++ [r]; toasts := toasts l;
        console := console l |}).

Definition await_slots {S} (area : string) : M S (Response (list Slot)) :=
  fun be s l =>
    (slot_rows be (requests l) area, s,
     {| requests := requests l ++ [SelectSlots area]; toasts := toasts l;
        console := console l |}).

Definition toast {S} (t : Toast) : M S unit :=
  fun _ s l =>
    (tt, s,
     {| requests := requests l; toasts := toasts l ++ [t];
        console := console l |}).

Definition console_error {S} (msg err : string) : M S unit :=
  fun _ s l =>
    (tt, s,
     {| requests := requests l; toasts := toasts l;
        console := console l ++ [(msg, err)] |}).

Definition state_of {S A} (r : A * S * Log) : S := snd (fst r).
Definition log_of {S A} (r : A * S * Log) : Log := snd r.

End Effects.
Import Effects.

(** Exposes the steps of a handler. *)
Ltac handler_steps :=
  unfold bind, read, update, await_write, await_slots, toast, console_error,
    ret;
  cbv zeta; cbn [requests toasts console].

Declare Scope handler_scope.
Delimit Scope handler_scope with handler.
Notation "x <- m ;; k" := (bind m (fun x => k))
  (at level 61, m at next level, right associativity) : handler_scope.
Notation "m ;; k" := (bind m (fun _ => k))
  (at level 61, right associativity) : handler_scope.
Local Open Scope handler_scope.

(** ** components/slots/SlotGrid.tsx *)

Module SlotGrid.

Definition getSlotColor (status : string) : string :=
  if (status =? "free")%string then "bg-green-500 hover:bg-green-600"
  else if (status =? "occupied")%string then "bg-red-500"
  else if (status =? "reserved")%string then "bg-yellow-500"
  else "bg-gray-500".

Definition getStatusText (status : string) : string :=
  if (status =? "free")%string then "Free"
  else if (status =? "occupied")%string then "Occupied"
  else if (status =? "reserved")%string then "Reserved"
  else "Unknown".

(** The rendered [<Button>] of one slot. *)
Record Button (S : Type) := mkButton {
  className : string;
  disabled  : bool;
  onClick   : M S unit;
  number    : Z;
  caption   : string;
  badge     : bool
}.
Arguments className {S} _.
Arguments disabled {S} _.
Arguments onClick {S} _.
Arguments number {S} _.
Arguments caption {S} _.
Arguments badge {S} _.

Section Grid.
Context {S : Type}.
Variable onReserveSlot : string -> M S unit.
Variable userReservations : list string.

Definition slotButton (slot : Slot) : Button S :=
  {| className :=
       "w-full h-12 text-white font-medium "
         ++ getSlotColor (slot_status slot);
     disabled := negb (slot_status slot =? "free")%string;
     onClick :=
       if (slot_status slot =? "free")%string
       then onReserveSlot (slot_id slot)
       else ret tt;
     number := slot_number slot;
     caption := getStatusText (slot_status slot);
     badge := existsb (String.eqb (slot_id slot)) userReservations |}.

Definition render (slots : list Slot) : list (Button S) :=
  map slotButton slots.
End Grid.

(** A user pressing a rendered button: a disabled button delivers no
    click to its handler. *)
Definition press {S} (b : Button S) : M S unit :=
  if disabled b then ret tt else onClick b.

End SlotGrid.

(** ** The Dashboard page: slot selection and reservation creation *)

Module Dashboard.

Record User := mkUser { user_id : string }.

Record State := mkState {
  user               : option User;
  selectedAreaId     : string;
  slots              : list Slot;
  userReservations   : list string;
  reserveSlotId      : string;
  selectedSlotNumber : Z
}.

Definition setSlots (v : list Slot) (s : State) : State :=
  {| user := user s; selectedAreaId := selectedAreaId s; slots := v;
     userReservations := userReservations s;
     reserveSlotId := reserveSlotId s;
     selectedSlotNumber := selectedSlotNumber s |}.

Definition setUserReservations (f : list string -> list string)
           (s : State) : State :=
  {| user := user s; selectedAreaId := selectedAreaId s; slots := slots s;
     userReservations := f (userReservations s);
     reserveSlotId := reserveSlotId s;
     selectedSlotNumber := selectedSlotNumber s |}.

Definition setReserveSlotId (v : string) (s : State) : State :=
  {| user := user s; selectedAreaId := selectedAreaId s; slots := slots s;
     userReservations := userReservations s;
     reserveSlotId := v;
     selectedSlotNumber := selectedSlotNumber s |}.

Definition setSelectedSlotNumber (v : Z) (s : State) : State :=
  {| user := user s; selectedAreaId := selectedAreaId s; slots := slots s;
     userReservations := userReservations s;
     reserveSlotId := reserveSlotId s;
     selectedSlotNumber := v |}.

(** [fetchSlots], also the callback of the slots subscription. *)
Definition fetchSlots : M State unit :=
  selectedAreaId <- read selectedAreaId ;;
  resp <- await_slots selectedAreaId ;;
  match error resp with
  | Some _ => toast (ToastError "Failed to load slots")
  | None =>
      match data resp with
      | Some rows => update (setSlots rows)
      | None => ret tt
      end
  end.

Definition handleReserveSlot (slotId : string) : M State unit :=
  slots <- read slots ;;
  match find (fun s => (slot_id s =? slotId)%string) slots with
  | Some slot =>
      update (setReserveSlotId slotId) ;;
      update (setSelectedSlotNumber (slot_number slot))
  | None => ret tt
  end.

Definition handleConfirmReservation (startTime endTime : string)
  : M State unit :=
  user <- read user ;;
  reserveSlotId <- read reserveSlotId ;;
  match user with
  | None => ret tt
  | Some u =>
      if negb (JS.truthy_string reserveSlotId) then ret tt
      else
        error <- await_write
                   (InsertReservation
                      {| ins_user_id := user_id u;
                         ins_slot_id := reserveSlotId;
                         ins_start_time := startTime;
                         ins_end_time := endTime;
                         ins_status := "active" |}) ;;
        match error with
        | Some _ => toast (ToastError "Failed to create reservation")
        | None =>
            await_write (UpdateSlotStatus "reserved" reserveSlotId) ;;
            toast (ToastSuccess "Slot reserved successfully!") ;;
            update (setReserveSlotId "") ;;
            update (setUserReservations
                      (fun prev => (prev ++ [reserveSlotId])%list))
        end
  end.

(** The slot grid as the page mounts it. *)
Definition slotGrid (s : State) : list (SlotGrid.Button State) :=
  SlotGrid.render handleReserveSlot (userReservations s) (slots s).

(** The status the page shows for a slot id, if it lists the slot. *)
Definition localStatus (s : State) (slotId : string) : option string :=
  option_map slot_status
    (find (fun x => (slot_id x =? slotId)%string) (slots s)).

End Dashboard.

(** ** The Profile page: reservation history and cancellation *)

Module Profile.

Record State := mkState {
  reservations : list Reservation;
  isLoading    : bool
}.

Definition setReservations (f : list Reservation -> list Reservation)
           (s : State) : State :=
  {| reservations := f (reservations s); isLoading := isLoading s |}.

(** [{ ...res, status }] *)
Definition with_status (res : Reservation) (st : string) : Reservation :=
  {| res_id := res_id res; res_user_id := res_user_id res;
     res_slot_id := res_slot_id res;
     res_start_time := res_start_time res;
     res_end_time := res_end_time res;
     res_status := st;
     res_created_at := res_created_at res |}.

(** The callback of the updater's [prev.map]:
    [res => res.id === reservationId ? { ...res, status: 'cancelled' } : res] *)
Definition markCancelled (reservationId : string) (res : Reservation)
  : Reservation :=
  if (res_id res =? reservationId)%string
  then with_status res "cancelled"
  else res.

Definition handleCancelReservation (reservationId slotId : string)
  : M State unit :=
  reservationError <-
    await_write (UpdateReservationStatus "cancelled" reservationId) ;;
  match reservationError with
  | Some e =>
      console_error "Error cancelling reservation:" e ;;
      toast (ToastError "Failed to cancel reservation")
  | None =>
      slotError <- await_write (UpdateSlotStatus "free" slotId) ;;
      match slotError with
      | Some e => console_error "Error updating slot status:" e
      | None => ret tt
      end ;;
      update (setReservations (map (markCancelled reservationId))) ;;
      toast (ToastSuccess "Reservation cancelled successfully")
  end.

(** [r => r.status === 'active'] *)
Definition isActive (r : Reservation) : bool :=
  (res_status r =? "active")%string.

Definition activeReservations (s : State) : list Reservation :=
  filter isActive (reservations s).

Definition pastReservations (s : State) : list Reservation :=
  filter (fun r => negb (isActive r)) (reservations s).

(** Line 254: the history card renders [pastReservations.slice(0, 10)]. *)
Definition shownHistory (s : State) : list Reservation :=
  firstn 10 (pastReservations s).

(** The [Cancel Reservation] button of an entry of the active view. *)
Definition cancelButton (r : Reservation) : M State unit :=
  handleCancelReservation (res_id r) (res_slot_id r).

End Profile.

(** ** components/monitoring/SystemStatusIndicator.tsx *)

Module SystemStatusIndicator.

Inductive StatusLevel := healthy | warning | critical.

Record State := mkState {
  systemStatus : option SystemStatus;
  statusLevel  : StatusLevel;
  lastSeenText : string
}.

Definition setSystemStatus (v : option SystemStatus) (s : State) : State :=
  {| systemStatus := v; statusLevel := statusLevel s;
     lastSeenText := lastSeenText s |}.

Definition setStatusLevel (v : StatusLevel) (s : State) : State :=
  {| systemStatus := systemStatus s; statusLevel := v;
     lastSeenText := lastSeenText s |}.

Definition setLastSeenText (v : string) (s : State) : State :=
  {| systemStatus := systemStatus s; statusLevel := statusLevel s;
     lastSeenText := v |}.

(** The levels the transition rule can produce. *)
Definition reachable_level (lv : StatusLevel) : Prop :=
  lv = healthy \/ lv = critical.

(** The [useState] initial values. *)
Definition initialState : State :=
  {| systemStatus := None; statusLevel := critical; lastSeenText := "" |}.

(** How the awaited query of [fetchSystemStatus] ends.  [.single()]
    answers with an [error] when no row matches. *)
Inductive FetchOutcome :=
| Answered (resp : Response SystemStatus)
| Thrown.

Definition no_record_found : FetchOutcome :=
  Answered {| data := None; error := Some "PGRST116" |}.

Definition targetSystemId (systemId : option string) : string :=
  match systemId with
  | Some id => if JS.truthy_string id then id
               else "parking_monitor_tech_park_whitefield"
  | None => "parking_monitor_tech_park_whitefield"
  end.

Section Clock.

(** [new Date(s).getTime()] in milliseconds; [None] is [NaN]. *)
Variable getTime : string -> option Z.

Definition diffMinutes (now : Z) (lastHeartbeat : string) : option Z :=
  option_map (fun heartbeatTime => (now - heartbeatTime) / (1000 * 60))
             (getTime lastHeartbeat).

Definition is_zero (x : option Z) : bool :=
  match x with Some z => z =? 0 | None => false end.

Definition less_than (x : option Z) (bound : Z) : bool :=
  match x with Some z => z <? bound | None => false end.

Definition calculateStatusLevel (now : Z)
           (lastHeartbeat currentStatus : string) (s : State) : State :=
  let diffMinutes := diffMinutes now lastHeartbeat in
  if (currentStatus =? "online")%string then
    setLastSeenText
      (if is_zero diffMinutes then "Just now"
       else JS.show_number diffMinutes ++ " min ago")
      (setStatusLevel healthy s)
  else if (currentStatus =? "offline")%string then
    let s := setStatusLevel critical s in
    if less_than diffMinutes 60 then
      setLastSeenText (JS.show_number diffMinutes ++ " min ago") s
    else
      let hours := option_map (fun d => d / 60) diffMinutes in
      setLastSeenText (JS.show_number hours ++ "h ago") s
  else
    setLastSeenText "Unknown" (setStatusLevel critical s).

(** The continuation of [fetchSystemStatus] after its [await]. *)
Definition fetchSystemStatus (now : Z) (outcome : FetchOutcome)
           (s : State) : State :=
  match outcome with
  | Thrown =>
      setLastSeenText "Error"
        (setStatusLevel critical (setSystemStatus None s))
  | Answered resp =>
      match error resp with
      | Some _ =>
          setLastSeenText "Never"
            (setStatusLevel critical (setSystemStatus None s))
      | None =>
          match data resp with
          | Some d =>
              calculateStatusLevel now (last_heartbeat d) (sys_status d)
                (setSystemStatus (Some d) s)
          | None => s
          end
      end
  end.

(** The first statements of the effect keyed on [systemId]. *)
Definition resetOnSystemId (s : State) : State :=
  setLastSeenText "Loading..."
    (setStatusLevel critical (setSystemStatus None s)).

(** The subscription callback. *)
Definition onPayload (now : Z) (systemId : option string)
           (payload_new : option SystemStatus) (s : State) : State :=
  match payload_new with
  | Some newStatus =>
      if (system_id newStatus =? targetSystemId systemId)%string
      then calculateStatusLevel now (last_heartbeat newStatus)
             (sys_status newStatus)
             (setSystemStatus (Some newStatus) s)
      else s
  | None => s
  end.

(** The callback of the 30-second interval. *)
Definition onInterval (now : Z) (s : State) : State :=
  match systemStatus s with
  | Some st =>
      if JS.truthy_string (last_heartbeat st)
         && JS.truthy_string (sys_status st)
      then calculateStatusLevel now (last_heartbeat st) (sys_status st) s
      else s
  | None => s
  end.

(** Everything that can happen to a mounted indicator. *)
Inductive Event :=
| SystemIdChanged (systemId : option string)
| FetchSettled (now : Z) (outcome : FetchOutcome)
| Payload (now : Z) (payload_new : option SystemStatus)
| Interval (now : Z).

Record Component := mkComponent {
  systemId : option string;
  state    : State
}.

Definition step (c : Component) (e : Event) : Component :=
  match e with
  | SystemIdChanged id =>
      {| systemId := id; state := resetOnSystemId (state c) |}
  | FetchSettled now outcome =>
      {| systemId := systemId c;
         state := fetchSystemStatus now outcome (state c) |}
  | Payload now p =>
      {| systemId := systemId c;
         state := onPayload now (systemId c) p (state c) |}
  | Interval now =>
      {| systemId := systemId c; state := onInterval now (state c) |}
  end.

Definition mounted (id : option string) : Component :=
  {| systemId := id; state := initialState |}.

Definition run (id : option string) (events : list Event) : Component :=
  fold_left step events (mounted id).

End Clock.

End SystemStatusIndicator.

(** ** The map component: marker rendering and the double-tap gesture *)

Module MapTilerMap.

(** An element of the [parkingAreas] prop as the marker loop inspects it:
    the fields it tests for presence are nullable. *)
Record ParkingAreaWithOccupancy := mkArea {
  id                  : string;
  name                : option string;
  lat                 : option Q;
  lng                 : option Q;
  freeSlots           : option Z;
  occupancyPercentage : Q
}.

Definition truthy_name (n : option string) : bool :=
  match n with
  | Some s => JS.truthy_string s
  | None => false
  end.

(** [!area || !area.lat || !area.lng || !area.name
     || area.freeSlots == null] *)
Definition invalid (area : option ParkingAreaWithOccupancy) : bool :=
  match area with
  | None => true
  | Some a =>
      negb (JS.truthy_number (lat a))
      || negb (JS.truthy_number (lng a))
      || negb (truthy_name (name a))
      || JS.is_nullish (freeSlots a)
  end.

Definition greater_than (x : Q) (bound : Q) : bool :=
  negb (Qle_bool x bound).

Definition occupancyColor (pct : Q) : string :=
  if greater_than pct 80 then "#EF4444"
  else if greater_than pct 50 then "#F59E0B"
  else "#10B981".

(** What [L.divIcon] and [L.marker] are given for one area. *)
Record Marker := mkMarker {
  position : option Q * option Q;
  color    : string;
  label    : option Z;
  title    : option string;
  area     : string
}.

(** One iteration of [parkingAreas.forEach]: the markers it adds. *)
Definition markersOf (area : option ParkingAreaWithOccupancy)
  : list Marker :=
  match area with
  | None => []
  | Some a =>
      if invalid (Some a) then []
      else
        [ {| position := (lat a, lng a);
             color := occupancyColor (occupancyPercentage a);
             label := freeSlots a;
             title := name a;
             area := id a |} ]
  end.

Definition renderMarkers (parkingAreas : list (option ParkingAreaWithOccupancy))
  : list Marker :=
  flat_map markersOf parkingAreas.

(** *** [handleMarkerClick], its timer and the bound popup

    A marker has two click listeners: [handleMarkerClick] (line 222) and,
    registered after it by [marker.bindPopup(popupContent)] (line 233),
    the listener of Leaflet 1.9.4 that toggles the popup of the marker.
    Leaflet runs the listeners of an event in the order of registration. *)

Inductive Output :=
| OpenPopup (areaId : string)
| ClosePopup (areaId : string)
| AreaSelect (areaId : string).

Definition is_navigation (o : Output) : bool :=
  match o with
  | AreaSelect _ => true
  | OpenPopup _ | ClosePopup _ => false
  end.

Definition is_opening (o : Output) : bool :=
  match o with
  | OpenPopup _ => true
  | ClosePopup _ | AreaSelect _ => false
  end.

Definition is_closing (o : Output) : bool :=
  match o with
  | ClosePopup _ => true
  | OpenPopup _ | AreaSelect _ => false
  end.

(** The per-marker variables captured by the handler, the timers that
    [setTimeout] scheduled and that have neither fired nor been cleared
    (identifier and due time), whether the popup of the marker is on the
    map, and what the marker did so far.  The popup changes through this
    marker only: nothing else on the page closes it in between. *)
Record Sim := mkSim {
  clickCount   : nat;
  clickTimeout : option nat;
  pending      : list (nat * Z);
  nextTimer    : nat;
  popupOpen    : bool;
  outputs      : list Output
}.

Definition start : Sim :=
  {| clickCount := 0; clickTimeout := None; pending := [];
     nextTimer := 1; popupOpen := false; outputs := [] |}.

Definition timeout_ms : Z := 300.

Section Marker.

Variable areaId : string.
(** [marker && map.hasLayer(marker)] at a given time. *)
Variable hasLayer : Z -> bool.

(** [marker.openPopup()]: Leaflet adds the popup to the map unless the
    map has it already. *)
Definition openPopup (s : Sim) : Sim :=
  if popupOpen s then s
  else {| clickCount := clickCount s;
          clickTimeout := clickTimeout s;
          pending := pending s;
          nextTimer := nextTimer s;
          popupOpen := true;
          outputs := outputs s ++ [OpenPopup areaId] |}.

(** [marker.closePopup()] *)
Definition closePopup (s : Sim) : Sim :=
  if popupOpen s
  then {| clickCount := clickCount s;
          clickTimeout := clickTimeout s;
          pending := pending s;
          nextTimer := nextTimer s;
          popupOpen := false;
          outputs := outputs s ++ [ClosePopup areaId] |}
  else s.

(** The listener that [bindPopup] registers for [click] (Leaflet's
    [_openPopup]): nothing for a marker that is not on a map; otherwise
    the popup of the marker is closed if the map has it and opened if
    not. *)
Definition boundPopupClick (t : Z) (s : Sim) : Sim :=
  if hasLayer t
  then if popupOpen s then closePopup s else openPopup s
  else s.

(** The callback given to [setTimeout], run at time [t]. *)
Definition onTimeout (t : Z) (s : Sim) : Sim :=
  let s' := if hasLayer t then openPopup s else s in
  {| clickCount := 0;
     clickTimeout := clickTimeout s';
     pending := pending s';
     nextTimer := nextTimer s';
     popupOpen := popupOpen s';
     outputs := outputs s' |}.

Definition clearTimeout (timer : nat) (q : list (nat * Z))
  : list (nat * Z) :=
  filter (fun p => negb (Nat.eqb (fst p) timer)) q.

Definition handleMarkerClick (t : Z) (s : Sim) : Sim :=
  let clickCount := S (clickCount s) in
  if Nat.eqb clickCount 1 then
    {| clickCount := clickCount;
       clickTimeout := Some (nextTimer s);
       pending := pending s ++ [(nextTimer s, t + timeout_ms)];
       nextTimer := S (nextTimer s);
       popupOpen := popupOpen s;
       outputs := outputs s |}
  else if Nat.eqb clickCount 2 then
    {| clickCount := 0;
       clickTimeout := None;
       pending := match clickTimeout s with
                  | Some timer => clearTimeout timer (pending s)
                  | None => pending s
                  end;
       nextTimer := nextTimer s;
       popupOpen := popupOpen s;
       outputs := outputs s ++ [AreaSelect areaId] |}
  else
    {| clickCount := clickCount;
       clickTimeout := clickTimeout s;
       pending := pending s;
       nextTimer := nextTimer s;
       popupOpen := popupOpen s;
       outputs := outputs s |}.

(** The timers of [q] that are due at time [t] fire, oldest first,
    each at its due time. *)
Fixpoint fire (due : Z -> bool) (q : list (nat * Z)) (s : Sim) : Sim :=
  match q with
  | [] => s
  | (timer, at_) :: q' =>
      if due at_
      then fire due q'
             (onTimeout at_
                {| clickCount := clickCount s;
                   clickTimeout := clickTimeout s;
                   pending := clearTimeout timer (pending s);
                   nextTimer := nextTimer s;
                   popupOpen := popupOpen s;
                   outputs := outputs s |})
      else fire due q' s
  end.

(** Time passes until [t]: a timer due at [t] or before has fired. *)
Definition advance (t : Z) (s : Sim) : Sim :=
  fire (fun at_ => at_ <=? t) (pending s) s.

(** A click on the marker at time [t]: the two listeners run in the
    order of their registration. *)
Definition click (t : Z) (s : Sim) : Sim :=
  boundPopupClick t (handleMarkerClick t s).

(** An activation of the marker at time [t]. *)
Definition activate (s : Sim) (t : Z) : Sim :=
  click t (advance t s).

(** No further activation: every timer still scheduled fires. *)
Definition settle (s : Sim) : Sim :=
  fire (fun _ => true) (pending s) s.

(** The activations at the given times, then quiet. *)
Definition gesture (times : list Z) : Sim :=
  settle (fold_left activate times start).

End Marker.

End MapTilerMap.

(** ** Concrete data used to exercise the definitions *)

Module Scenario.

Definition slot (n : Z) (status : string) : Slot :=
  {| slot_id := "slot-" ++ JS.show_number (Some n);
     parking_area_id := "area-1";
     slot_number := n;
     slot_status := status |}.

(** Six free, three occupied and one reserved slot. *)
Definition ten_slots : list Slot :=
  [ slot 1 "free"; slot 2 "occupied"; slot 3 "free"; slot 4 "reserved";
    slot 5 "free"; slot 6 "occupied"; slot 7 "free"; slot 8 "free";
    slot 9 "occupied"; slot 10 "free" ].

(** Two occupied slots, for an area that declares a capacity of one. *)
Definition two_occupied : list Slot :=
  [ slot 1 "occupied"; slot 2 "occupied" ].

(** Seven occupied slots, for an area that declares a capacity of 100. *)
Definition seven_occupied : list Slot :=
  map (fun n => slot n "occupied") [1; 2; 3; 4; 5; 6; 7].

(** A backend on which every request succeeds. *)
Definition reliable : Backend :=
  {| write_error := fun _ _ => None;
     slot_rows := fun _ _ => {| data := Some ten_slots; error := None |} |}.

(** A backend that refuses to insert reservations. *)
Definition insert_fails : Backend :=
  {| write_error := fun _ r =>
       match r with
       | InsertReservation _ => Some "insert refused"
       | _ => None
       end;
     slot_rows := fun _ _ => {| data := Some ten_slots; error := None |} |}.

(** A backend that refuses to update reservations. *)
Definition reservation_update_fails : Backend :=
  {| write_error := fun _ r =>
       match r with
       | UpdateReservationStatus _ _ => Some "update refused"
       | _ => None
       end;
     slot_rows := fun _ _ => {| data := Some ten_slots; error := None |} |}.

(** A backend that refuses to update slots. *)
Definition slot_update_fails : Backend :=
  {| write_error := fun _ r =>
       match r with
       | UpdateSlotStatus _ _ => Some "update refused"
       | _ => None
       end;
     slot_rows := fun _ _ => {| data := Some ten_slots; error := None |} |}.

Definition alice : Dashboard.User := {| Dashboard.user_id := "alice" |}.

(** The Dashboard with the dialog open on the free slot [slot-1]. *)
Definition dialog_on_slot_1 : Dashboard.State :=
  {| Dashboard.user := Some alice;
     Dashboard.selectedAreaId := "area-1";
     Dashboard.slots := ten_slots;
     Dashboard.userReservations := [];
     Dashboard.reserveSlotId := "slot-1";
     Dashboard.selectedSlotNumber := 1 |}.

Definition reservation (id slotId status : string) : Reservation :=
  {| res_id := id; res_user_id := "alice"; res_slot_id := slotId;
     res_start_time := "2025-01-01T10:00"; res_end_time := "2025-01-01T11:00";
     res_status := status; res_created_at := "2025-01-01T09:00" |}.

(** A profile with one active and one completed reservation. *)
Definition profile : Profile.State :=
  {| Profile.reservations :=
       [ reservation "r-1" "slot-4" "active";
         reservation "r-2" "slot-7" "completed" ];
     Profile.isLoading := false |}.

Definition area (name : string) (lat lng : option Q) (free : option Z)
           (pct : Q) : MapTilerMap.ParkingAreaWithOccupancy :=
  {| MapTilerMap.id := "area-" ++ name;
     MapTilerMap.name := Some name;
     MapTilerMap.lat := lat;
     MapTilerMap.lng := lng;
     MapTilerMap.freeSlots := free;
     MapTilerMap.occupancyPercentage := pct |}.

(** Three areas in Bengaluru, one on the equator, one without a name and
    one without a free-slot count. *)
Definition areas : list (option MapTilerMap.ParkingAreaWithOccupancy) :=
  [ Some (area "Tech Park" (Some (1296 # 100)) (Some (7772 # 100))
               (Some 2) (90 # 1));
    Some (area "Mall" (Some (1295 # 100)) (Some (7770 # 100))
               (Some 12) (60 # 1));
    Some (area "Station" (Some (1297 # 100)) (Some (7771 # 100))
               (Some 30) (50 # 1));
    Some (area "Equator" (Some (0 # 1)) (Some (7770 # 100)) (Some 5)
               (10 # 1));
    Some (area "" (Some (1295 # 100)) (Some (7770 # 100)) (Some 5)
               (10 # 1));
    Some (area "Unknown" (Some (1295 # 100)) (Some (7770 # 100)) None
               (10 # 1)) ].

End Scenario.

(** ** pages/MapView.tsx : the page around the aggregation *)

(** Where a selection sends the browser. *)
Module Navigation.

Inductive Navigation :=
| LocationAssign (areaId : string)
    (* window.location.href = `/dashboard?area=<areaId>` *)
| RouterNavigate (areaId : string).
    (* navigate(`/dashboard?area=${areaId}`) *)

End Navigation.
Import Navigation.

Module MapViewPage.

(** [{ ...area, freeSlots, occupiedSlots, reservedSlots,
       occupancyPercentage }] *)
Record AreaWithOccupancy := mkEntry {
  area      : ParkingArea;
  occupancy : MapView.Occupancy
}.

Record State := mkState {
  parkingAreasWithOccupancy : list AreaWithOccupancy;
  selectedArea              : option AreaWithOccupancy;
  loading                   : bool
}.

Definition setParkingAreasWithOccupancy (v : list AreaWithOccupancy)
           (s : State) : State :=
  {| parkingAreasWithOccupancy := v; selectedArea := selectedArea s;
     loading := loading s |}.

Definition setSelectedArea (v : option AreaWithOccupancy) (s : State)
  : State :=
  {| parkingAreasWithOccupancy := parkingAreasWithOccupancy s;
     selectedArea := v; loading := loading s |}.

Definition setLoading (v : bool) (s : State) : State :=
  {| parkingAreasWithOccupancy := parkingAreasWithOccupancy s;
     selectedArea := selectedArea s; loading := v |}.

(** [fetchParkingAreasWithOccupancy], given the answer to the areas query
    and, for each area id, the answer to its slots query.  An [error] of
    the areas query is thrown and caught; [finally] clears [loading]. *)
Definition fetchParkingAreasWithOccupancy
           (areas : Response (list ParkingArea))
           (slotsOf : string -> Response (list Slot))
           (s : State) : State * list Toast :=
  let s := setLoading true s in
  match error areas with
  | Some _ =>
      (setLoading false s, [ToastError "Failed to load parking areas"])
  | None =>
      match data areas with
      | None => (setLoading false (setParkingAreasWithOccupancy [] s), [])
      | Some rows =>
          let areasWithOccupancy :=
            map (fun a =>
                   {| area := a;
                      occupancy :=
                        MapView.areaOccupancy a (slotsOf (area_id a)) |})
                rows in
          (setLoading false
             (setParkingAreasWithOccupancy areasWithOccupancy s), [])
      end
  end.

(** [areaData || parkingAreasWithOccupancy.find(a => a.id === areaId)] *)
Definition selectedAreaData (areaId : string)
           (areaData : option AreaWithOccupancy) (s : State)
  : option AreaWithOccupancy :=
  match areaData with
  | Some d => Some d
  | None =>
      find (fun a => (area_id (area a) =? areaId)%string)
           (parkingAreasWithOccupancy s)
  end.

Definition handleAreaSelect (areaId : string)
           (areaData : option AreaWithOccupancy) (s : State)
  : State * list Navigation :=
  match selectedAreaData areaId areaData s with
  | Some d => (setSelectedArea (Some d) s, [LocationAssign areaId])
  | None => (s, [])
  end.

(** [selectedArea.freeSlots > 0 ? 'Available' : 'Full'] *)
Definition availability (e : AreaWithOccupancy) : string :=
  if (0 <? MapView.freeSlots (occupancy e))%nat then "Available"
  else "Full".

End MapViewPage.

(** ** The map component: selection plumbing *)

Module GoogleMapComponent.

Section Component.

(** The element type of the [parkingAreas] prop, the parent's state and
    the parent's [onAreaSelect]. *)
Variables (A Parent : Type).
Variable idOf : A -> string.
Variable onAreaSelect :
  string -> option A -> Parent -> Parent * list Navigation.

Record State := mkState { selectedArea : option A }.

Definition handleAreaSelect (areaId : string) (areaData : option A)
           (s : State) (p : Parent) : State * Parent * list Navigation :=
  let s' := match areaData with
            | Some d => {| selectedArea := Some d |}
            | None => s
            end in
  let '(p', navs) := onAreaSelect areaId areaData p in
  (s', p', (navs ++ [RouterNavigate areaId])%list).

(** [window.selectParkingArea], the handler of the popup's buttons. *)
Definition selectParkingArea (parkingAreas : list A) (areaId : string)
           (s : State) (p : Parent) : State * Parent * list Navigation :=
  match find (fun a => (idOf a =? areaId)%string) parkingAreas with
  | Some selectedArea => handleAreaSelect areaId (Some selectedArea) s p
  | None => (s, p, [])
  end.

(** What the marker's double activation calls:
    [onAreaSelect(area.id, area)]. *)
Definition markerSelect (a : A) (s : State) (p : Parent)
  : State * Parent * list Navigation :=
  handleAreaSelect (idOf a) (Some a) s p.

End Component.

Arguments selectedArea {A} _.
Arguments mkState {A} _.

End GoogleMapComponent.

(** ** The Dashboard page: area list and monitored system *)

Module DashboardAreas.

Record State := mkState {
  parkingAreas   : list ParkingArea;
  selectedAreaId : string
}.

Definition setParkingAreas (v : list ParkingArea) (s : State) : State :=
  {| parkingAreas := v; selectedAreaId := selectedAreaId s |}.

Definition setSelectedAreaId (v : string) (s : State) : State :=
  {| parkingAreas := parkingAreas s; selectedAreaId := v |}.

Definition listed (areaId : string) (rows : list ParkingArea) : bool :=
  match find (fun a => (area_id a =? areaId)%string) rows with
  | Some _ => true
  | None => false
  end.

(** [fetchParkingAreas] after its [await]; [areaFromUrl] is
    [searchParams.get('area')].  The function is created by an effect
    whose dependencies are [[searchParams]]: the [selectedAreaId] that
    line 333 tests is the one of the render that created the function,
    [captured], whereas the setters act on the state of the page as it is
    when the answer arrives. *)
Definition fetchParkingAreas (areaFromUrl : option string)
           (captured : string)
           (resp : Response (list ParkingArea)) (s : State)
  : State * list Toast :=
  match error resp with
  | Some _ => (s, [ToastError "Failed to load parking areas"])
  | None =>
      match data resp with
      | Some rows =>
          let s1 := setParkingAreas rows s in
          let otherwise :=
            match rows with
            | first :: _ =>
                if negb (JS.truthy_string captured)
                then setSelectedAreaId (area_id first) s1
                else s1
            | [] => s1
            end in
          match areaFromUrl with
          | Some url =>
              if JS.truthy_string url && listed url rows
              then (setSelectedAreaId url s1, [])
              else (otherwise, [])
          | None => (otherwise, [])
          end
      | None => (s, [])
      end
  end.

(** The effect as the page runs it: the function captures the selection
    of the state [rendered], in which the effect ran, and its answer
    arrives in the state [s]. *)
Definition areasEffect (areaFromUrl : option string) (rendered : State)
           (resp : Response (list ParkingArea)) (s : State)
  : State * list Toast :=
  fetchParkingAreas areaFromUrl (selectedAreaId rendered) resp s.

(** The id that a successful fetch of the areas selects. *)
Definition url_chosen (areaFromUrl : option string)
           (rows : list ParkingArea) (captured current : string) : string :=
  let otherwise :=
    match rows with
    | first :: _ =>
        if negb (JS.truthy_string captured) then area_id first else current
    | [] => current
    end in
  match areaFromUrl with
  | Some url =>
      if JS.truthy_string url && listed url rows then url else otherwise
  | None => otherwise
  end.

(** [parkingAreas.find(area => area.id === selectedAreaId)] *)
Definition selectedArea (s : State) : option ParkingArea :=
  find (fun a => (area_id a =? selectedAreaId s)%string) (parkingAreas s).

(** *** The [systemId] prop of the status indicator *)

Definition is_upper (c : ascii) : bool :=
  let n := nat_of_ascii c in (65 <=? n)%nat && (n <=? 90)%nat.

(** [\s] on the ASCII range: tab, line feed, vertical tab, form feed,
    carriage return and space. *)
Definition is_space (c : ascii) : bool :=
  let n := nat_of_ascii c in
  ((9 <=? n)%nat && (n <=? 13)%nat) || (n =? 32)%nat.

Definition lower (c : ascii) : ascii :=
  if is_upper c then ascii_of_nat (nat_of_ascii c + 32) else c.

(** [toLowerCase()] of a name written in ASCII. *)
Fixpoint toLowerCase (s : string) : string :=
  match s with
  | EmptyString => EmptyString
  | String c r => String (lower c) (toLowerCase r)
  end.

(** [replace(/\s+/g, '_')]: every maximal run of white space becomes one
    underscore; [in_run] tells that the previous character was white space. *)
Fixpoint replace_spaces (in_run : bool) (s : string) : string :=
  match s with
  | EmptyString => EmptyString
  | String c r =>
      if is_space c
      then if in_run then replace_spaces true r
           else String "_" (replace_spaces true r)
      else String c (replace_spaces false r)
  end.

(** [selectedArea
       ? `parking_monitor_${selectedArea.name.toLowerCase()
                              .replace(/\s+/g, '_')}`
       : undefined] *)
Definition systemIdOf (selectedArea : option ParkingArea) : option string :=
  match selectedArea with
  | Some a =>
      Some ("parking_monitor_"
              ++ replace_spaces false (toLowerCase (area_name a)))
  | None => None
  end.

Fixpoint all_chars (p : ascii -> bool) (s : string) : bool :=
  match s with
  | EmptyString => true
  | String c r => p c && all_chars p r
  end.

Definition is_ascii (c : ascii) : bool := (nat_of_ascii c <? 128)%nat.

End DashboardAreas.

(** ** The status card *)

Module StatusCard.

Record Config := mkConfig {
  icon        : string;
  color       : string;
  bgColor     : string;
  borderColor : string;
  label       : string;
  description : string
}.

Definition getStatusConfig (statusLevel : SystemStatusIndicator.StatusLevel)
  : Config :=
  match statusLevel with
  | SystemStatusIndicator.healthy =>
      {| icon := "CheckCircle";
         color := "text-green-600";
         bgColor := "bg-green-50";
         borderColor := "border-green-200";
         label := "Online";
         description := "Monitoring system is running normally" |}
  | SystemStatusIndicator.warning =>
      {| icon := "AlertCircle";
         color := "text-yellow-600";
         bgColor := "bg-yellow-50";
         borderColor := "border-yellow-200";
         label := "Warning";
         description := "Last update was a few minutes ago" |}
  | SystemStatusIndicator.critical =>
      {| icon := "AlertCircle";
         color := "text-red-600";
         bgColor := "bg-red-50";
         borderColor := "border-red-200";
         label := "Offline";
         description := "Monitoring system appears to be down" |}
  end.

(** The level that the stored record calls for. *)
Definition expectedLevel (stored : option SystemStatus)
  : SystemStatusIndicator.StatusLevel :=
  match stored with
  | Some row =>
      if (sys_status row =? "online")%string
      then SystemStatusIndicator.healthy
      else SystemStatusIndicator.critical
  | None => SystemStatusIndicator.critical
  end.

(** The displayed level agrees with the stored record. *)
Definition consistent (s : SystemStatusIndicator.State) : Prop :=
  SystemStatusIndicator.statusLevel s
  = expectedLevel (SystemStatusIndicator.systemStatus s).

End StatusCard.

(** ** The marker's cleanup and the shape of its state *)

Module MarkerLifecycle.

Import MapTilerMap.

(** [marker._clickCleanup]: the pending timer is cleared and
    [handleMarkerClick] is taken off the marker. *)
Definition clickCleanup (s : Sim) : Sim :=
  match clickTimeout s with
  | Some timer =>
      {| clickCount := clickCount s;
         clickTimeout := None;
         pending := clearTimeout timer (pending s);
         nextTimer := nextTimer s;
         popupOpen := popupOpen s;
         outputs := outputs s |}
  | None => s
  end.

(** Between two activations the handler either waits for nothing or has
    counted one click whose timer, the one it remembers, is the only one
    scheduled. *)
Definition idle (s : Sim) : Prop :=
  clickCount s = 0%nat /\ pending s = [].

Definition waiting (s : Sim) : Prop :=
  clickCount s = 1%nat
  /\ exists timer due,
       clickTimeout s = Some timer /\ pending s = [(timer, due)].

Definition selections (s : Sim) : nat :=
  JS.count is_navigation (outputs s).

Definition openings (s : Sim) : nat :=
  JS.count is_opening (outputs s).

Definition closings (s : Sim) : nat :=
  JS.count is_closing (outputs s).

(** The popups that are open according to what the marker did. *)
Definition open_now (s : Sim) : nat :=
  if popupOpen s then 1%nat else 0%nat.

End MarkerLifecycle.

(** ** The statuses that the counters know *)

Module DashboardView.

(** A status that one of the three counters counts. *)
Definition known_status (s : Slot) : bool :=
  (slot_status s =? "free")%string
  || (slot_status s =? "occupied")%string
  || (slot_status s =? "reserved")%string.

End DashboardView.

(** ** More concrete data *)

Module Cases.

Definition whitefield : ParkingArea :=
  {| area_id := "a-1"; area_name := "Tech Park  Whitefield";
     area_lat := Some (1296 # 100); area_lng := Some (7772 # 100);
     total_slots := Some 10 |}.

Definition mall : ParkingArea :=
  {| area_id := "a-2"; area_name := "Mall";
     area_lat := Some (1295 # 100); area_lng := Some (7770 # 100);
     total_slots := Some 2 |}.

Definition entry (a : ParkingArea) (slots : list Slot)
  : MapViewPage.AreaWithOccupancy :=
  {| MapViewPage.area := a;
     MapViewPage.occupancy :=
       MapView.aggregate_double (Some slots) (total_slots a) |}.

Definition map_page : MapViewPage.State :=
  {| MapViewPage.parkingAreasWithOccupancy :=
       [entry whitefield Scenario.ten_slots;
        entry mall Scenario.two_occupied];
     MapViewPage.selectedArea := None;
     MapViewPage.loading := false |}.

(** The Dashboard before any slot is selected. *)
Definition browsing : Dashboard.State :=
  {| Dashboard.user := Some Scenario.alice;
     Dashboard.selectedAreaId := "area-1";
     Dashboard.slots := Scenario.ten_slots;
     Dashboard.userReservations := [];
     Dashboard.reserveSlotId := "";
     Dashboard.selectedSlotNumber := 0 |}.

(** The slots of the scenario once slot 1 has been taken by a car. *)
Definition slot_one_taken : list Slot :=
  Scenario.slot 1 "occupied" :: tl Scenario.ten_slots.

(** A backend on which every request succeeds and whose slot query shows
    slot 1 as occupied. *)
Definition after_takeover : Backend :=
  {| write_error := fun _ _ => None;
     slot_rows := fun _ _ =>
       {| data := Some slot_one_taken; error := None |} |}.

(** A backend whose slot query fails. *)
Definition slots_unavailable : Backend :=
  {| write_error := fun _ _ => None;
     slot_rows := fun _ _ => {| data := None; error := Some "timeout" |} |}.

Definition epoch (_ : string) : option Z := Some 0.

Definition record (status : string) : SystemStatus :=
  {| system_id := "parking_monitor_tech_park_whitefield";
     last_heartbeat := "1970-01-01T00:00:00Z";
     sys_status := status;
     sys_location := None |}.

End Cases.

(** * Properties *)

(** ** Double-precision rounding *)

Section Rounding.
Import Double.

Lemma pow2_pos e : (0 < pow2 e)%Q.
Proof. apply Qpower_0_lt. reflexivity. Qed.

Lemma pow2_add a b : (pow2 (a + b) == pow2 a * pow2 b)%Q.
Proof. apply Qpower_plus. discriminate. Qed.

Lemma pow2_nat n : 0 <= n -> (pow2 n == inject_Z (2 ^ n))%Q.
Proof. intro H. unfold pow2. now rewrite Zpower_Qpower. Qed.

Lemma nearest_even_error (m : Q) :
  (Qabs (inject_Z (nearest_even m) - m) <= 1 # 2)%Q.
Proof.
  unfold nearest_even.
  pose proof (Qfloor_le m) as L. pose proof (Qlt_floor m) as U.
  rewrite inject_Z_plus in U. change (inject_Z 1) with 1%Q in U.
  apply Qabs_Qle_condition.
  destruct (m - inject_Z (Qfloor m) ?= 1 # 2)%Q eqn:C.
  - apply Qeq_alt in C.
    destruct (Z.even (Qfloor m));
      [|rewrite inject_Z_plus; change (inject_Z 1) with 1%Q];
      split; lra.
  - apply Qlt_alt in C. split; lra.
  - apply Qgt_alt in C. rewrite inject_Z_plus.
    change (inject_Z 1) with 1%Q. split; lra.
Qed.

Lemma nearest_even_nonneg (m : Q) : (0 <= m)%Q -> 0 <= nearest_even m.
Proof.
  intro H. unfold nearest_even.
  assert (F : 0 <= Qfloor m).
  { change 0 with (Qfloor 0). now apply Qfloor_resp_le. }
  destruct (_ ?= _)%Q; [destruct (Z.even _)| |]; lia.
Qed.

Lemma exponent_lower (x : Q) : (0 < x)%Q -> (pow2 (exponent x) <= x)%Q.
Proof.
  intro P. unfold exponent.
  destruct (Qle_bool _ x) eqn:T; [now apply Qle_bool_iff|].
  destruct x as [a b]. cbn [Qnum Qden].
  assert (A : 0 < a) by (unfold Qlt in P; cbn in P; lia).
  destruct (Z.log2_spec a A) as [La _].
  destruct (Z.log2_spec (Z.pos b) eq_refl) as [_ Ub].
  pose proof (Z.log2_nonneg a) as Na.
  pose proof (Z.log2_nonneg (Z.pos b)) as Nb.
  replace (Z.log2 a - Z.log2 (Z.pos b) - 1)
    with (Z.log2 a - Z.succ (Z.log2 (Z.pos b))) by lia.
  unfold pow2. rewrite Qpower_minus by discriminate.
  change (2 ^ Z.log2 a)%Q with (inject_Z 2 ^ Z.log2 a)%Q.
  change (2 ^ Z.succ (Z.log2 (Z.pos b)))%Q
    with (inject_Z 2 ^ Z.succ (Z.log2 (Z.pos b)))%Q.
  rewrite <- !Zpower_Qpower by lia.
  set (p := 2 ^ Z.log2 a) in *. set (q := 2 ^ Z.succ (Z.log2 (Z.pos b))) in *.
  assert (Qp : 0 < q) by lia.
  rewrite (Qmake_Qdiv a b).
  apply Qle_shift_div_l; [unfold Qlt; cbn; lia|].
  unfold Qdiv. rewrite <- Qmult_assoc, (Qmult_comm (/ _)), Qmult_assoc.
  apply Qle_shift_div_r; [unfold Qlt; cbn; lia|].
  rewrite <- !inject_Z_mult. rewrite <- Zle_Qle. nia.
Qed.

Lemma exponent_upper (x : Q) : (0 < x)%Q -> (x < pow2 (exponent x + 1))%Q.
Proof.
  intro P. unfold exponent.
  destruct (Qle_bool _ x) eqn:T.
  - destruct x as [a b]. cbn [Qnum Qden].
    assert (A : 0 < a) by (unfold Qlt in P; cbn in P; lia).
    destruct (Z.log2_spec a A) as [_ Ua].
    destruct (Z.log2_spec (Z.pos b) eq_refl) as [Lb _].
    pose proof (Z.log2_nonneg a) as Na.
    pose proof (Z.log2_nonneg (Z.pos b)) as Nb.
    replace (Z.log2 a - Z.log2 (Z.pos b) + 1)
      with (Z.succ (Z.log2 a) - Z.log2 (Z.pos b)) by lia.
    unfold pow2. rewrite Qpower_minus by discriminate.
    change (2 ^ Z.succ (Z.log2 a))%Q with (inject_Z 2 ^ Z.succ (Z.log2 a))%Q.
    change (2 ^ Z.log2 (Z.pos b))%Q with (inject_Z 2 ^ Z.log2 (Z.pos b))%Q.
    rewrite <- !Zpower_Qpower by lia.
    set (p := 2 ^ Z.succ (Z.log2 a)) in *. set (q := 2 ^ Z.log2 (Z.pos b)) in *.
    assert (Qp : 0 < q) by lia.
    rewrite (Qmake_Qdiv a b).
    apply Qlt_shift_div_l; [unfold Qlt; cbn; lia|].
    unfold Qdiv. rewrite <- Qmult_assoc, (Qmult_comm (/ _)), Qmult_assoc.
    apply Qlt_shift_div_r; [unfold Qlt; cbn; lia|].
    rewrite <- !inject_Z_mult. rewrite <- Zlt_Qlt. nia.
  - replace (Z.log2 (Qnum x) - Z.log2 (Z.pos (Qden x)) - 1 + 1)
      with (Z.log2 (Qnum x) - Z.log2 (Z.pos (Qden x))) by lia.
    apply Qnot_le_lt. intro H. apply Qle_bool_iff in H. congruence.
Qed.

Lemma ulp_split (e : Z) :
  (pow2 (e - 52) == pow2 e * pow2 (-52))%Q.
Proof. replace (e - 52) with (e + -52) by lia. apply pow2_add. Qed.

Lemma round_positive_error (x : Q) :
  (0 < x)%Q ->
  (Qabs (round_positive x - x) <= x * pow2 (-53))%Q.
Proof.
  intro P. unfold round_positive.
  set (u := pow2 (exponent x - 52)).
  assert (U : (0 < u)%Q) by apply pow2_pos.
  pose proof (nearest_even_error (x / u)) as E.
  apply Qabs_Qle_condition in E.
  set (n := inject_Z (nearest_even (x / u))) in *.
  pose proof (exponent_lower x P) as L.
  assert (H : (u * (1 # 2) <= x * pow2 (-53))%Q).
  { unfold u. rewrite ulp_split.
    assert (C : (pow2 (-52) * (1 # 2) == pow2 (-53))%Q) by reflexivity.
    rewrite <- Qmult_assoc, C.
    apply Qmult_le_compat_r; [exact L|]. apply Qlt_le_weak, pow2_pos. }
  assert (D : (n * u - x == (n - x / u) * u)%Q)
    by (field; intro Z; rewrite Z in U; now apply Qlt_irrefl in U).
  apply Qabs_Qle_condition. rewrite D.
  destruct E as [E1 E2].
  assert (B1 : ((n - x / u) * u <= (1 # 2) * u)%Q)
    by (apply Qmult_le_compat_r; [exact E2 | now apply Qlt_le_weak]).
  assert (B2 : (- (1 # 2) * u <= (n - x / u) * u)%Q)
    by (apply Qmult_le_compat_r; [exact E1 | now apply Qlt_le_weak]).
  split; lra.
Qed.

Lemma round_positive_nonneg (x : Q) : (0 < x)%Q -> (0 <= round_positive x)%Q.
Proof.
  intro P. unfold round_positive.
  apply Qmult_le_0_compat; [|apply Qlt_le_weak, pow2_pos].
  change 0%Q with (inject_Z 0). rewrite <- Zle_Qle.
  apply nearest_even_nonneg. apply Qle_shift_div_l; [apply pow2_pos|]. lra.
Qed.

Lemma round_of_nonneg (x : Q) :
  (0 <= x)%Q ->
  (0 <= round x)%Q /\ (Qabs (round x - x) <= x * pow2 (-53))%Q.
Proof.
  intro N. unfold round. destruct x as [a b]. cbn [Qnum].
  destruct a as [|a|a].
  - split; [apply Qle_refl|]. apply Qabs_Qle_condition.
    assert (Z : (0 # b == 0)%Q) by reflexivity. rewrite Z. split; lra.
  - assert (P : (0 < Z.pos a # b)%Q) by reflexivity.
    split; [now apply round_positive_nonneg | now apply round_positive_error].
  - exfalso. unfold Qle in N. cbn in N. lia.
Qed.

(** A quotient of non-negative numbers, rounded, times 100, rounded: the
    two relative errors of [2^-53] add up to less than [2^-51]. *)
Lemma quotient_times_100 (k t : Q) :
  (0 <= k)%Q -> (0 < t)%Q ->
  (Qabs (mul (div k t) 100 - 100 * k / t) <= (100 * k / t) * pow2 (-51))%Q.
Proof.
  intros K T. unfold mul, div.
  assert (Q0 : (0 <= k / t)%Q) by (apply Qle_shift_div_l; lra).
  destruct (round_of_nonneg (k / t) Q0) as [N1 E1].
  assert (P0 : (0 <= round (k / t) * 100)%Q) by lra.
  destruct (round_of_nonneg _ P0) as [_ E2].
  apply Qabs_Qle_condition in E1, E2. apply Qabs_Qle_condition.
  assert (X : (100 * k / t == 100 * (k / t))%Q)
    by (field; intro Z; rewrite Z in T; now apply Qlt_irrefl in T).
  rewrite X. set (q := (k / t)%Q) in *. set (r1 := round q) in *.
  set (r2 := round (r1 * 100)) in *.
  change (pow2 (-53)) with (1 # 9007199254740992)%Q in *.
  change (pow2 (-51)) with (1 # 2251799813685248)%Q.
  split; lra.
Qed.

Lemma pow2_lt (a b : Z) : a < b -> (pow2 a < pow2 b)%Q.
Proof. intro H. apply Qpower_lt_compat_l; [exact H | reflexivity]. Qed.

Lemma pow2_le (a b : Z) : a <= b -> (pow2 a <= pow2 b)%Q.
Proof. intro H. apply Qpower_le_compat_l; [exact H | discriminate]. Qed.

Lemma pow2_lt_inv (a b : Z) : (pow2 a < pow2 b)%Q -> a < b.
Proof. intro H. apply (Qpower_lt_compat_l_inv 2); [exact H | reflexivity]. Qed.

Lemma exponent_monotone (x y : Q) :
  (0 < x)%Q -> (x <= y)%Q -> exponent x <= exponent y.
Proof.
  intros P L.
  assert (Py : (0 < y)%Q) by lra.
  pose proof (exponent_lower x P) as Lx.
  pose proof (exponent_upper y Py) as Uy.
  assert (H : (pow2 (exponent x) < pow2 (exponent y + 1))%Q) by lra.
  apply pow2_lt_inv in H. lia.
Qed.

Lemma nearest_even_le (m : Q) (n : Z) :
  (m <= inject_Z n)%Q -> nearest_even m <= n.
Proof.
  intro H. unfold nearest_even.
  pose proof (Qfloor_le m) as L.
  assert (F : Qfloor m <= n).
  { rewrite <- (Qfloor_Z n). now apply Qfloor_resp_le. }
  destruct (Z.eq_dec (Qfloor m) n) as [E|E].
  - rewrite E in *.
    assert (C : (m - inject_Z n ?= 1 # 2)%Q = Lt).
    { apply (proj1 (Qlt_alt _ _)). lra. }
    rewrite C. lia.
  - destruct (_ ?= _)%Q; [destruct (Z.even _)| |]; lia.
Qed.

Lemma nearest_even_ge (m : Q) (n : Z) :
  (inject_Z n <= m)%Q -> n <= nearest_even m.
Proof.
  intro H. unfold nearest_even.
  assert (F : n <= Qfloor m).
  { rewrite <- (Qfloor_Z n). now apply Qfloor_resp_le. }
  destruct (_ ?= _)%Q; [destruct (Z.even _)| |]; lia.
Qed.

Lemma nearest_even_monotone (m m' : Q) :
  (m <= m')%Q -> nearest_even m <= nearest_even m'.
Proof.
  intro H.
  assert (F : Qfloor m <= Qfloor m') by now apply Qfloor_resp_le.
  destruct (Z.eq_dec (Qfloor m) (Qfloor m')) as [E|E].
  - unfold nearest_even. rewrite <- E.
    destruct (m - inject_Z (Qfloor m) ?= 1 # 2)%Q eqn:C;
      destruct (m' - inject_Z (Qfloor m) ?= 1 # 2)%Q eqn:C';
      try (destruct (Z.even (Qfloor m))); try lia;
      repeat match goal with
             | K : (_ ?= _)%Q = Eq |- _ => apply Qeq_alt in K
             | K : (_ ?= _)%Q = Lt |- _ => apply Qlt_alt in K
             | K : (_ ?= _)%Q = Gt |- _ => apply Qgt_alt in K
             end;
      lra.
  - apply Z.le_trans with (Qfloor m').
    + apply nearest_even_le.
      pose proof (Qlt_floor m) as U.
      assert (S : (inject_Z (Qfloor m + 1) <= inject_Z (Qfloor m'))%Q)
        by (rewrite <- Zle_Qle; lia).
      lra.
    + apply nearest_even_ge. apply Qfloor_le.
Qed.

Lemma scaled_by_ulp (x : Q) (e : Z) : (x / pow2 e * pow2 e == x)%Q.
Proof.
  field. intro Z. pose proof (pow2_pos e) as P. rewrite Z in P.
  now apply Qlt_irrefl in P.
Qed.

Lemma binade_in_ulps (e : Z) :
  (pow2 e / pow2 (e - 52) == inject_Z (2 ^ 52))%Q
  /\ (pow2 (e + 1) / pow2 (e - 52) == inject_Z (2 ^ 53))%Q.
Proof.
  assert (N : ~ (pow2 (e - 52) == 0)%Q).
  { intro Z. pose proof (pow2_pos (e - 52)) as P. rewrite Z in P.
    now apply Qlt_irrefl in P. }
  assert (A : (pow2 e == pow2 52 * pow2 (e - 52))%Q).
  { rewrite <- pow2_add. replace (52 + (e - 52)) with e by lia.
    reflexivity. }
  assert (B : (pow2 (e + 1) == pow2 53 * pow2 (e - 52))%Q).
  { rewrite <- pow2_add. replace (53 + (e - 52)) with (e + 1) by lia.
    reflexivity. }
  rewrite A, B, <- (pow2_nat 52), <- (pow2_nat 53) by lia.
  split; field; exact N.
Qed.

(** The significand of a rounded positive number has 53 bits: it lies
    between [2^52] and [2^53]. *)
Lemma significand_range (x : Q) :
  (0 < x)%Q ->
  2 ^ 52 <= nearest_even (x / pow2 (exponent x - 52)) <= 2 ^ 53.
Proof.
  intro P.
  set (u := pow2 (exponent x - 52)).
  assert (U : (0 < u)%Q) by apply pow2_pos.
  destruct (binade_in_ulps (exponent x)) as [Lo Hi]. fold u in Lo, Hi.
  pose proof (exponent_lower x P) as L.
  pose proof (exponent_upper x P) as H.
  split.
  - apply nearest_even_ge. rewrite <- Lo.
    apply Qmult_le_compat_r; [exact L|].
    apply Qlt_le_weak, Qinv_lt_0_compat, U.
  - apply nearest_even_le. rewrite <- Hi.
    apply Qmult_le_compat_r; [now apply Qlt_le_weak|].
    apply Qlt_le_weak, Qinv_lt_0_compat, U.
Qed.

Lemma round_positive_binade (x : Q) :
  (0 < x)%Q ->
  (pow2 (exponent x) <= round_positive x
   /\ round_positive x <= pow2 (exponent x + 1))%Q.
Proof.
  intro P. destruct (significand_range x P) as [Lo Hi].
  unfold round_positive.
  set (u := pow2 (exponent x - 52)) in *.
  assert (U : (0 < u)%Q) by apply pow2_pos.
  destruct (binade_in_ulps (exponent x)) as [Elo Ehi]. fold u in Elo, Ehi.
  rewrite <- (scaled_by_ulp (pow2 (exponent x)) (exponent x - 52)).
  rewrite <- (scaled_by_ulp (pow2 (exponent x + 1)) (exponent x - 52)).
  fold u. rewrite Elo, Ehi.
  split; (apply Qmult_le_compat_r; [|now apply Qlt_le_weak]);
    rewrite <- Zle_Qle; assumption.
Qed.

Lemma round_positive_monotone (x y : Q) :
  (0 < x)%Q -> (x <= y)%Q -> (round_positive x <= round_positive y)%Q.
Proof.
  intros P L.
  assert (Py : (0 < y)%Q) by lra.
  pose proof (exponent_monotone x y P L) as E.
  destruct (Z.eq_dec (exponent x) (exponent y)) as [Same|Other].
  - unfold round_positive. rewrite Same.
    set (u := pow2 (exponent y - 52)).
    assert (U : (0 < u)%Q) by apply pow2_pos.
    apply Qmult_le_compat_r; [|now apply Qlt_le_weak].
    rewrite <- Zle_Qle. apply nearest_even_monotone.
    apply Qmult_le_compat_r; [exact L|].
    apply Qlt_le_weak, Qinv_lt_0_compat, U.
  - destruct (round_positive_binade x P) as [_ Hx].
    destruct (round_positive_binade y Py) as [Ly _].
    assert (B : (pow2 (exponent x + 1) <= pow2 (exponent y))%Q)
      by (apply pow2_le; lia).
    lra.
Qed.

(** Rounding keeps the order of non-negative numbers. *)
Lemma round_monotone (x y : Q) :
  (0 <= x)%Q -> (x <= y)%Q -> (round x <= round y)%Q.
Proof.
  intros N L.
  assert (Ny : (0 <= y)%Q) by lra.
  destruct (round_of_nonneg y Ny) as [Ry _].
  unfold round in *. destruct x as [a b], y as [c d]. cbn [Qnum] in *.
  destruct a as [|a|a].
  - exact Ry.
  - destruct c as [|c|c].
    + exfalso. unfold Qle in L. cbn in L. lia.
    + apply round_positive_monotone; [reflexivity | exact L].
    + exfalso. unfold Qle in Ny. cbn in Ny. lia.
  - exfalso. unfold Qle in N. cbn in N. lia.
Qed.

End Rounding.

(** ** Occupancy aggregation *)

Section Aggregation.
Import MapView.

Lemma count_is_count_occ (st : string) (l : list Slot) :
  JS.count (has_status st) l
  = count_occ string_dec (map slot_status l) st.
Proof.
  unfold JS.count, has_status.
  induction l as [|s l IH]; simpl; [reflexivity|].
  destruct (string_dec (slot_status s) st) as [E|E].
  - apply String.eqb_eq in E. rewrite E. simpl. now rewrite IH.
  - apply String.eqb_neq in E. now rewrite E.
Qed.

Lemma counts_within_length (l : list Slot) :
  (JS.count (has_status "free") l
   + JS.count (has_status "occupied") l
   + JS.count (has_status "reserved") l <= length l)%nat.
Proof.
  unfold JS.count, has_status.
  induction l as [|s l IH]; simpl; [lia|].
  destruct (slot_status s =? "free")%string eqn:F;
    destruct (slot_status s =? "occupied")%string eqn:O;
    destruct (slot_status s =? "reserved")%string eqn:R;
    simpl; try lia;
    repeat match goal with
           | H : (_ =? _)%string = true |- _ =>
               apply String.eqb_eq in H
           end;
    congruence.
Qed.

Lemma inject_pos (z : Z) : 0 < z -> (0 < inject_Z z)%Q.
Proof. intro H. unfold Qlt. simpl. lia. Qed.


Lemma percentage_double_nonneg (o r : nat) (total : Z) :
  (0 <= percentage_double o r total)%Q.
Proof.
  unfold percentage_double. destruct (0 <? total) eqn:H; [|apply Qle_refl].
  apply Z.ltb_lt in H. unfold Double.mul, Double.div.
  apply round_of_nonneg.
  apply Qmult_le_0_compat; [|discriminate].
  apply round_of_nonneg.
  apply Qle_shift_div_l; [now apply inject_pos|].
  rewrite Qmult_0_l. change 0%Q with (inject_Z 0). rewrite <- Zle_Qle. lia.
Qed.



(** The callback of [areas.map] is the aggregation whenever the slots of
    the area arrived without error, and all zeros otherwise. *)
Remark areaOccupancy_cases (area : ParkingArea) (resp : Response (list Slot)) :
  areaOccupancy area resp
  = match error resp with
    | None => aggregate_double (data resp) (total_slots area)
    | Some _ => mkOccupancy 0 0 0 0
    end.
Proof. reflexivity. Qed.

(** The rounded percentage stays within a relative error of [2^-51] of
    the exact one. *)
Lemma percentage_double_error (o r : nat) (total : Z) :
  0 < total ->
  (Qabs (percentage_double o r total
         - 100 * inject_Z (Z.of_nat (o + r)) / inject_Z total)
   <= (100 * inject_Z (Z.of_nat (o + r)) / inject_Z total)
      * Double.pow2 (-51))%Q.
Proof.
  intro H. unfold percentage_double.
  apply Z.ltb_lt in H as Hb. rewrite Hb.
  apply quotient_times_100; [|now apply inject_pos].
  change 0%Q with (inject_Z 0). rewrite <- Zle_Qle. lia.
Qed.

Lemma round_1 : (Double.round 1 == 1)%Q.
Proof. vm_compute. reflexivity. Qed.

Lemma round_100 : (Double.round 100 == 100)%Q.
Proof. vm_compute. reflexivity. Qed.

(** The least quotient above 1 of two whole numbers below [2^32] exceeds
    [1 + 2^-32], which is a double, as is its product with 100. *)
Lemma round_above_1 :
  (Double.round (4294967297 # 4294967296) == 4294967297 # 4294967296)%Q
  /\ (100 < Double.round ((4294967297 # 4294967296) * 100))%Q.
Proof. split; vm_compute; reflexivity. Qed.

Lemma quotient_at_most_1 (k t : Z) :
  0 <= k <= t -> 0 < t ->
  (0 <= inject_Z k / inject_Z t)%Q /\ (inject_Z k / inject_Z t <= 1)%Q.
Proof.
  intros K T. pose proof (inject_pos t T) as P. split.
  - apply Qle_shift_div_l; [exact P|]. rewrite Qmult_0_l.
    change 0%Q with (inject_Z 0). rewrite <- Zle_Qle. lia.
  - apply Qle_shift_div_r; [exact P|]. rewrite Qmult_1_l.
    rewrite <- Zle_Qle. lia.
Qed.

Lemma quotient_above_1 (k t : Z) :
  0 < t -> t < k -> k < 2 ^ 32 ->
  (4294967297 # 4294967296 <= inject_Z k / inject_Z t)%Q.
Proof.
  intros T K B. pose proof (inject_pos t T) as P.
  apply Qle_shift_div_l; [exact P|].
  unfold Qle, Qmult, inject_Z. cbn [Qnum Qden Pos.mul].
  change (2 ^ 32) with 4294967296 in B. lia.
Qed.

(** In double precision the percentage is at most 100 exactly when the
    occupied and reserved slots do not exceed the capacity. *)
Lemma percentage_double_le_100 (o r : nat) (total : Z) :
  0 < total -> Z.of_nat (o + r) < 2 ^ 32 ->
  (percentage_double o r total <= 100)%Q <-> Z.of_nat (o + r) <= total.
Proof.
  intros T B. unfold percentage_double.
  apply Z.ltb_lt in T as Tb. rewrite Tb. unfold Double.mul, Double.div.
  set (k := Z.of_nat (o + r)) in *.
  set (q := (inject_Z k / inject_Z total)%Q).
  split.
  - intro H. destruct (Z.le_gt_cases k total) as [L|G]; [exact L|].
    exfalso.
    pose proof (quotient_above_1 k total T G B) as Q1. fold q in Q1.
    destruct round_above_1 as [R1 R2].
    assert (M1 : (Double.round (4294967297 # 4294967296)
                  <= Double.round q)%Q)
      by (apply round_monotone; [discriminate | exact Q1]).
    assert (M2 : (Double.round ((4294967297 # 4294967296) * 100)
                  <= Double.round (Double.round q * 100))%Q).
    { apply round_monotone; [discriminate|]. lra. }
    lra.
  - intro L.
    destruct (quotient_at_most_1 k total) as [Q0 Q1]; [lia | exact T |].
    fold q in Q0, Q1.
    destruct (round_of_nonneg _ Q0) as [N1 _].
    assert (M1 : (Double.round q <= Double.round 1)%Q)
      by (apply round_monotone; assumption).
    rewrite round_1 in M1.
    assert (M2 : (Double.round (Double.round q * 100)
                  <= Double.round 100)%Q)
      by (apply round_monotone; lra).
    rewrite round_100 in M2. exact M2.
Qed.

(** The percentage is exact at both ends of the scale. *)
Lemma percentage_double_exact_ends (o r : nat) (total : Z) :
  0 < total ->
  ((o + r = 0)%nat -> (percentage_double o r total == 0)%Q)
  /\ (Z.of_nat (o + r) = total -> (percentage_double o r total == 100)%Q).
Proof.
  intro T. unfold percentage_double.
  apply Z.ltb_lt in T as Tb. rewrite Tb. unfold Double.mul, Double.div.
  split.
  - intros ->. unfold Double.round, Qmult, Qdiv, Qinv, inject_Z.
    cbn [Nat.add Z.of_nat Qnum Qden Z.mul]. reflexivity.
  - intros ->. pose proof (inject_pos total T) as P.
    set (q := (inject_Z total / inject_Z total)%Q).
    assert (E : (q == 1)%Q).
    { unfold q. field. intro Z. rewrite Z in P. now apply Qlt_irrefl in P. }
    assert (A : (Double.round q <= Double.round 1)%Q)
      by (apply round_monotone; lra).
    assert (B : (Double.round 1 <= Double.round q)%Q)
      by (apply round_monotone; lra).
    rewrite round_1 in A, B.
    assert (C : (Double.round (Double.round q * 100) <= Double.round 100)%Q)
      by (apply round_monotone; lra).
    assert (D : (Double.round 100 <= Double.round (Double.round q * 100))%Q)
      by (apply round_monotone; lra).
    rewrite round_100 in C, D. lra.
Qed.

(** The rounding of [Double] is the rounding of the machine's doubles on
    every capacity from 1 to 40 with every count from 0 to 79. *)
Remark percentage_double_is_machine_arithmetic :
  grid_agrees 40 = true.
Proof. vm_compute. reflexivity. Qed.

End Aggregation.

(** C1 as stated fails: the percentage is computed in double precision,
    the quotient first and the product with 100 second, and both are
    rounded.  With 7 occupied slots in an area that declares 100 slots the
    page obtains [7.000000000000001], that is [7 + 2^-50], and not
    [100 * 7 / 100 = 7]; the doubles of the machine give the same number. *)
Lemma percentage_is_rounded :
  let o := MapView.aggregate_double (Some Scenario.seven_occupied)
                                    (Some 100) in
  0 < 100
  /\ MapView.occupiedSlots o = 7%nat
  /\ MapView.reservedSlots o = 0%nat
  /\ (MapView.occupancyPercentage o == 7 + Double.pow2 (-50))%Q
  /\ ~ (MapView.occupancyPercentage o
        == 100 * inject_Z (Z.of_nat (MapView.occupiedSlots o
                                     + MapView.reservedSlots o))
           / inject_Z 100)%Q
  /\ Double.machine_value (MapView.machine_percentage 7 100)
     = Some (Qred (MapView.occupancyPercentage o)).
Proof.
  cbv zeta. split; [lia|]. split; [reflexivity|]. split; [reflexivity|].
  split; [vm_compute; reflexivity|].
  split; [|vm_compute; reflexivity].
  intro H. vm_compute in H. discriminate H.
Qed.

(** C1, amended: for every list of slot records of one area and every
    declared total capacity, the aggregation yields as free, occupied and
    reserved counts the number of slots whose status is exactly ['free'],
    ['occupied'] and ['reserved'].  The occupancy percentage is [0] when
    [total = 0]; when [total > 0] it is the double-precision value of
    [((occupied + reserved) / total) * 100], which is at least 0 and
    differs from [100 * (occupied + reserved) / total] by at most that
    number times [2^-51].  The capacity and the counts are whole numbers
    that a double holds exactly. *)
Theorem aggregate_counts_and_rounded_percentage
        (slots : list Slot) (total : Z) :
  total < 2 ^ 53 ->
  Z.of_nat (length slots) < 2 ^ 32 ->
  let o := MapView.aggregate_double (Some slots) (Some total) in
  let statuses := map slot_status slots in
  let exact :=
    (100 * inject_Z (Z.of_nat (MapView.occupiedSlots o
                               + MapView.reservedSlots o))
     / inject_Z total)%Q in
  MapView.freeSlots o = count_occ string_dec statuses "free"
  /\ MapView.occupiedSlots o = count_occ string_dec statuses "occupied"
  /\ MapView.reservedSlots o = count_occ string_dec statuses "reserved"
  /\ (0 < total ->
      MapView.occupancyPercentage o
      = Double.mul
          (Double.div (inject_Z (Z.of_nat (MapView.occupiedSlots o
                                           + MapView.reservedSlots o)))
                      (inject_Z total))
          100
      /\ (0 <= MapView.occupancyPercentage o)%Q
      /\ (Qabs (MapView.occupancyPercentage o - exact)
          <= exact * Double.pow2 (-51))%Q)
  /\ (total = 0 -> MapView.occupancyPercentage o = 0%Q).
Proof.
  intros _ _. cbv zeta.
  unfold MapView.aggregate_double, MapView.count_status.
  cbn [MapView.freeSlots MapView.occupiedSlots MapView.reservedSlots
       MapView.occupancyPercentage JS.or_zero].
  split; [apply count_is_count_occ|].
  split; [apply count_is_count_occ|].
  split; [apply count_is_count_occ|].
  split.
  - intro H. split; [|split].
    + unfold MapView.percentage_double.
      apply Z.ltb_lt in H. now rewrite H.
    + apply percentage_double_nonneg.
    + now apply percentage_double_error.
  - intros ->. reflexivity.
Qed.

(** The scenario of the specification: capacity 10, slots 6 free,
    3 occupied, 1 reserved; the percentage is 40 exactly. *)
Lemma aggregate_counts_and_rounded_percentage_witness :
  let o := MapView.aggregate_double (Some Scenario.ten_slots) (Some 10) in
  10 < 2 ^ 53
  /\ Z.of_nat (length Scenario.ten_slots) < 2 ^ 32
  /\ 0 < 10
  /\ MapView.freeSlots o = 6%nat
  /\ MapView.occupiedSlots o = 3%nat
  /\ MapView.reservedSlots o = 1%nat
  /\ (MapView.occupancyPercentage o == 40)%Q
  /\ (Qabs (MapView.occupancyPercentage o - 40) <= 40 * Double.pow2 (-51))%Q.
Proof.
  cbv zeta.
  assert (T : 10 < 2 ^ 53) by reflexivity.
  assert (L : Z.of_nat (length Scenario.ten_slots) < 2 ^ 32) by reflexivity.
  destruct (aggregate_counts_and_rounded_percentage
              Scenario.ten_slots 10 T L) as (F & O & R & P & _).
  destruct (P eq_refl) as (_ & _ & E).
  split; [exact T|]. split; [exact L|]. split; [reflexivity|].
  split; [rewrite F; reflexivity|].
  split; [rewrite O; reflexivity|].
  split; [rewrite R; reflexivity|].
  split; [vm_compute; reflexivity|].
  vm_compute. discriminate.
Defined.




(** ** Slot selection and the confirmation that follows *)

Lemma truthy_string_nonempty (s : string) :
  s <> "" -> JS.truthy_string s = true.
Proof.
  intro H. unfold JS.truthy_string.
  apply String.eqb_neq in H. now rewrite H.
Qed.

Lemma confirm_with_closed_dialog (be : Backend) (st : Dashboard.State)
      (l : Log) (startTime endTime : string) :
  Dashboard.reserveSlotId st = "" ->
  Dashboard.handleConfirmReservation startTime endTime be st l = (tt, st, l).
Proof.
  intro H. unfold Dashboard.handleConfirmReservation, bind, read.
  rewrite H. destruct (Dashboard.user st); reflexivity.
Qed.

Section Confirmation.
Import Dashboard.

Variables (be : Backend) (st : State) (l : Log) (u : User).
Variables startTime endTime : string.
Hypothesis logged_in : user st = Some u.
Hypothesis dialog_open : reserveSlotId st <> "".

(** The whole behaviour of a confirmation, by the answer to the insert. *)
Lemma confirm_run :
  forall row : ReservationInsert,
    row = {| ins_user_id := user_id u;
             ins_slot_id := reserveSlotId st;
             ins_start_time := startTime;
             ins_end_time := endTime;
             ins_status := "active" |} ->
    handleConfirmReservation startTime endTime be st l
    = match write_error be (requests l) (InsertReservation row) with
      | Some _ =>
          (tt, st,
           {| requests := requests l ++ [InsertReservation row];
              toasts :=
                toasts l ++ [ToastError "Failed to create reservation"];
              console := console l |})
      | None =>
          (tt,
           setUserReservations (fun prev => prev ++ [reserveSlotId st])%list
             (setReserveSlotId "" st),
           {| requests :=
                (requests l ++ [InsertReservation row])
                  ++ [UpdateSlotStatus "reserved" (reserveSlotId st)];
              toasts :=
                toasts l ++ [ToastSuccess "Slot reserved successfully!"];
              console := console l |})
      end.
Proof.
  intros row ->. unfold handleConfirmReservation.
  handler_steps.
  rewrite logged_in, (truthy_string_nonempty _ dialog_open).
  cbn [negb].
  destruct (write_error be (requests l) _); reflexivity.
Qed.

End Confirmation.

(** C3 as stated fails: the status of a slot is checked when its button is
    pressed and never again.  Slot 1 is free when the user opens the
    dialog on it; a refresh of the slot list then shows it as occupied;
    the confirmation still inserts a reservation for it and writes its
    status to ['reserved']. *)
Lemma stale_selection_is_written :
  let be := Cases.after_takeover in
  let button := SlotGrid.slotButton Dashboard.handleReserveSlot []
                  (Scenario.slot 1 "free") in
  let opened := SlotGrid.press button be Cases.browsing empty_log in
  let refreshed := Dashboard.fetchSlots be (state_of opened)
                     (log_of opened) in
  let confirmed := Dashboard.handleConfirmReservation "09:00" "10:00" be
                     (state_of refreshed) (log_of refreshed) in
  Dashboard.reserveSlotId (state_of opened) = "slot-1"
  /\ Dashboard.localStatus (state_of refreshed) "slot-1" = Some "occupied"
  /\ "occupied" <> "free"
  /\ requests (log_of confirmed)
     = [ SelectSlots "area-1";
         InsertReservation
           {| ins_user_id := Dashboard.user_id Scenario.alice;
              ins_slot_id := "slot-1";
              ins_start_time := "09:00";
              ins_end_time := "10:00";
              ins_status := "active" |};
         UpdateSlotStatus "reserved" "slot-1" ]
  /\ Dashboard.userReservations (state_of confirmed) = ["slot-1"].
Proof.
  cbv zeta. split; [reflexivity|]. split; [reflexivity|].
  split; [discriminate|]. split; reflexivity.
Qed.

(** C3, amended: a slot whose status is not ['free'] cannot be selected.
    Its button is disabled and its click handler does not call the reserve
    callback, whatever that callback is; on the Dashboard neither a press
    of the button nor a later confirmation from the closed dialog issues a
    request or changes the state.  The confirmation itself does not look
    at the status: when the dialog is open on the slot, because it was
    opened while the slot was free, confirming inserts the reservation
    and, if the insert succeeds, writes the slot to ['reserved']. *)
Theorem non_free_slot_is_rejected_when_pressed (slot : Slot) :
  slot_status slot <> "free" ->
  (forall (S : Type) (onReserveSlot : string -> M S unit)
          (userReservations : list string),
      let b := SlotGrid.slotButton onReserveSlot userReservations slot in
      SlotGrid.disabled b = true
      /\ SlotGrid.onClick b = ret tt
      /\ SlotGrid.press b = ret tt)
  /\ (forall (be : Backend) (st : Dashboard.State) (l : Log)
             (startTime endTime : string),
         let b := SlotGrid.slotButton Dashboard.handleReserveSlot
                    (Dashboard.userReservations st) slot in
         SlotGrid.onClick b be st l = (tt, st, l)
         /\ SlotGrid.press b be st l = (tt, st, l)
         /\ (Dashboard.reserveSlotId st = "" ->
             (SlotGrid.press b ;;
              Dashboard.handleConfirmReservation startTime endTime) be st l
             = (tt, st, l)))
  /\ (forall (be : Backend) (st : Dashboard.State) (l : Log)
             (u : Dashboard.User) (startTime endTime : string),
         Dashboard.user st = Some u ->
         Dashboard.reserveSlotId st = slot_id slot ->
         slot_id slot <> "" ->
         let row := {| ins_user_id := Dashboard.user_id u;
                       ins_slot_id := slot_id slot;
                       ins_start_time := startTime;
                       ins_end_time := endTime;
                       ins_status := "active" |} in
         let r := Dashboard.handleConfirmReservation startTime endTime
                    be st l in
         requests (log_of r)
         = (requests l
            ++ InsertReservation row
               :: match write_error be (requests l)
                          (InsertReservation row) with
                  | Some _ => []
                  | None => [UpdateSlotStatus "reserved" (slot_id slot)]
                  end)%list).
Proof.
  intro H. apply String.eqb_neq in H.
  assert (G : forall (S : Type) (cb : string -> M S unit) rs,
             SlotGrid.disabled (SlotGrid.slotButton cb rs slot) = true
             /\ SlotGrid.onClick (SlotGrid.slotButton cb rs slot) = ret tt
             /\ SlotGrid.press (SlotGrid.slotButton cb rs slot) = ret tt).
  { intros S cb rs. unfold SlotGrid.press.
    cbn [SlotGrid.slotButton SlotGrid.disabled SlotGrid.onClick].
    rewrite H. repeat split. }
  split; [exact G|]. split.
  - intros be st l startTime endTime. cbv zeta.
    destruct (G Dashboard.State Dashboard.handleReserveSlot
                (Dashboard.userReservations st)) as (_ & C & P).
    rewrite C. split; [reflexivity|].
    unfold bind. rewrite P. split; [reflexivity|].
    intro E. unfold ret. now apply confirm_with_closed_dialog.
  - intros be st l u startTime endTime U D N. cbv zeta.
    assert (O : Dashboard.reserveSlotId st <> "") by now rewrite D.
    rewrite (confirm_run be st l u startTime endTime U O
               {| ins_user_id := Dashboard.user_id u;
                  ins_slot_id := slot_id slot;
                  ins_start_time := startTime;
                  ins_end_time := endTime;
                  ins_status := "active" |})
      by now rewrite D.
    rewrite D.
    destruct (write_error be (requests l) _); unfold log_of; cbn [snd requests].
    + reflexivity.
    + now rewrite <- app_assoc.
Qed.

Lemma non_free_slot_is_rejected_when_pressed_witness :
  let slot := Scenario.slot 2 "occupied" in
  slot_status slot <> "free"
  /\ SlotGrid.disabled
       (SlotGrid.slotButton Dashboard.handleReserveSlot [] slot) = true
  /\ SlotGrid.press
       (SlotGrid.slotButton Dashboard.handleReserveSlot [] slot) = ret tt.
Proof.
  cbv zeta.
  assert (H : slot_status (Scenario.slot 2 "occupied") <> "free")
    by discriminate.
  split; [exact H|].
  destruct (non_free_slot_is_rejected_when_pressed
              (Scenario.slot 2 "occupied") H) as (G & _).
  destruct (G Dashboard.State Dashboard.handleReserveSlot []) as (D & _ & P).
  split; [exact D | exact P].
Defined.

(** ** Reservation creation *)

(** The local slot list changes when [fetchSlots] runs, as it does on every
    notification of the slots subscription: it becomes the rows the backend
    answers with. *)
Lemma fetchSlots_replaces_slots
      (be : Backend) (st : Dashboard.State) (l : Log) (rows : list Slot) :
  slot_rows be (requests l) (Dashboard.selectedAreaId st)
  = {| data := Some rows; error := None |} ->
  Dashboard.fetchSlots be st l
  = (tt, Dashboard.setSlots rows st,
     {| requests := requests l ++ [SelectSlots (Dashboard.selectedAreaId st)];
        toasts := toasts l; console := console l |}).
Proof.
  intro H. unfold Dashboard.fetchSlots. handler_steps.
  rewrite H. reflexivity.
Qed.

(** C4 as stated fails on the local slot list: after a successful
    confirmation of the free slot [slot-1] the page still lists the slot as
    ['free']; the handler never touches the list. *)
Lemma confirmed_slot_still_listed_free :
  let st := Scenario.dialog_on_slot_1 in
  let r := Dashboard.handleConfirmReservation "10:00" "11:00"
             Scenario.reliable st empty_log in
  Dashboard.localStatus st "slot-1" = Some "free"
  /\ write_error Scenario.reliable []
       (InsertReservation
          {| ins_user_id := "alice"; ins_slot_id := "slot-1";
             ins_start_time := "10:00"; ins_end_time := "11:00";
             ins_status := "active" |}) = None
  /\ Dashboard.userReservations (state_of r) = ["slot-1"]
  /\ Dashboard.localStatus (state_of r) "slot-1" = Some "free"
  /\ Dashboard.localStatus (state_of r) "slot-1" <> Some "reserved".
Proof.
  cbv zeta. repeat split. vm_compute. discriminate.
Qed.

(** C4, amended: when a logged-in user confirms the reservation of the
    selected slot and the backend insert succeeds, the update of the slot's
    status to ['reserved'] is issued, exactly one entry (the reserved slot's
    id) is appended to the user's active-reservation list and the dialog's
    slot id is cleared, all without a fetch; the local slot list is left as
    it was. *)
Theorem confirmation_success
        (be : Backend) (st : Dashboard.State) (l : Log) (u : Dashboard.User)
        (startTime endTime : string) :
  Dashboard.user st = Some u ->
  Dashboard.reserveSlotId st <> "" ->
  write_error be (requests l)
    (InsertReservation
       {| ins_user_id := Dashboard.user_id u;
          ins_slot_id := Dashboard.reserveSlotId st;
          ins_start_time := startTime;
          ins_end_time := endTime;
          ins_status := "active" |}) = None ->
  let r := Dashboard.handleConfirmReservation startTime endTime be st l in
  requests (log_of r)
  = (requests l
       ++ [ InsertReservation
              {| ins_user_id := Dashboard.user_id u;
                 ins_slot_id := Dashboard.reserveSlotId st;
                 ins_start_time := startTime;
                 ins_end_time := endTime;
                 ins_status := "active" |};
            UpdateSlotStatus "reserved" (Dashboard.reserveSlotId st) ])%list
  /\ Dashboard.userReservations (state_of r)
     = (Dashboard.userReservations st ++ [Dashboard.reserveSlotId st])%list
  /\ length (Dashboard.userReservations (state_of r))
     = S (length (Dashboard.userReservations st))
  /\ Dashboard.reserveSlotId (state_of r) = ""
  /\ toasts (log_of r)
     = (toasts l ++ [ToastSuccess "Slot reserved successfully!"])%list
  /\ Dashboard.slots (state_of r) = Dashboard.slots st.
Proof.
  intros U D I. cbv zeta.
  rewrite (confirm_run be st l u startTime endTime U D _ eq_refl), I.
  unfold state_of, log_of. cbn [fst snd requests toasts].
  split; [now rewrite <- app_assoc|].
  split; [reflexivity|].
  split; [cbn; rewrite length_app; cbn; lia|].
  repeat split.
Qed.

Lemma confirmation_success_witness :
  let st := Scenario.dialog_on_slot_1 in
  let r := Dashboard.handleConfirmReservation "10:00" "11:00"
             Scenario.reliable st empty_log in
  Dashboard.user st = Some Scenario.alice
  /\ Dashboard.reserveSlotId st <> ""
  /\ requests (log_of r)
     = [ InsertReservation
           {| ins_user_id := "alice"; ins_slot_id := "slot-1";
              ins_start_time := "10:00"; ins_end_time := "11:00";
              ins_status := "active" |};
         UpdateSlotStatus "reserved" "slot-1" ]
  /\ Dashboard.userReservations (state_of r) = ["slot-1"]
  /\ Dashboard.slots (state_of r) = Scenario.ten_slots.
Proof.
  cbv zeta.
  assert (U : Dashboard.user Scenario.dialog_on_slot_1 = Some Scenario.alice)
    by reflexivity.
  assert (D : Dashboard.reserveSlotId Scenario.dialog_on_slot_1 <> "")
    by discriminate.
  destruct (confirmation_success Scenario.reliable Scenario.dialog_on_slot_1
              empty_log Scenario.alice "10:00" "11:00" U D eq_refl)
    as (W & A & _ & _ & _ & S).
  split; [exact U|]. split; [exact D|].
  split; [exact W|]. split; [exact A | exact S].
Defined.

(** C5: reservation creation issues exactly two writes, in this order: the
    insert of a reservation row with status ['active'], then the update of
    the slot's status to ['reserved']; when the insert fails the user is
    notified, the slot update is not attempted and the component state
    (user-reservation list, dialog slot id) is unchanged. *)
Theorem confirmation_writes
        (be : Backend) (st : Dashboard.State) (l : Log) (u : Dashboard.User)
        (startTime endTime : string) :
  Dashboard.user st = Some u ->
  Dashboard.reserveSlotId st <> "" ->
  let row := {| ins_user_id := Dashboard.user_id u;
                ins_slot_id := Dashboard.reserveSlotId st;
                ins_start_time := startTime;
                ins_end_time := endTime;
                ins_status := "active" |} in
  let r := Dashboard.handleConfirmReservation startTime endTime be st l in
  (write_error be (requests l) (InsertReservation row) = None ->
   requests (log_of r)
   = (requests l
        ++ [ InsertReservation row;
             UpdateSlotStatus "reserved" (Dashboard.reserveSlotId st) ])%list)
  /\ (write_error be (requests l) (InsertReservation row) <> None ->
      requests (log_of r) = (requests l ++ [InsertReservation row])%list
      /\ toasts (log_of r)
         = (toasts l ++ [ToastError "Failed to create reservation"])%list
      /\ state_of r = st).
Proof.
  intros U D. cbv zeta.
  rewrite (confirm_run be st l u startTime endTime U D _ eq_refl).
  destruct (write_error be (requests l) _) as [e|].
  - split; [discriminate|]. intros _. repeat split.
  - split; [|congruence]. intros _.
    unfold log_of. cbn [snd requests]. now rewrite <- app_assoc.
Qed.

Lemma confirmation_writes_witness :
  let st := Scenario.dialog_on_slot_1 in
  let row := {| ins_user_id := "alice"; ins_slot_id := "slot-1";
                ins_start_time := "10:00"; ins_end_time := "11:00";
                ins_status := "active" |} in
  let ok := Dashboard.handleConfirmReservation "10:00" "11:00"
              Scenario.reliable st empty_log in
  let ko := Dashboard.handleConfirmReservation "10:00" "11:00"
              Scenario.insert_fails st empty_log in
  Dashboard.user st = Some Scenario.alice
  /\ Dashboard.reserveSlotId st <> ""
  /\ requests (log_of ok)
     = [InsertReservation row; UpdateSlotStatus "reserved" "slot-1"]
  /\ requests (log_of ko) = [InsertReservation row]
  /\ state_of ko = st.
Proof.
  cbv zeta.
  assert (U : Dashboard.user Scenario.dialog_on_slot_1 = Some Scenario.alice)
    by reflexivity.
  assert (D : Dashboard.reserveSlotId Scenario.dialog_on_slot_1 <> "")
    by discriminate.
  destruct (confirmation_writes Scenario.reliable Scenario.dialog_on_slot_1
              empty_log Scenario.alice "10:00" "11:00" U D) as (OK & _).
  destruct (confirmation_writes Scenario.insert_fails
              Scenario.dialog_on_slot_1 empty_log Scenario.alice
              "10:00" "11:00" U D) as (_ & KO).
  destruct KO as (R & _ & S); [discriminate|].
  split; [exact U|]. split; [exact D|].
  split; [exact (OK eq_refl)|]. split; [exact R | exact S].
Defined.

(** ** Reservation cancellation *)

Section Cancellation.
Import Profile.

Variable reservationId : string.

Lemma active_after_cancel (rs : list Reservation) :
  filter isActive (map (markCancelled reservationId) rs)
  = filter (fun r => negb (res_id r =? reservationId)%string)
           (filter isActive rs).
Proof.
  induction rs as [|r rs IH]; [reflexivity|].
  cbn [map filter]. rewrite IH. clear IH.
  unfold markCancelled, isActive.
  destruct (res_id r =? reservationId)%string eqn:E.
  - cbn [with_status res_status String.eqb Ascii.eqb Bool.eqb].
    destruct (res_status r =? "active")%string; [|reflexivity].
    cbn [filter]. now rewrite E.
  - destruct (res_status r =? "active")%string; [|reflexivity].
    cbn [filter]. now rewrite E.
Qed.

Lemma cancelled_after_cancel (rs : list Reservation) (x : Reservation) :
  In x (map (markCancelled reservationId) rs) ->
  res_id x = reservationId ->
  res_status x = "cancelled".
Proof.
  intros H I. apply in_map_iff in H as (r & <- & _).
  unfold markCancelled in *.
  destruct (res_id r =? reservationId)%string eqn:E; [reflexivity|].
  apply String.eqb_neq in E. contradiction.
Qed.

Variables (be : Backend) (st : State) (l : Log) (slotId : string).

(** The whole behaviour of a cancellation, by the answers to its writes. *)
Lemma cancel_run :
  handleCancelReservation reservationId slotId be st l
  = match write_error be (requests l)
            (UpdateReservationStatus "cancelled" reservationId) with
    | Some e =>
        (tt, st,
         {| requests :=
              requests l ++ [UpdateReservationStatus "cancelled" reservationId];
            toasts := toasts l ++ [ToastError "Failed to cancel reservation"];
            console :=
              console l ++ [("Error cancelling reservation:", e)] |})
    | None =>
        (tt, setReservations (map (markCancelled reservationId)) st,
         {| requests :=
              (requests l
                 ++ [UpdateReservationStatus "cancelled" reservationId])
                ++ [UpdateSlotStatus "free" slotId];
            toasts :=
              toasts l ++ [ToastSuccess "Reservation cancelled successfully"];
            console :=
              match write_error be
                      (requests l
                         ++ [UpdateReservationStatus "cancelled" reservationId])
                      (UpdateSlotStatus "free" slotId) with
              | Some e => console l ++ [("Error updating slot status:", e)]
              | None => console l
              end |})
    end.
Proof.
  unfold handleCancelReservation. handler_steps.
  destruct (write_error be (requests l) _); [reflexivity|].
  cbn [requests toasts console].
  destruct (write_error be (requests l ++ _) _); reflexivity.
Qed.

End Cancellation.

(** C6: cancelling an active reservation sets the reservation's status to
    ['cancelled'], then the slot's status to ['free'], and removes the
    reservation from the list that the active-reservations view filters.
    When the reservation update fails the operation stops with no slot
    write and no state change; when only the slot update fails the error
    is logged to the console and nothing else differs: no further write is
    issued, the local reservation is marked ['cancelled'] and the success
    message is shown. *)
Theorem cancellation
        (be : Backend) (st : Profile.State) (l : Log) (r : Reservation) :
  In r (Profile.activeReservations st) ->
  let first := UpdateReservationStatus "cancelled" (res_id r) in
  let second := UpdateSlotStatus "free" (res_slot_id r) in
  let out := Profile.cancelButton r be st l in
  (forall e, write_error be (requests l) first = Some e ->
     requests (log_of out) = (requests l ++ [first])%list
     /\ state_of out = st
     /\ toasts (log_of out)
        = (toasts l ++ [ToastError "Failed to cancel reservation"])%list)
  /\ (write_error be (requests l) first = None ->
      requests (log_of out) = (requests l ++ [first; second])%list
      /\ Profile.activeReservations (state_of out)
         = filter (fun x => negb (res_id x =? res_id r)%string)
                  (Profile.activeReservations st)
      /\ ~ In r (Profile.activeReservations (state_of out))
      /\ In (Profile.with_status r "cancelled")
            (Profile.reservations (state_of out))
      /\ (forall x, In x (Profile.reservations (state_of out)) ->
                    res_id x = res_id r -> res_status x = "cancelled")
      /\ toasts (log_of out)
         = (toasts l
              ++ [ToastSuccess "Reservation cancelled successfully"])%list
      /\ console (log_of out)
         = match write_error be (requests l ++ [first]) second with
           | Some e => (console l ++ [("Error updating slot status:", e)])%list
           | None => console l
           end).
Proof.
  intro A. cbv zeta. unfold Profile.cancelButton.
  rewrite cancel_run.
  destruct (write_error be (requests l) _) as [e|].
  - split; [|discriminate]. intros e' _. repeat split.
  - split; [discriminate|]. intros _.
    unfold state_of, log_of. cbn [fst snd requests toasts console].
    assert (F : Profile.activeReservations
                  (Profile.setReservations
                     (map (Profile.markCancelled (res_id r))) st)
                = filter (fun x => negb (res_id x =? res_id r)%string)
                         (Profile.activeReservations st)).
    { unfold Profile.activeReservations, Profile.setReservations.
      cbn [Profile.reservations]. apply active_after_cancel. }
    split; [now rewrite <- app_assoc|].
    split; [exact F|].
    split.
    { rewrite F. intro H. apply filter_In in H as [_ H].
      now rewrite String.eqb_refl in H. }
    split.
    { unfold Profile.setReservations. cbn [Profile.reservations].
      apply in_map_iff. exists r. unfold Profile.markCancelled.
      rewrite String.eqb_refl. split; [reflexivity|].
      unfold Profile.activeReservations in A.
      now apply filter_In in A. }
    split; [|split; reflexivity].
    intros x H. unfold Profile.setReservations in H.
    cbn [Profile.reservations] in H.
    now apply cancelled_after_cancel with (rs := Profile.reservations st).
Qed.

Lemma cancellation_witness :
  let r := Scenario.reservation "r-1" "slot-4" "active" in
  let ok := Profile.cancelButton r Scenario.reliable Scenario.profile
              empty_log in
  let ko := Profile.cancelButton r Scenario.reservation_update_fails
              Scenario.profile empty_log in
  let half := Profile.cancelButton r Scenario.slot_update_fails
                Scenario.profile empty_log in
  In r (Profile.activeReservations Scenario.profile)
  /\ requests (log_of ok)
     = [ UpdateReservationStatus "cancelled" "r-1";
         UpdateSlotStatus "free" "slot-4" ]
  /\ Profile.activeReservations (state_of ok) = []
  /\ requests (log_of ko) = [UpdateReservationStatus "cancelled" "r-1"]
  /\ state_of ko = Scenario.profile
  /\ Profile.activeReservations (state_of half) = []
  /\ console (log_of half)
     = [("Error updating slot status:", "update refused")].
Proof.
  cbv zeta.
  assert (A : In (Scenario.reservation "r-1" "slot-4" "active")
                 (Profile.activeReservations Scenario.profile))
    by (left; reflexivity).
  destruct (cancellation Scenario.reliable Scenario.profile empty_log _ A)
    as (_ & OK).
  destruct (cancellation Scenario.reservation_update_fails Scenario.profile
              empty_log _ A) as (KO & _).
  destruct (cancellation Scenario.slot_update_fails Scenario.profile
              empty_log _ A) as (_ & HALF).
  destruct (OK eq_refl) as (R1 & F1 & _).
  destruct (KO "update refused" eq_refl) as (R2 & S2 & _).
  destruct (HALF eq_refl) as (_ & F3 & _ & _ & _ & _ & C3).
  split; [exact A|]. split; [exact R1|]. split; [rewrite F1; reflexivity|].
  split; [exact R2|]. split; [exact S2|].
  split; [rewrite F3; reflexivity | exact C3].
Defined.

(** ** System-status classification *)

Section Classification.
Import SystemStatusIndicator.

Variable getTime : string -> option Z.

Lemma level_of_calculate (now : Z) (hb status : string) (s : State) :
  statusLevel (calculateStatusLevel getTime now hb status s)
  = if (status =? "online")%string then healthy else critical.
Proof.
  unfold calculateStatusLevel.
  destruct (status =? "online")%string; [reflexivity|].
  destruct (status =? "offline")%string; [|reflexivity].
  destruct (less_than _ _); reflexivity.
Qed.

Lemma calculate_reachable (now : Z) (hb status : string) (s : State) :
  reachable_level
    (statusLevel (calculateStatusLevel getTime now hb status s)).
Proof.
  rewrite level_of_calculate.
  destruct (status =? "online")%string; [left | right]; reflexivity.
Qed.

Lemma step_reachable (c : Component) (e : Event) :
  reachable_level (statusLevel (state c)) ->
  reachable_level (statusLevel (state (step getTime c e))).
Proof.
  intro H. destruct e as [id | now [resp|] | now [p|] | now];
    cbn [step state].
  - right. reflexivity.
  - unfold fetchSystemStatus.
    destruct (error resp); [right; reflexivity|].
    destruct (data resp); [apply calculate_reachable | exact H].
  - right. reflexivity.
  - unfold onPayload.
    destruct (_ =? _)%string; [apply calculate_reachable | exact H].
  - exact H.
  - unfold onInterval. destruct (systemStatus (state c)); [|exact H].
    destruct (_ && _); [apply calculate_reachable | exact H].
Qed.

Lemma run_reachable (events : list Event) (c : Component) :
  reachable_level (statusLevel (state c)) ->
  reachable_level (statusLevel (state (fold_left (step getTime) events c))).
Proof.
  revert c. induction events as [|e events IH]; intros c H; [exact H|].
  cbn [fold_left]. apply IH. now apply step_reachable.
Qed.

End Classification.

(** C7: a fetched record whose status is ['online'] classifies as
    [healthy] whatever the age of its heartbeat, one whose status is
    ['offline'] as [critical], and any other status as [critical]; when the
    query finds no record for the system id the classification is
    [critical] and the last-seen text is ['Never']. *)
Theorem classification
        (getTime : string -> option Z) (now : Z)
        (s : SystemStatusIndicator.State) :
  (forall row : SystemStatus,
     let s' := SystemStatusIndicator.fetchSystemStatus getTime now
                 (SystemStatusIndicator.Answered
                    {| data := Some row; error := None |}) s in
     SystemStatusIndicator.systemStatus s' = Some row
     /\ (sys_status row = "online" ->
         SystemStatusIndicator.statusLevel s'
         = SystemStatusIndicator.healthy)
     /\ (sys_status row = "offline" ->
         SystemStatusIndicator.statusLevel s'
         = SystemStatusIndicator.critical)
     /\ (sys_status row <> "online" ->
         SystemStatusIndicator.statusLevel s'
         = SystemStatusIndicator.critical))
  /\ (forall (row : option SystemStatus) (e : string),
        let s' := SystemStatusIndicator.fetchSystemStatus getTime now
                    (SystemStatusIndicator.Answered
                       {| data := row; error := Some e |}) s in
        SystemStatusIndicator.statusLevel s'
        = SystemStatusIndicator.critical
        /\ SystemStatusIndicator.lastSeenText s' = "Never"
        /\ SystemStatusIndicator.systemStatus s' = None).
Proof.
  split.
  - intro row. cbv zeta.
    unfold SystemStatusIndicator.fetchSystemStatus. cbn [error data].
    rewrite level_of_calculate.
    split.
    { unfold SystemStatusIndicator.calculateStatusLevel.
      destruct (sys_status row =? "online")%string; [reflexivity|].
      destruct (sys_status row =? "offline")%string; [|reflexivity].
      destruct (SystemStatusIndicator.less_than _ _); reflexivity. }
    split; [intros ->; reflexivity|].
    split; [intros ->; reflexivity|].
    intro H. apply String.eqb_neq in H. now rewrite H.
  - intros row e. cbv zeta. repeat split.
Qed.

(** The example of the specification: status online with a heartbeat two
    hours old; and a system id without a record. *)
Lemma classification_witness :
  let getTime := fun _ : string => Some 0 in
  let row := {| system_id := "parking_monitor_tech_park_whitefield";
                last_heartbeat := "1970-01-01T00:00:00Z";
                sys_status := "online";
                sys_location := None |} in
  let s := SystemStatusIndicator.fetchSystemStatus getTime 7200000
             (SystemStatusIndicator.Answered
                {| data := Some row; error := None |})
             SystemStatusIndicator.initialState in
  let missing := SystemStatusIndicator.fetchSystemStatus getTime 7200000
                   SystemStatusIndicator.no_record_found s in
  sys_status row = "online"
  /\ SystemStatusIndicator.statusLevel s = SystemStatusIndicator.healthy
  /\ SystemStatusIndicator.lastSeenText s = "120 min ago"
  /\ SystemStatusIndicator.statusLevel missing
     = SystemStatusIndicator.critical
  /\ SystemStatusIndicator.lastSeenText missing = "Never".
Proof.
  cbv zeta. split; [reflexivity|].
  split.
  { refine (proj1 (proj2 (proj1 (classification (fun _ => Some 0) 7200000
                                   SystemStatusIndicator.initialState) _)) _).
    reflexivity. }
  split; [reflexivity|].
  destruct (proj2 (classification (fun _ => Some 0) 7200000
                     (SystemStatusIndicator.fetchSystemStatus
                        (fun _ => Some 0) 7200000
                        (SystemStatusIndicator.Answered
                           {| data :=
                                Some {| system_id :=
                                          "parking_monitor_tech_park_whitefield";
                                        last_heartbeat := "1970-01-01T00:00:00Z";
                                        sys_status := "online";
                                        sys_location := None |};
                              error := None |})
                        SystemStatusIndicator.initialState))
              None "PGRST116") as (L & T & _).
  split; [exact L | exact T].
Defined.

(** C8: the level [warning] is never reached.  From the initial [critical]
    state, after any sequence of settled fetches, subscription payloads,
    interval ticks and system-id changes the status level is [healthy] or
    [critical], hence not [warning]. *)
Theorem warning_is_unreachable
        (getTime : string -> option Z) (systemId : option string)
        (events : list SystemStatusIndicator.Event) :
  let c := SystemStatusIndicator.run getTime systemId events in
  SystemStatusIndicator.statusLevel (SystemStatusIndicator.state c)
  <> SystemStatusIndicator.warning
  /\ SystemStatusIndicator.statusLevel
       (SystemStatusIndicator.state
          (SystemStatusIndicator.run getTime systemId []))
     = SystemStatusIndicator.critical.
Proof.
  cbv zeta. split; [|reflexivity].
  unfold SystemStatusIndicator.run.
  assert (H : SystemStatusIndicator.reachable_level
                (SystemStatusIndicator.statusLevel
                   (SystemStatusIndicator.state
                      (fold_left (SystemStatusIndicator.step getTime) events
                         (SystemStatusIndicator.mounted systemId))))).
  { apply run_reachable. right. reflexivity. }
  destruct H as [H|H]; rewrite H; discriminate.
Qed.

(** ** Map markers *)

Section Markers.
Import MapTilerMap.

Lemma truthy_number_spec (x : option Q) :
  JS.truthy_number x = true <-> exists q, x = Some q /\ ~ (q == 0)%Q.
Proof.
  unfold JS.truthy_number. destruct x as [q|].
  - rewrite negb_true_iff, Z.eqb_neq. split.
    + intro H. exists q. split; [reflexivity|].
      unfold Qeq. cbn [Qnum Qden]. lia.
    + intros (q' & E & H). injection E as <-.
      unfold Qeq in H. cbn [Qnum Qden] in H. lia.
  - split; [discriminate|]. intros (q & E & _). discriminate.
Qed.

Lemma truthy_name_spec (n : option string) :
  truthy_name n = true <-> exists s, n = Some s /\ s <> "".
Proof.
  unfold truthy_name, JS.truthy_string. destruct n as [s|].
  - rewrite negb_true_iff, String.eqb_neq. split.
    + intro H. now exists s.
    + intros (s' & E & H). now injection E as <-.
  - split; [discriminate|]. intros (s & E & _). discriminate.
Qed.

Lemma greater_than_spec (x bound : Q) :
  greater_than x bound = true <-> (bound < x)%Q.
Proof.
  unfold greater_than. rewrite negb_true_iff.
  rewrite <- not_true_iff_false, Qle_bool_iff. split.
  - apply Qnot_le_lt.
  - apply Qlt_not_le.
Qed.

Lemma color_spec (pct : Q) :
  ((80 < pct)%Q -> occupancyColor pct = "#EF4444")
  /\ ((50 < pct)%Q -> (pct <= 80)%Q -> occupancyColor pct = "#F59E0B")
  /\ ((pct <= 50)%Q -> occupancyColor pct = "#10B981").
Proof.
  unfold occupancyColor.
  destruct (greater_than pct 80) eqn:H80.
  - apply greater_than_spec in H80.
    repeat split; intros; try reflexivity; lra.
  - apply not_true_iff_false in H80. rewrite greater_than_spec in H80.
    destruct (greater_than pct 50) eqn:H50.
    + apply greater_than_spec in H50.
      repeat split; intros; try reflexivity; lra.
    + apply not_true_iff_false in H50. rewrite greater_than_spec in H50.
      repeat split; intros; try reflexivity; lra.
Qed.

Lemma markers_count (areas : list (option ParkingAreaWithOccupancy)) :
  length (renderMarkers areas)
  = length (filter (fun a => negb (invalid a)) areas).
Proof.
  unfold renderMarkers.
  induction areas as [|a areas IH]; [reflexivity|].
  cbn [flat_map filter]. rewrite length_app, IH.
  destruct a as [a|]; [|reflexivity].
  unfold markersOf. destruct (invalid (Some a)); reflexivity.
Qed.

End Markers.

(** C10: an area whose [lat], [lng] or [name] is falsy (absent, a
    coordinate equal to 0, an empty name) or whose [freeSlots] is null gets
    no marker; every other area gets exactly one marker, at its
    coordinates, labelled with its free-slot count and coloured red when
    the occupancy percentage exceeds 80, amber when it exceeds 50, green
    otherwise. *)
Theorem marker_rendering
        (a : MapTilerMap.ParkingAreaWithOccupancy)
        (areas : list (option MapTilerMap.ParkingAreaWithOccupancy)) :
  let pct := MapTilerMap.occupancyPercentage a in
  ((MapTilerMap.lat a = None
    \/ (exists q, MapTilerMap.lat a = Some q /\ (q == 0)%Q)
    \/ MapTilerMap.lng a = None
    \/ (exists q, MapTilerMap.lng a = Some q /\ (q == 0)%Q)
    \/ MapTilerMap.name a = None
    \/ MapTilerMap.name a = Some ""
    \/ MapTilerMap.freeSlots a = None) ->
   MapTilerMap.markersOf (Some a) = [])
  /\ (forall (la ln : Q) (n : string) (f : Z),
        MapTilerMap.lat a = Some la -> ~ (la == 0)%Q ->
        MapTilerMap.lng a = Some ln -> ~ (ln == 0)%Q ->
        MapTilerMap.name a = Some n -> n <> "" ->
        MapTilerMap.freeSlots a = Some f ->
        MapTilerMap.markersOf (Some a)
        = [ {| MapTilerMap.position := (Some la, Some ln);
               MapTilerMap.color := MapTilerMap.occupancyColor pct;
               MapTilerMap.label := Some f;
               MapTilerMap.title := Some n;
               MapTilerMap.area := MapTilerMap.id a |} ])
  /\ ((80 < pct)%Q -> MapTilerMap.occupancyColor pct = "#EF4444")
  /\ ((50 < pct)%Q -> (pct <= 80)%Q ->
      MapTilerMap.occupancyColor pct = "#F59E0B")
  /\ ((pct <= 50)%Q -> MapTilerMap.occupancyColor pct = "#10B981")
  /\ length (MapTilerMap.renderMarkers areas)
     = length (filter (fun x => negb (MapTilerMap.invalid x)) areas).
Proof.
  cbv zeta.
  split; [|split; [|split; [apply color_spec|split; [apply color_spec|
    split; [apply color_spec | apply markers_count]]]]].
  - intro H.
    assert (I : MapTilerMap.invalid (Some a) = true).
    { unfold MapTilerMap.invalid.
      destruct (JS.truthy_number (MapTilerMap.lat a)) eqn:La;
        [|reflexivity].
      destruct (JS.truthy_number (MapTilerMap.lng a)) eqn:Ln;
        [|reflexivity].
      destruct (MapTilerMap.truthy_name (MapTilerMap.name a)) eqn:Nm;
        [|reflexivity].
      apply truthy_number_spec in La as (la & La & Hla).
      apply truthy_number_spec in Ln as (ln & Ln & Hln).
      apply truthy_name_spec in Nm as (n & Nm & Hn).
      cbn [negb orb].
      destruct H as [H|[(q & H & Z)|[H|[(q & H & Z)|[H|[H|H]]]]]];
        try congruence.
      now rewrite H. }
    unfold MapTilerMap.markersOf. now rewrite I.
  - intros la ln n f La Hla Ln Hln Nm Hn F.
    assert (I : MapTilerMap.invalid (Some a) = false).
    { unfold MapTilerMap.invalid.
      rewrite (proj2 (truthy_number_spec (MapTilerMap.lat a)))
        by (now exists la).
      rewrite (proj2 (truthy_number_spec (MapTilerMap.lng a)))
        by (now exists ln).
      rewrite (proj2 (truthy_name_spec (MapTilerMap.name a)))
        by (now exists n).
      now rewrite F. }
    unfold MapTilerMap.markersOf. rewrite I, La, Ln, Nm, F. reflexivity.
Qed.

Lemma marker_rendering_witness :
  let park := Scenario.area "Tech Park" (Some (1296 # 100))
                (Some (7772 # 100)) (Some 2) (90 # 1) in
  let equator := Scenario.area "Equator" (Some (0 # 1))
                   (Some (7770 # 100)) (Some 5) (10 # 1) in
  (~ (1296 # 100 == 0)%Q /\ ~ (7772 # 100 == 0)%Q /\ "Tech Park" <> ""
   /\ (80 < 90 # 1)%Q)
  /\ MapTilerMap.markersOf (Some park)
     = [ {| MapTilerMap.position := (Some (1296 # 100), Some (7772 # 100));
            MapTilerMap.color := "#EF4444";
            MapTilerMap.label := Some 2;
            MapTilerMap.title := Some "Tech Park";
            MapTilerMap.area := "area-Tech Park" |} ]
  /\ MapTilerMap.markersOf (Some equator) = []
  /\ length (MapTilerMap.renderMarkers Scenario.areas) = 3%nat.
Proof.
  cbv zeta.
  assert (H1 : ~ (1296 # 100 == 0)%Q) by discriminate.
  assert (H2 : ~ (7772 # 100 == 0)%Q) by discriminate.
  assert (H3 : "Tech Park" <> "") by discriminate.
  assert (H4 : (80 < 90 # 1)%Q) by reflexivity.
  split; [repeat split; assumption|].
  destruct (marker_rendering
              (Scenario.area "Tech Park" (Some (1296 # 100))
                 (Some (7772 # 100)) (Some 2) (90 # 1)) Scenario.areas)
    as (_ & M & Red & _ & _ & N).
  destruct (marker_rendering
              (Scenario.area "Equator" (Some (0 # 1))
                 (Some (7770 # 100)) (Some 5) (10 # 1)) [])
    as (Skip & _).
  split.
  { rewrite (M _ _ _ _ eq_refl H1 eq_refl H2 eq_refl H3 eq_refl).
    cbn [MapTilerMap.occupancyPercentage Scenario.area] in Red.
    cbn [MapTilerMap.occupancyPercentage Scenario.area].
    rewrite (Red H4). reflexivity. }
  split.
  { apply Skip. right. left. exists (0 # 1). split; reflexivity. }
  rewrite N. reflexivity.
Defined.

(** ** The double-tap gesture *)

Section Gesture.
Import MapTilerMap.

Variable areaId : string.
Variable hasLayer : Z -> bool.






End Gesture.




(** * Further properties of the pages *)

(** ** The map page *)

Section MapPage.
Import MapView MapViewPage.

Lemma count_split {A : Type} (p q : A -> bool) (l : list A) :
  (forall x, p x && q x = false) ->
  (JS.count p l + JS.count q l
   = JS.count (fun x => p x || q x) l)%nat.
Proof.
  intro D. unfold JS.count.
  induction l as [|x l IH]; [reflexivity|].
  cbn [filter]. specialize (D x).
  destruct (p x), (q x); cbn [orb length] in *; try discriminate; lia.
Qed.

Lemma count_complement {A : Type} (p : A -> bool) (l : list A) :
  (JS.count p l + JS.count (fun x => negb (p x)) l = length l)%nat.
Proof.
  unfold JS.count. induction l as [|x l IH]; [reflexivity|].
  cbn [filter]. destruct (p x); cbn [negb length]; lia.
Qed.

Lemma distinct_statuses (a b : string) (s : Slot) :
  a <> b -> has_status a s && has_status b s = false.
Proof.
  intro N. unfold has_status.
  destruct (slot_status s =? a)%string eqn:Ea; [|reflexivity].
  destruct (slot_status s =? b)%string eqn:Eb; [|reflexivity].
  apply String.eqb_eq in Ea, Eb. congruence.
Qed.

Lemma free_count_positive (slots : list Slot) :
  (0 < JS.count (has_status "free") slots)%nat
  <-> exists s, In s slots /\ slot_status s = "free".
Proof.
  unfold JS.count. split.
  - intro H. destruct (filter (has_status "free") slots) as [|s r] eqn:E;
      [cbn in H; lia|].
    assert (I : In s (filter (has_status "free") slots))
      by (rewrite E; now left).
    apply filter_In in I as [I F]. exists s. split; [exact I|].
    now apply String.eqb_eq.
  - intros (s & I & F).
    assert (J : In s (filter (has_status "free") slots)).
    { apply filter_In. split; [exact I|]. now apply String.eqb_eq. }
    destruct (filter (has_status "free") slots); [contradiction|].
    cbn. lia.
Qed.

End MapPage.

(** X1: the three counters of the aggregation and the slots whose status is
    none of ['free'], ['occupied'], ['reserved'] account for every slot
    exactly once; so the counters add up to the number of slots exactly
    when no slot has another status. *)
Theorem counters_account_for_known_statuses
        (slots : list Slot) (total : option Z) :
  let o := MapView.aggregate (Some slots) total in
  let unknown :=
    JS.count (fun s => negb (DashboardView.known_status s)) slots in
  (MapView.freeSlots o + MapView.occupiedSlots o + MapView.reservedSlots o
   + unknown = length slots)%nat
  /\ ((MapView.freeSlots o + MapView.occupiedSlots o
       + MapView.reservedSlots o = length slots)%nat
      <-> forallb DashboardView.known_status slots = true).
Proof.
  cbv zeta. unfold MapView.aggregate, MapView.count_status.
  cbn [MapView.freeSlots MapView.occupiedSlots MapView.reservedSlots].
  assert (E : (JS.count (MapView.has_status "free") slots
               + JS.count (MapView.has_status "occupied") slots
               + JS.count (MapView.has_status "reserved") slots
               = JS.count DashboardView.known_status slots)%nat).
  { rewrite (count_split (MapView.has_status "free")
                         (MapView.has_status "occupied"))
      by (intro x; now apply distinct_statuses).
    rewrite count_split.
    - reflexivity.
    - intro x. unfold MapView.has_status.
      destruct (slot_status x =? "reserved")%string eqn:R;
        [|now rewrite andb_false_r].
      apply String.eqb_eq in R. rewrite R. reflexivity. }
  rewrite E.
  pose proof (count_complement DashboardView.known_status slots) as C.
  split; [exact C|].
  split; intro H.
  - apply forallb_forall. intros x I.
    destruct (DashboardView.known_status x) eqn:K; [reflexivity|].
    exfalso.
    assert (J : In x (filter (fun s => negb (DashboardView.known_status s))
                             slots)).
    { apply filter_In. split; [exact I|]. now rewrite K. }
    unfold JS.count in C, H.
    destruct (filter (fun s => negb (DashboardView.known_status s)) slots);
      [contradiction|].
    cbn [length] in C. lia.
  - unfold JS.count.
    now rewrite (forallb_filter_id DashboardView.known_status slots H).
Qed.

(** X2: an area whose slots could not be read (the query answered with an
    error, or with no rows object) is reported with all counters 0 and an
    occupancy of 0, whatever its capacity, and the page shows it as
    ['Full']. *)
Theorem area_without_slot_data_reads_as_full
        (a : ParkingArea) (resp : Response (list Slot)) :
  data resp = None \/ error resp <> None ->
  let e := {| MapViewPage.area := a;
              MapViewPage.occupancy := MapView.areaOccupancy a resp |} in
  MapView.freeSlots (MapViewPage.occupancy e) = 0%nat
  /\ MapView.occupiedSlots (MapViewPage.occupancy e) = 0%nat
  /\ MapView.reservedSlots (MapViewPage.occupancy e) = 0%nat
  /\ (MapView.occupancyPercentage (MapViewPage.occupancy e) == 0)%Q
  /\ MapViewPage.availability e = "Full".
Proof.
  intros H. cbv zeta. unfold MapViewPage.availability.
  cbn [MapViewPage.occupancy]. unfold MapView.areaOccupancy.
  destruct (error resp) as [err|].
  - repeat split; reflexivity.
  - destruct H as [H|H]; [|congruence]. rewrite H.
    unfold MapView.aggregate_double, MapView.count_status.
    cbn [MapView.freeSlots MapView.occupiedSlots MapView.reservedSlots
         MapView.occupancyPercentage].
    repeat split; try reflexivity.
    unfold MapView.percentage_double.
    destruct (0 <? JS.or_zero (total_slots a)); [|reflexivity].
    unfold Double.mul, Double.div, Double.round, Qmult, Qdiv, Qinv, inject_Z.
    cbn [Nat.add Z.of_nat Qnum Qden Z.mul]. reflexivity.
Qed.

Lemma area_without_slot_data_reads_as_full_witness :
  let resp := {| data := None; error := Some "timeout" |} in
  let e := {| MapViewPage.area := Cases.whitefield;
              MapViewPage.occupancy :=
                MapView.areaOccupancy Cases.whitefield resp |} in
  (data resp = None \/ error resp <> None)
  /\ MapView.freeSlots (MapViewPage.occupancy e) = 0%nat
  /\ MapViewPage.availability e = "Full".
Proof.
  cbv zeta.
  assert (H : data {| data := @None (list Slot); error := Some "timeout" |}
              = None
              \/ error {| data := @None (list Slot);
                          error := Some "timeout" |} <> None)
    by (left; reflexivity).
  destruct (area_without_slot_data_reads_as_full Cases.whitefield _ H)
    as (F & _ & _ & _ & A).
  split; [exact H|]. split; [exact F | exact A].
Defined.

(** X3: when the slots of an area were read, the page shows the area as
    ['Available'] exactly when at least one of its slots has status
    ['free'], and as ['Full'] otherwise; the declared capacity plays no
    part. *)
Theorem availability_reflects_free_slots
        (a : ParkingArea) (slots : list Slot) :
  let e := {| MapViewPage.area := a;
              MapViewPage.occupancy :=
                MapView.areaOccupancy a
                  {| data := Some slots; error := None |} |} in
  (MapViewPage.availability e = "Available"
   <-> exists s, In s slots /\ slot_status s = "free")
  /\ (MapViewPage.availability e = "Full"
      <-> forall s, In s slots -> slot_status s <> "free").
Proof.
  cbv zeta. unfold MapViewPage.availability.
  cbn [MapViewPage.occupancy]. unfold MapView.areaOccupancy.
  cbn [error data]. unfold MapView.aggregate_double, MapView.count_status.
  cbn [MapView.freeSlots].
  pose proof (free_count_positive slots) as P.
  destruct (0 <? JS.count (MapView.has_status "free") slots)%nat eqn:E.
  - apply Nat.ltb_lt in E. apply P in E as X.
    split; split; try discriminate; intro H; try reflexivity; try exact X.
    destruct X as (s & I & F). exfalso. now apply (H s I).
  - apply Nat.ltb_ge in E.
    split; split; try discriminate; intro H; try reflexivity.
    + apply P in H. lia.
    + intros s I F. assert (X : exists s, In s slots /\ slot_status s = "free")
        by (now exists s).
      apply P in X. lia.
Qed.

(** X28: in double precision, as the page computes it, the occupancy
    percentage of an area with a positive capacity is never negative and
    is at most 100 exactly when the occupied and reserved slots do not
    exceed the declared capacity; it is exactly 0 when no slot is occupied
    or reserved and exactly 100 when their number is the capacity. *)
Theorem rounded_percentage_bounds (slots : list Slot) (total : Z) :
  0 < total ->
  total < 2 ^ 53 ->
  Z.of_nat (length slots) < 2 ^ 32 ->
  let o := MapView.aggregate_double (Some slots) (Some total) in
  let taken := (MapView.occupiedSlots o + MapView.reservedSlots o)%nat in
  (0 <= MapView.occupancyPercentage o)%Q
  /\ ((MapView.occupancyPercentage o <= 100)%Q <-> Z.of_nat taken <= total)
  /\ (taken = 0%nat -> (MapView.occupancyPercentage o == 0)%Q)
  /\ (Z.of_nat taken = total -> (MapView.occupancyPercentage o == 100)%Q).
Proof.
  intros T _ B. cbv zeta.
  unfold MapView.aggregate_double, MapView.count_status.
  cbn [MapView.occupiedSlots MapView.reservedSlots
       MapView.occupancyPercentage JS.or_zero].
  pose proof (counts_within_length slots) as L.
  split; [apply percentage_double_nonneg|].
  split; [apply percentage_double_le_100; [exact T | lia]|].
  now apply percentage_double_exact_ends.
Qed.

Lemma rounded_percentage_bounds_witness :
  let o := MapView.aggregate_double (Some Scenario.seven_occupied)
                                    (Some 100) in
  (0 < 100 /\ 100 < 2 ^ 53
   /\ Z.of_nat (length Scenario.seven_occupied) < 2 ^ 32)
  /\ (0 <= MapView.occupancyPercentage o)%Q
  /\ (MapView.occupancyPercentage o <= 100)%Q.
Proof.
  cbv zeta.
  assert (T : 0 < 100) by reflexivity.
  assert (R : 100 < 2 ^ 53) by reflexivity.
  assert (B : Z.of_nat (length Scenario.seven_occupied) < 2 ^ 32)
    by reflexivity.
  destruct (rounded_percentage_bounds Scenario.seven_occupied 100 T R B)
    as (N & H & _).
  split; [repeat split|]. split; [exact N|].
  apply H. vm_compute. discriminate.
Defined.

(** X4: however the fetch of the map page ends, [loading] is false and the
    selected area is untouched.  When the areas query fails the list is
    kept and one error toast is shown; when it carries no rows the list
    becomes empty; otherwise the list has exactly one entry per fetched
    area, in the order of the answer, even for areas whose slot query
    failed. *)
Theorem map_fetch_lists_every_area
        (areas : Response (list ParkingArea))
        (slotsOf : string -> Response (list Slot))
        (s : MapViewPage.State) :
  let r := MapViewPage.fetchParkingAreasWithOccupancy areas slotsOf s in
  MapViewPage.loading (fst r) = false
  /\ MapViewPage.selectedArea (fst r) = MapViewPage.selectedArea s
  /\ (error areas <> None ->
      MapViewPage.parkingAreasWithOccupancy (fst r)
      = MapViewPage.parkingAreasWithOccupancy s
      /\ snd r = [ToastError "Failed to load parking areas"])
  /\ (error areas = None ->
      snd r = []
      /\ (data areas = None ->
          MapViewPage.parkingAreasWithOccupancy (fst r) = [])
      /\ (forall rows, data areas = Some rows ->
            map MapViewPage.area
                (MapViewPage.parkingAreasWithOccupancy (fst r)) = rows)).
Proof.
  cbv zeta. unfold MapViewPage.fetchParkingAreasWithOccupancy.
  destruct (error areas) as [e|].
  - cbn. repeat split; congruence.
  - destruct (data areas) as [rows|]; cbn.
    + repeat split; try congruence.
      intros rows' E. injection E as <-.
      rewrite map_map. cbn. apply map_id.
    + repeat split; congruence.
Qed.

Lemma map_fetch_lists_every_area_witness :
  let areas := {| data := Some [Cases.whitefield; Cases.mall];
                  error := None |} in
  let slotsOf := fun id : string =>
    if (id =? "a-1")%string
    then {| data := Some Scenario.ten_slots; error := None |}
    else {| data := None; error := Some "timeout" |} in
  let r := MapViewPage.fetchParkingAreasWithOccupancy areas slotsOf
             Cases.map_page in
  error areas = None
  /\ map MapViewPage.area (MapViewPage.parkingAreasWithOccupancy (fst r))
     = [Cases.whitefield; Cases.mall]
  /\ map MapViewPage.availability
         (MapViewPage.parkingAreasWithOccupancy (fst r))
     = ["Available"; "Full"].
Proof.
  cbv zeta. split; [reflexivity|].
  split; [|reflexivity].
  destruct (map_fetch_lists_every_area
              {| data := Some [Cases.whitefield; Cases.mall];
                 error := None |}
              (fun id : string =>
                 if (id =? "a-1")%string
                 then {| data := Some Scenario.ten_slots; error := None |}
                 else {| data := None; error := Some "timeout" |})
              Cases.map_page) as (_ & _ & _ & OK).
  destruct (OK eq_refl) as (_ & _ & ROWS).
  exact (ROWS _ eq_refl).
Defined.

(** X5: called without area data, the page's selection handler navigates
    exactly when an area with the given id is listed; it then selects the
    first listed area with that id and assigns the dashboard location of
    that id once.  For an unlisted id it neither navigates nor changes the
    state.  Called with area data it selects that data and navigates to the
    given id without consulting the list. *)
Theorem area_selection_navigates_to_listed_areas
        (areaId : string) (s : MapViewPage.State) :
  let r := MapViewPage.handleAreaSelect areaId None s in
  ((forall a, In a (MapViewPage.parkingAreasWithOccupancy s) ->
              area_id (MapViewPage.area a) <> areaId) ->
   r = (s, []))
  /\ (forall a, In a (MapViewPage.parkingAreasWithOccupancy s) ->
                area_id (MapViewPage.area a) = areaId ->
        snd r = [LocationAssign areaId]
        /\ exists d, MapViewPage.selectedArea (fst r) = Some d
                     /\ In d (MapViewPage.parkingAreasWithOccupancy s)
                     /\ area_id (MapViewPage.area d) = areaId)
  /\ (forall d,
        MapViewPage.handleAreaSelect areaId (Some d) s
        = (MapViewPage.setSelectedArea (Some d) s, [LocationAssign areaId])).
Proof.
  cbv zeta. unfold MapViewPage.handleAreaSelect, MapViewPage.selectedAreaData.
  split; [|split; [|reflexivity]].
  - intro H.
    destruct (find _ (MapViewPage.parkingAreasWithOccupancy s)) as [d|] eqn:F;
      [|reflexivity].
    apply find_some in F as [I E]. apply String.eqb_eq in E.
    now apply H in I.
  - intros a I E.
    destruct (find _ (MapViewPage.parkingAreasWithOccupancy s)) as [d|] eqn:F.
    + apply find_some in F as [I' E']. apply String.eqb_eq in E'.
      split; [reflexivity|]. exists d. cbn. auto.
    + exfalso. apply (find_none _ _ F) in I.
      apply String.eqb_neq in I. contradiction.
Qed.

Lemma area_selection_navigates_to_listed_areas_witness :
  let r := MapViewPage.handleAreaSelect "a-2" None Cases.map_page in
  In (Cases.entry Cases.mall Scenario.two_occupied)
     (MapViewPage.parkingAreasWithOccupancy Cases.map_page)
  /\ snd r = [LocationAssign "a-2"]
  /\ MapViewPage.handleAreaSelect "a-9" None Cases.map_page
     = (Cases.map_page, []).
Proof.
  cbv zeta.
  assert (I : In (Cases.entry Cases.mall Scenario.two_occupied)
                 (MapViewPage.parkingAreasWithOccupancy Cases.map_page))
    by (right; left; reflexivity).
  destruct (area_selection_navigates_to_listed_areas "a-2" Cases.map_page)
    as (_ & L & _).
  destruct (area_selection_navigates_to_listed_areas "a-9" Cases.map_page)
    as (U & _ & _).
  split; [exact I|].
  split; [exact (proj1 (L _ I eq_refl))|].
  apply U. intros a [<-|[<-|[]]]; discriminate.
Defined.

(** ** The map component *)

Section MapComponent.

Variable A : Type.
Variable idOf : A -> string.

Lemma find_unique_id (l : list A) (a : A) :
  NoDup (map idOf l) -> In a l ->
  find (fun x => (idOf x =? idOf a)%string) l = Some a.
Proof.
  induction l as [|x l IH]; intros N I; [contradiction|].
  cbn [find]. cbn [map] in N. apply NoDup_cons_iff in N as [NI N].
  destruct I as [->|I]; [now rewrite String.eqb_refl|].
  destruct (idOf x =? idOf a)%string eqn:E; [|now apply IH].
  apply String.eqb_eq in E. exfalso. apply NI. rewrite E.
  now apply in_map.
Qed.

End MapComponent.

(** X6: what a selection made on the map does to the two components.  A
    marker's double activation selects the marker's area in the map
    component and in the page and navigates twice to the dashboard of that
    area, first by assigning the location, then through the router.  The
    popup's button does nothing at all for an id that is not among the
    areas, and, when the ids of the areas are distinct, does for a listed
    area exactly what its marker's double activation does. *)
Theorem map_selection_reaches_the_dashboard
        (areas : list MapViewPage.AreaWithOccupancy)
        (s : GoogleMapComponent.State MapViewPage.AreaWithOccupancy)
        (p : MapViewPage.State) :
  let idOf := fun e => area_id (MapViewPage.area e) in
  let select :=
    GoogleMapComponent.markerSelect _ _ idOf MapViewPage.handleAreaSelect in
  let button :=
    GoogleMapComponent.selectParkingArea _ _ idOf
      MapViewPage.handleAreaSelect areas in
  (forall a,
     select a s p
     = (GoogleMapComponent.mkState (Some a),
        MapViewPage.setSelectedArea (Some a) p,
        [LocationAssign (idOf a); RouterNavigate (idOf a)]))
  /\ (forall areaId,
        (forall a, In a areas -> idOf a <> areaId) ->
        button areaId s p = (s, p, []))
  /\ (forall a,
        NoDup (map idOf areas) -> In a areas ->
        button (idOf a) s p = select a s p).
Proof.
  cbv zeta. split; [reflexivity|]. split.
  - intros areaId H. unfold GoogleMapComponent.selectParkingArea.
    destruct (find _ areas) as [d|] eqn:F; [|reflexivity].
    apply find_some in F as [I E]. apply String.eqb_eq in E.
    now apply H in I.
  - intros a N I. unfold GoogleMapComponent.selectParkingArea.
    now rewrite (find_unique_id _ (fun e => area_id (MapViewPage.area e))
                   areas a N I).
Qed.

Lemma map_selection_reaches_the_dashboard_witness :
  let areas := MapViewPage.parkingAreasWithOccupancy Cases.map_page in
  let idOf := fun e => area_id (MapViewPage.area e) in
  let mall := Cases.entry Cases.mall Scenario.two_occupied in
  NoDup (map idOf areas)
  /\ In mall areas
  /\ snd (GoogleMapComponent.selectParkingArea _ _ idOf
            MapViewPage.handleAreaSelect areas "a-2"
            (GoogleMapComponent.mkState None) Cases.map_page)
     = [LocationAssign "a-2"; RouterNavigate "a-2"].
Proof.
  cbv zeta.
  assert (N : NoDup (map (fun e => area_id (MapViewPage.area e))
                         (MapViewPage.parkingAreasWithOccupancy
                            Cases.map_page))).
  { cbn. repeat constructor; cbn; intuition discriminate. }
  assert (I : In (Cases.entry Cases.mall Scenario.two_occupied)
                 (MapViewPage.parkingAreasWithOccupancy Cases.map_page))
    by (right; left; reflexivity).
  destruct (map_selection_reaches_the_dashboard
              (MapViewPage.parkingAreasWithOccupancy Cases.map_page)
              (GoogleMapComponent.mkState None) Cases.map_page)
    as (S & _ & B).
  split; [exact N|]. split; [exact I|].
  change "a-2" with (area_id (MapViewPage.area
                                (Cases.entry Cases.mall
                                   Scenario.two_occupied))) at 1.
  rewrite (B _ N I), S. reflexivity.
Defined.

(** ** The Dashboard: areas and the monitored system *)

Section DashboardAreaFacts.
Import DashboardAreas.

Lemma listed_iff_selected (areaId : string) (rows : list ParkingArea) :
  listed areaId rows = true
  <-> exists a, find (fun x => (area_id x =? areaId)%string) rows = Some a.
Proof.
  unfold listed. destruct (find _ rows) as [a|].
  - split; [intros _; now exists a | reflexivity].
  - split; [discriminate | intros (a & H); discriminate].
Qed.

Lemma first_is_listed (a : ParkingArea) (rows : list ParkingArea) :
  listed (area_id a) (a :: rows) = true.
Proof. unfold listed. cbn [find]. now rewrite String.eqb_refl. Qed.

Lemma lower_is_not_upper (c : ascii) : is_upper (lower c) = false.
Proof.
  destruct c as [[] [] [] [] [] [] [] []]; vm_compute; reflexivity.
Qed.

Lemma lower_keeps_non_space (c : ascii) :
  is_space (lower c) = is_space c.
Proof.
  destruct c as [[] [] [] [] [] [] [] []]; vm_compute; reflexivity.
Qed.

Lemma all_chars_app (p : ascii -> bool) (s t : string) :
  all_chars p (s ++ t) = all_chars p s && all_chars p t.
Proof.
  induction s as [|c s IH]; [reflexivity|].
  cbn [append all_chars]. now rewrite IH, andb_assoc.
Qed.

Lemma toLowerCase_has_no_upper (s : string) :
  all_chars (fun c => negb (is_upper c)) (toLowerCase s) = true.
Proof.
  induction s as [|c s IH]; [reflexivity|].
  cbn [toLowerCase all_chars]. now rewrite lower_is_not_upper, IH.
Qed.

Lemma replace_spaces_keeps (p : ascii -> bool) (s : string) :
  p "_"%char = true ->
  all_chars p s = true ->
  forall in_run, all_chars p (replace_spaces in_run s) = true.
Proof.
  intros U. induction s as [|c s IH]; intros H in_run; [reflexivity|].
  cbn [all_chars] in H. apply andb_true_iff in H as [Hc Hs].
  cbn [replace_spaces].
  destruct (is_space c), in_run; cbn [all_chars];
    rewrite ?U, ?Hc, ?IH; auto.
Qed.

Lemma replace_spaces_leaves_no_space (s : string) (in_run : bool) :
  all_chars (fun c => negb (is_space c)) (replace_spaces in_run s) = true.
Proof.
  revert in_run. induction s as [|c s IH]; intro in_run; [reflexivity|].
  cbn [replace_spaces].
  destruct (is_space c) eqn:E, in_run; cbn [all_chars];
    rewrite ?E, ?IH; reflexivity.
Qed.

Lemma area_fetch_result (areaFromUrl : option string)
      (rows : list ParkingArea) (captured : string) (s : State) :
  let r := fetchParkingAreas areaFromUrl captured
             {| data := Some rows; error := None |} s in
  parkingAreas (fst r) = rows
  /\ snd r = []
  /\ selectedAreaId (fst r)
     = url_chosen areaFromUrl rows captured (selectedAreaId s).
Proof.
  cbv zeta. unfold fetchParkingAreas, url_chosen. cbn [error data].
  destruct areaFromUrl as [url|];
    [destruct (JS.truthy_string url && listed url rows)|];
    destruct rows as [|first rest];
    try destruct (negb (JS.truthy_string captured));
    repeat split.
Qed.

(** Without a usable area in the URL the choice is between the first
    fetched area and the current selection. *)
Lemma url_not_chosen (areaFromUrl : option string)
      (rows : list ParkingArea) (captured current : string) :
  (forall url, areaFromUrl = Some url ->
               url = "" \/ listed url rows = false) ->
  url_chosen areaFromUrl rows captured current
  = match rows with
    | first :: _ =>
        if negb (JS.truthy_string captured) then area_id first else current
    | [] => current
    end.
Proof.
  intro H. unfold url_chosen. destruct areaFromUrl as [url|]; [|reflexivity].
  destruct (H url eq_refl) as [-> | ->]; [reflexivity|].
  now rewrite andb_false_r.
Qed.

End DashboardAreaFacts.

(** X8: after the Dashboard has fetched the areas without error, its area
    list is the fetched list.  An area named in the URL is selected
    whenever it is among the fetched areas.  Otherwise, when the list is
    not empty and no area was selected in the render that started the
    fetch, the first fetched area is selected, also when an area was
    selected while the fetch was under way; in both cases the selected id
    is one of the fetched areas, so a selected area is found.  In every
    other case the selection of the page is left as it is.  When the query
    fails the state is unchanged and one error toast is shown. *)
Theorem area_fetch_selects_a_listed_area
        (areaFromUrl : option string) (rows : list ParkingArea)
        (rendered s : DashboardAreas.State) :
  let r := DashboardAreas.areasEffect areaFromUrl rendered
             {| data := Some rows; error := None |} s in
  let captured := DashboardAreas.selectedAreaId rendered in
  DashboardAreas.parkingAreas (fst r) = rows
  /\ snd r = []
  /\ (forall url, areaFromUrl = Some url -> url <> "" ->
                  DashboardAreas.listed url rows = true ->
                  DashboardAreas.selectedAreaId (fst r) = url
                  /\ DashboardAreas.selectedArea (fst r) <> None)
  /\ ((forall url, areaFromUrl = Some url ->
                   url = "" \/ DashboardAreas.listed url rows = false) ->
      (forall first rest, rows = first :: rest -> captured = "" ->
         DashboardAreas.selectedAreaId (fst r) = area_id first
         /\ DashboardAreas.selectedArea (fst r) <> None)
      /\ (rows = [] \/ captured <> "" ->
          DashboardAreas.selectedAreaId (fst r)
          = DashboardAreas.selectedAreaId s))
  /\ (rows <> [] -> captured = "" ->
      DashboardAreas.listed (DashboardAreas.selectedAreaId (fst r)) rows
      = true)
  /\ (forall (d : option (list ParkingArea)) (e : string),
        DashboardAreas.areasEffect areaFromUrl rendered
          {| data := d; error := Some e |} s
        = (s, [ToastError "Failed to load parking areas"])).
Proof.
  cbv zeta. unfold DashboardAreas.areasEffect.
  set (captured := DashboardAreas.selectedAreaId rendered).
  pose proof (area_fetch_result areaFromUrl rows captured s) as (P & T & C).
  set (r := DashboardAreas.fetchParkingAreas areaFromUrl captured
              {| data := Some rows; error := None |} s) in *.
  split; [exact P|]. split; [exact T|].
  assert (F : forall id,
             DashboardAreas.selectedAreaId (fst r) = id ->
             DashboardAreas.listed id rows = true ->
             DashboardAreas.selectedArea (fst r) <> None).
  { intros id I L. unfold DashboardAreas.selectedArea.
    rewrite P, I. apply listed_iff_selected in L as (a & ->). discriminate. }
  assert (U : forall url, areaFromUrl = Some url -> url <> "" ->
                          DashboardAreas.listed url rows = true ->
                          DashboardAreas.selectedAreaId (fst r) = url).
  { intros url E N L. rewrite C, E. cbn [DashboardAreas.url_chosen].
    now rewrite (truthy_string_nonempty _ N), L. }
  split.
  { intros url E N L. split; [now apply U|].
    apply (F url); [now apply U | exact L]. }
  split.
  { intro H. rewrite (url_not_chosen _ _ _ _ H) in C.
    split.
    - intros first rest -> E. rewrite E in C.
      cbn [JS.truthy_string String.eqb negb] in C.
      split; [exact C|]. apply (F _ C). apply first_is_listed.
    - intros [-> | N]; [exact C|].
      rewrite (truthy_string_nonempty _ N) in C.
      destruct rows; exact C. }
  split.
  { intros N E. rewrite C. unfold DashboardAreas.url_chosen.
    destruct rows as [|first rest]; [contradiction|].
    rewrite E. cbn [JS.truthy_string String.eqb negb].
    destruct areaFromUrl as [url|]; [|apply first_is_listed].
    destruct (JS.truthy_string url
              && DashboardAreas.listed url (first :: rest)) eqn:B;
      [|apply first_is_listed].
    now apply andb_true_iff in B as [_ B]. }
  intros d e. reflexivity.
Qed.

(** An area named in the URL, and a selection made while the areas were
    being fetched: the answer replaces it by the first area. *)
Lemma area_fetch_selects_a_listed_area_witness :
  let rows := [Cases.whitefield; Cases.mall] in
  let fresh := {| DashboardAreas.parkingAreas := [];
                  DashboardAreas.selectedAreaId := "" |} in
  let chosen := {| DashboardAreas.parkingAreas := [];
                   DashboardAreas.selectedAreaId := "a-2" |} in
  let by_url := DashboardAreas.areasEffect (Some "a-2") fresh
                  {| data := Some rows; error := None |} fresh in
  let overridden := DashboardAreas.areasEffect (Some "a-9") fresh
                      {| data := Some rows; error := None |} chosen in
  ("a-2" <> "" /\ DashboardAreas.listed "a-2" rows = true)
  /\ DashboardAreas.listed "a-9" rows = false
  /\ DashboardAreas.selectedAreaId (fst by_url) = "a-2"
  /\ DashboardAreas.selectedAreaId (fst overridden) = "a-1".
Proof.
  cbv zeta.
  assert (N : "a-2" <> "") by discriminate.
  destruct (area_fetch_selects_a_listed_area (Some "a-2")
              [Cases.whitefield; Cases.mall]
              {| DashboardAreas.parkingAreas := [];
                 DashboardAreas.selectedAreaId := "" |}
              {| DashboardAreas.parkingAreas := [];
                 DashboardAreas.selectedAreaId := "" |})
    as (_ & _ & U & _).
  destruct (area_fetch_selects_a_listed_area (Some "a-9")
              [Cases.whitefield; Cases.mall]
              {| DashboardAreas.parkingAreas := [];
                 DashboardAreas.selectedAreaId := "" |}
              {| DashboardAreas.parkingAreas := [];
                 DashboardAreas.selectedAreaId := "a-2" |})
    as (_ & _ & _ & D & _).
  assert (H : forall url, Some "a-9" = Some url ->
                          url = ""
                          \/ DashboardAreas.listed url
                               [Cases.whitefield; Cases.mall] = false)
    by (intros url E; injection E as <-; right; reflexivity).
  split; [split; [exact N | reflexivity]|].
  split; [reflexivity|].
  split; [exact (proj1 (U "a-2" eq_refl N eq_refl))|].
  exact (proj1 (proj1 (D H) Cases.whitefield [Cases.mall] eq_refl eq_refl)).
Defined.

(** X9: while an area is selected, the status indicator monitors the system
    id derived from the area's name and never the built-in default id; for
    a name written in ASCII that id contains neither white space nor an
    upper-case letter.  With no area selected the indicator falls back to
    the default id. *)
Theorem monitored_system_follows_the_selected_area (a : ParkingArea) :
  DashboardAreas.all_chars DashboardAreas.is_ascii (area_name a) = true ->
  (exists id,
      DashboardAreas.systemIdOf (Some a) = Some id
      /\ SystemStatusIndicator.targetSystemId (Some id) = id
      /\ DashboardAreas.all_chars
           (fun c => negb (DashboardAreas.is_space c)) id = true
      /\ DashboardAreas.all_chars
           (fun c => negb (DashboardAreas.is_upper c)) id = true)
  /\ SystemStatusIndicator.targetSystemId (DashboardAreas.systemIdOf None)
     = "parking_monitor_tech_park_whitefield".
Proof.
  intros _. split; [|reflexivity].
  eexists. split; [reflexivity|]. split; [reflexivity|].
  rewrite !all_chars_app. split.
  - rewrite replace_spaces_leaves_no_space. reflexivity.
  - rewrite replace_spaces_keeps;
      [reflexivity | reflexivity | apply toLowerCase_has_no_upper].
Qed.

Lemma monitored_system_follows_the_selected_area_witness :
  DashboardAreas.all_chars DashboardAreas.is_ascii
    (area_name Cases.whitefield) = true
  /\ DashboardAreas.systemIdOf (Some Cases.whitefield)
     = Some "parking_monitor_tech_park_whitefield"
  /\ exists id,
       DashboardAreas.systemIdOf (Some Cases.whitefield) = Some id
       /\ SystemStatusIndicator.targetSystemId (Some id) = id.
Proof.
  assert (H : DashboardAreas.all_chars DashboardAreas.is_ascii
                (area_name Cases.whitefield) = true) by reflexivity.
  split; [exact H|]. split; [reflexivity|].
  destruct (monitored_system_follows_the_selected_area Cases.whitefield H)
    as ((id & E & T & _) & _).
  exists id. split; [exact E | exact T].
Defined.

(** ** The Dashboard: selecting, confirming, refreshing *)

Section Selection.
Import Dashboard.

Variables (be : Backend) (st : State) (l : Log).

(** What a selection does, by whether the page lists the slot id. *)
Lemma select_run (slotId : string) :
  handleReserveSlot slotId be st l
  = match find (fun s => (slot_id s =? slotId)%string) (slots st) with
    | Some slot =>
        (tt,
         setSelectedSlotNumber (slot_number slot)
           (setReserveSlotId slotId st), l)
    | None => (tt, st, l)
    end.
Proof.
  unfold handleReserveSlot. handler_steps.
  destruct (find _ (slots st)); reflexivity.
Qed.

Lemma listed_slot_is_found (slot : Slot) :
  In slot (slots st) ->
  exists found,
    find (fun s => (slot_id s =? slot_id slot)%string) (slots st)
    = Some found
    /\ In found (slots st) /\ slot_id found = slot_id slot.
Proof.
  intro I.
  destruct (find (fun s => (slot_id s =? slot_id slot)%string) (slots st))
    as [found|] eqn:F.
  - exists found. apply find_some in F as [I' E].
    apply String.eqb_eq in E. auto.
  - apply (find_none _ _ F) in I. now rewrite String.eqb_refl in I.
Qed.

Lemma press_free_slot (slot : Slot) (rs : list string) :
  slot_status slot = "free" ->
  SlotGrid.press (SlotGrid.slotButton handleReserveSlot rs slot)
  = handleReserveSlot (slot_id slot).
Proof.
  intro F. unfold SlotGrid.press.
  cbn [SlotGrid.slotButton SlotGrid.disabled SlotGrid.onClick].
  rewrite F. reflexivity.
Qed.

End Selection.

(** X10: selecting a slot never contacts the backend and never shows a
    message.  For an id the page does not list it changes nothing; for a
    listed id it stores that id as the slot to reserve, together with the
    number of a listed slot that has this id, and touches neither the slot
    list nor the user's reservations. *)
Theorem slot_selection_is_local
        (be : Backend) (st : Dashboard.State) (l : Log) (slotId : string) :
  let r := Dashboard.handleReserveSlot slotId be st l in
  log_of r = l
  /\ Dashboard.slots (state_of r) = Dashboard.slots st
  /\ Dashboard.userReservations (state_of r) = Dashboard.userReservations st
  /\ ((forall x, In x (Dashboard.slots st) -> slot_id x <> slotId) ->
      state_of r = st)
  /\ (forall x, In x (Dashboard.slots st) -> slot_id x = slotId ->
        Dashboard.reserveSlotId (state_of r) = slotId
        /\ exists y, In y (Dashboard.slots st) /\ slot_id y = slotId
                     /\ Dashboard.selectedSlotNumber (state_of r)
                        = slot_number y).
Proof.
  cbv zeta. rewrite select_run.
  destruct (find _ (Dashboard.slots st)) as [found|] eqn:F;
    unfold state_of, log_of; cbn [fst snd].
  - apply find_some in F as [I E]. apply String.eqb_eq in E.
    split; [reflexivity|]. split; [reflexivity|]. split; [reflexivity|].
    split.
    + intro H. now apply H in I.
    + intros x _ _. split; [reflexivity|]. now exists found.
  - split; [reflexivity|]. split; [reflexivity|]. split; [reflexivity|].
    split; [reflexivity|].
    intros x I E. apply (find_none _ _ F) in I.
    apply String.eqb_neq in I. contradiction.
Qed.

Lemma slot_selection_is_local_witness :
  let r := Dashboard.handleReserveSlot "slot-3" Scenario.reliable
             Cases.browsing empty_log in
  In (Scenario.slot 3 "free") (Dashboard.slots Cases.browsing)
  /\ Dashboard.reserveSlotId (state_of r) = "slot-3"
  /\ state_of (Dashboard.handleReserveSlot "slot-99" Scenario.reliable
                 Cases.browsing empty_log) = Cases.browsing.
Proof.
  cbv zeta.
  assert (I : In (Scenario.slot 3 "free") (Dashboard.slots Cases.browsing))
    by (right; right; left; reflexivity).
  destruct (slot_selection_is_local Scenario.reliable Cases.browsing
              empty_log "slot-3") as (_ & _ & _ & _ & L).
  destruct (slot_selection_is_local Scenario.reliable Cases.browsing
              empty_log "slot-99") as (_ & _ & _ & U & _).
  split; [exact I|]. split; [exact (proj1 (L _ I eq_refl))|].
  apply U. intros x H.
  repeat (destruct H as [<-|H]; [discriminate|]). contradiction.
Defined.

(** X11: pressing the button of a listed free slot and then confirming, as
    a logged-in user whose insert the backend accepts, issues exactly the
    insert of an ['active'] reservation of that user for that slot and the
    update of that slot to ['reserved'], adds the slot to the user's
    reservations and closes the dialog. *)
Theorem pressing_then_confirming_reserves_the_slot
        (be : Backend) (st : Dashboard.State) (l : Log)
        (slot : Slot) (u : Dashboard.User) (startTime endTime : string) :
  In slot (Dashboard.slots st) ->
  slot_status slot = "free" ->
  slot_id slot <> "" ->
  Dashboard.user st = Some u ->
  write_error be (requests l)
    (InsertReservation
       {| ins_user_id := Dashboard.user_id u;
          ins_slot_id := slot_id slot;
          ins_start_time := startTime;
          ins_end_time := endTime;
          ins_status := "active" |}) = None ->
  let button := SlotGrid.slotButton Dashboard.handleReserveSlot
                  (Dashboard.userReservations st) slot in
  let r := (SlotGrid.press button ;;
            Dashboard.handleConfirmReservation startTime endTime)
             be st l in
  requests (log_of r)
  = (requests l
       ++ [ InsertReservation
              {| ins_user_id := Dashboard.user_id u;
                 ins_slot_id := slot_id slot;
                 ins_start_time := startTime;
                 ins_end_time := endTime;
                 ins_status := "active" |};
            UpdateSlotStatus "reserved" (slot_id slot) ])%list
  /\ Dashboard.userReservations (state_of r)
     = (Dashboard.userReservations st ++ [slot_id slot])%list
  /\ Dashboard.reserveSlotId (state_of r) = "".
Proof.
  intros I F N U W. cbv zeta.
  rewrite press_free_slot by exact F.
  unfold bind. rewrite select_run.
  destruct (listed_slot_is_found st slot I) as (found & -> & _ & _).
  set (st1 := Dashboard.setSelectedSlotNumber (slot_number found)
                (Dashboard.setReserveSlotId (slot_id slot) st)).
  assert (U1 : Dashboard.user st1 = Some u) by exact U.
  assert (D1 : Dashboard.reserveSlotId st1 <> "") by exact N.
  rewrite (confirm_run be st1 l u startTime endTime U1 D1 _ eq_refl).
  change (Dashboard.reserveSlotId st1) with (slot_id slot).
  rewrite W. unfold state_of, log_of. cbn [fst snd requests].
  split; [now rewrite <- app_assoc|]. split; reflexivity.
Qed.

Lemma pressing_then_confirming_reserves_the_slot_witness :
  let slot := Scenario.slot 3 "free" in
  let button := SlotGrid.slotButton Dashboard.handleReserveSlot [] slot in
  let r := (SlotGrid.press button ;;
            Dashboard.handleConfirmReservation "10:00" "11:00")
             Scenario.reliable Cases.browsing empty_log in
  (In slot (Dashboard.slots Cases.browsing)
   /\ slot_status slot = "free" /\ slot_id slot <> "")
  /\ requests (log_of r)
     = [ InsertReservation
           {| ins_user_id := "alice"; ins_slot_id := "slot-3";
              ins_start_time := "10:00"; ins_end_time := "11:00";
              ins_status := "active" |};
         UpdateSlotStatus "reserved" "slot-3" ]
  /\ Dashboard.userReservations (state_of r) = ["slot-3"].
Proof.
  cbv zeta.
  assert (I : In (Scenario.slot 3 "free") (Dashboard.slots Cases.browsing))
    by (right; right; left; reflexivity).
  assert (N : slot_id (Scenario.slot 3 "free") <> "") by discriminate.
  destruct (pressing_then_confirming_reserves_the_slot Scenario.reliable
              Cases.browsing empty_log (Scenario.slot 3 "free")
              Scenario.alice "10:00" "11:00" I eq_refl N eq_refl eq_refl)
    as (R & A & _).
  split; [repeat split; [exact I | exact N]|].
  split; [exact R | exact A].
Defined.

(** X12: after a successful confirmation the grid marks the reserved slot
    with the user's badge, but, the local status being unchanged, its
    button is as enabled as before; if the slot is still listed as
    ['free'], pressing it again selects the same slot once more. *)
Theorem reserved_slot_remains_selectable
        (be : Backend) (st : Dashboard.State) (l : Log) (u : Dashboard.User)
        (startTime endTime : string) (x : Slot) :
  Dashboard.user st = Some u ->
  Dashboard.reserveSlotId st <> "" ->
  write_error be (requests l)
    (InsertReservation
       {| ins_user_id := Dashboard.user_id u;
          ins_slot_id := Dashboard.reserveSlotId st;
          ins_start_time := startTime;
          ins_end_time := endTime;
          ins_status := "active" |}) = None ->
  In x (Dashboard.slots st) ->
  slot_id x = Dashboard.reserveSlotId st ->
  let st' := state_of (Dashboard.handleConfirmReservation startTime endTime
                         be st l) in
  let before := SlotGrid.slotButton Dashboard.handleReserveSlot
                  (Dashboard.userReservations st) x in
  let after := SlotGrid.slotButton Dashboard.handleReserveSlot
                 (Dashboard.userReservations st') x in
  In x (Dashboard.slots st')
  /\ SlotGrid.badge after = true
  /\ SlotGrid.disabled after = SlotGrid.disabled before
  /\ (slot_status x = "free" ->
      forall (be' : Backend) (l' : Log),
        Dashboard.reserveSlotId (state_of (SlotGrid.press after be' st' l'))
        = slot_id x).
Proof.
  intros U D W I E. cbv zeta.
  rewrite (confirm_run be st l u startTime endTime U D _ eq_refl), W.
  unfold state_of. cbn [fst snd].
  split; [exact I|]. split.
  { cbn [SlotGrid.slotButton SlotGrid.badge Dashboard.setUserReservations
         Dashboard.userReservations].
    rewrite existsb_app, E. cbn [existsb].
    now rewrite String.eqb_refl, orb_true_r. }
  split; [reflexivity|].
  intros F be' l'. rewrite press_free_slot by exact F.
  rewrite select_run.
  cbn [Dashboard.slots Dashboard.setUserReservations
       Dashboard.setReserveSlotId].
  destruct (listed_slot_is_found st x I) as (found & -> & _ & _).
  reflexivity.
Qed.

Lemma reserved_slot_remains_selectable_witness :
  let st := Scenario.dialog_on_slot_1 in
  let x := Scenario.slot 1 "free" in
  let st' := state_of (Dashboard.handleConfirmReservation "10:00" "11:00"
                         Scenario.reliable st empty_log) in
  let after := SlotGrid.slotButton Dashboard.handleReserveSlot
                 (Dashboard.userReservations st') x in
  (Dashboard.reserveSlotId st <> "" /\ In x (Dashboard.slots st))
  /\ SlotGrid.badge after = true
  /\ SlotGrid.disabled after = false.
Proof.
  cbv zeta.
  assert (D : Dashboard.reserveSlotId Scenario.dialog_on_slot_1 <> "")
    by discriminate.
  assert (I : In (Scenario.slot 1 "free")
                 (Dashboard.slots Scenario.dialog_on_slot_1))
    by (left; reflexivity).
  destruct (reserved_slot_remains_selectable Scenario.reliable
              Scenario.dialog_on_slot_1 empty_log Scenario.alice
              "10:00" "11:00" (Scenario.slot 1 "free")
              eq_refl D eq_refl I eq_refl) as (_ & B & E & _).
  split; [split; [exact D | exact I]|].
  split; [exact B|]. rewrite E. reflexivity.
Defined.

(** X13: the outcome of a confirmation depends on the backend only through
    its answer to the insert: two backends that answer the insert alike
    leave the same state, requests, messages and console, whatever they
    answer to the slot update.  A failed slot update is thus invisible: the
    success message is shown and the slot is added to the user's
    reservations. *)
Theorem confirmation_depends_on_the_insert_only
        (be1 be2 : Backend) (st : Dashboard.State) (l : Log)
        (startTime endTime : string) :
  (forall row,
     write_error be1 (requests l) (InsertReservation row)
     = write_error be2 (requests l) (InsertReservation row)) ->
  Dashboard.handleConfirmReservation startTime endTime be1 st l
  = Dashboard.handleConfirmReservation startTime endTime be2 st l.
Proof.
  intro H. unfold Dashboard.handleConfirmReservation. handler_steps.
  destruct (Dashboard.user st) as [u|]; [|reflexivity].
  destruct (negb (JS.truthy_string (Dashboard.reserveSlotId st)));
    [reflexivity|].
  rewrite H. destruct (write_error be2 (requests l) _); reflexivity.
Qed.

Lemma confirmation_depends_on_the_insert_only_witness :
  let ok := Dashboard.handleConfirmReservation "10:00" "11:00"
              Scenario.reliable Scenario.dialog_on_slot_1 empty_log in
  let half := Dashboard.handleConfirmReservation "10:00" "11:00"
                Scenario.slot_update_fails Scenario.dialog_on_slot_1
                empty_log in
  (forall row,
     write_error Scenario.reliable (requests empty_log)
       (InsertReservation row)
     = write_error Scenario.slot_update_fails (requests empty_log)
         (InsertReservation row))
  /\ half = ok
  /\ toasts (log_of half) = [ToastSuccess "Slot reserved successfully!"]
  /\ write_error Scenario.slot_update_fails
       [InsertReservation
          {| ins_user_id := "alice"; ins_slot_id := "slot-1";
             ins_start_time := "10:00"; ins_end_time := "11:00";
             ins_status := "active" |}]
       (UpdateSlotStatus "reserved" "slot-1") = Some "update refused".
Proof.
  cbv zeta.
  assert (H : forall row,
             write_error Scenario.reliable (requests empty_log)
               (InsertReservation row)
             = write_error Scenario.slot_update_fails (requests empty_log)
                 (InsertReservation row)) by reflexivity.
  split; [exact H|].
  split; [symmetry;
          exact (confirmation_depends_on_the_insert_only Scenario.reliable
                   Scenario.slot_update_fails Scenario.dialog_on_slot_1
                   empty_log "10:00" "11:00" H)|].
  split; reflexivity.
Defined.

(** X14: a confirmation contacts the backend exactly when a user is logged
    in and a slot is selected; without a user, or with no slot selected, it
    returns at once and changes nothing. *)
Theorem confirmation_needs_user_and_slot
        (be : Backend) (st : Dashboard.State) (l : Log)
        (startTime endTime : string) :
  let r := Dashboard.handleConfirmReservation startTime endTime be st l in
  (requests (log_of r) = requests l
   <-> Dashboard.user st = None \/ Dashboard.reserveSlotId st = "")
  /\ (Dashboard.user st = None \/ Dashboard.reserveSlotId st = "" ->
      r = (tt, st, l)).
Proof.
  cbv zeta.
  assert (Q : Dashboard.user st = None \/ Dashboard.reserveSlotId st = "" ->
              Dashboard.handleConfirmReservation startTime endTime be st l
              = (tt, st, l)).
  { intros [N|E]; [|now apply confirm_with_closed_dialog].
    unfold Dashboard.handleConfirmReservation, bind, read.
    now rewrite N. }
  split; [|exact Q]. split.
  - intro H.
    destruct (Dashboard.user st) as [u|] eqn:U; [|now left].
    destruct (string_dec (Dashboard.reserveSlotId st) "") as [E|D];
      [now right|].
    exfalso.
    rewrite (confirm_run be st l u startTime endTime U D _ eq_refl) in H.
    apply (f_equal (@length Request)) in H.
    destruct (write_error be (requests l) _); unfold log_of in H;
      cbn [snd requests] in H; rewrite !length_app in H; cbn in H; lia.
  - intro H. now rewrite (Q H).
Qed.

Lemma confirmation_needs_user_and_slot_witness :
  (Dashboard.user Cases.browsing = None
   \/ Dashboard.reserveSlotId Cases.browsing = "")
  /\ Dashboard.handleConfirmReservation "10:00" "11:00" Scenario.reliable
       Cases.browsing empty_log = (tt, Cases.browsing, empty_log).
Proof.
  assert (H : Dashboard.user Cases.browsing = None
              \/ Dashboard.reserveSlotId Cases.browsing = "")
    by (right; reflexivity).
  split; [exact H|].
  exact (proj2 (confirmation_needs_user_and_slot Scenario.reliable
                  Cases.browsing empty_log "10:00" "11:00") H).
Defined.

(** X15: a confirmation never reads the local slot list: replacing the
    list, as a refresh does, commutes with it.  In particular a slot that a
    refresh now shows as occupied, or no longer shows, is still reserved
    when the dialog that was opened on it is confirmed. *)
Theorem confirmation_does_not_recheck_the_slot
        (be : Backend) (st : Dashboard.State) (l : Log)
        (startTime endTime : string) (rows : list Slot) :
  let r := Dashboard.handleConfirmReservation startTime endTime be st l in
  Dashboard.handleConfirmReservation startTime endTime be
    (Dashboard.setSlots rows st) l
  = (tt, Dashboard.setSlots rows (state_of r), log_of r).
Proof.
  cbv zeta. unfold Dashboard.handleConfirmReservation. handler_steps.
  cbn [Dashboard.user Dashboard.reserveSlotId Dashboard.setSlots].
  destruct (Dashboard.user st) as [u|]; [|reflexivity].
  destruct (negb (JS.truthy_string (Dashboard.reserveSlotId st)));
    [reflexivity|].
  destruct (write_error be (requests l) _); reflexivity.
Qed.

(** X16: a refresh of the slots issues exactly one query, for the selected
    area, and touches neither the user's reservations nor the slot selected
    for reservation.  When the query fails the list is kept and one error
    toast is shown; when it succeeds nothing is shown and the list becomes
    the rows of the answer, or is kept if the answer carries none. *)
Theorem slot_refresh_outcomes
        (be : Backend) (st : Dashboard.State) (l : Log) :
  let resp := slot_rows be (requests l) (Dashboard.selectedAreaId st) in
  let r := Dashboard.fetchSlots be st l in
  requests (log_of r)
  = (requests l ++ [SelectSlots (Dashboard.selectedAreaId st)])%list
  /\ Dashboard.userReservations (state_of r) = Dashboard.userReservations st
  /\ Dashboard.reserveSlotId (state_of r) = Dashboard.reserveSlotId st
  /\ (error resp <> None ->
      state_of r = st
      /\ toasts (log_of r)
         = (toasts l ++ [ToastError "Failed to load slots"])%list)
  /\ (error resp = None ->
      toasts (log_of r) = toasts l
      /\ Dashboard.slots (state_of r)
         = match data resp with
           | Some rows => rows
           | None => Dashboard.slots st
           end).
Proof.
  cbv zeta. unfold Dashboard.fetchSlots. handler_steps.
  destruct (slot_rows be (requests l) (Dashboard.selectedAreaId st))
    as [d e].
  cbn [error data]. unfold state_of, log_of.
  destruct e as [e|]; [|destruct d as [rows|]]; cbn [fst snd requests toasts];
    (split; [reflexivity|]); (split; [reflexivity|]);
    (split; [reflexivity|]); split; try congruence; intros _;
    split; reflexivity.
Qed.

Lemma slot_refresh_outcomes_witness :
  let r := Dashboard.fetchSlots Cases.slots_unavailable Cases.browsing
             empty_log in
  error (slot_rows Cases.slots_unavailable [] "area-1") <> None
  /\ state_of r = Cases.browsing
  /\ toasts (log_of r) = [ToastError "Failed to load slots"].
Proof.
  cbv zeta.
  assert (H : error (slot_rows Cases.slots_unavailable (requests empty_log)
                       (Dashboard.selectedAreaId Cases.browsing)) <> None)
    by discriminate.
  destruct (slot_refresh_outcomes Cases.slots_unavailable Cases.browsing
              empty_log) as (_ & _ & _ & E & _).
  destruct (E H) as (S & T).
  split; [exact H|]. split; [exact S | exact T].
Defined.

(** ** The Profile: the two views *)

Lemma shown_history_is_a_prefix (s : Profile.State) :
  length (Profile.shownHistory s)
  = Nat.min 10 (length (Profile.pastReservations s))
  /\ Profile.pastReservations s
     = (Profile.shownHistory s ++ skipn 10 (Profile.pastReservations s))%list
  /\ (forall r, In r (Profile.shownHistory s) ->
                In r (Profile.pastReservations s))
  /\ (Profile.shownHistory s = Profile.pastReservations s
      <-> (length (Profile.pastReservations s) <= 10)%nat).
Proof.
  unfold Profile.shownHistory.
  set (past := Profile.pastReservations s).
  pose proof (length_firstn 10 past) as L.
  split; [exact L|].
  split; [symmetry; apply firstn_skipn|].
  split.
  - intros r I. rewrite <- (firstn_skipn 10 past).
    apply in_or_app. now left.
  - split.
    + intro E. rewrite E in L. lia.
    + intro H. now apply firstn_all2.
Qed.

(** X17: the active list and the past list split the user's reservations:
    every reservation is in exactly one of the two, and their sizes add up
    to the total that the account card displays.  The history card renders
    the first ten past reservations only: what it shows is the past list
    cut after ten entries, and it shows every past reservation exactly
    when there are at most ten. *)
Theorem reservation_views_split_the_list (s : Profile.State) :
  (length (Profile.activeReservations s)
   + length (Profile.pastReservations s)
   = length (Profile.reservations s))%nat
  /\ (forall r, In r (Profile.reservations s) <->
                In r (Profile.activeReservations s)
                \/ In r (Profile.pastReservations s))
  /\ (forall r, In r (Profile.activeReservations s) ->
                ~ In r (Profile.pastReservations s))
  /\ length (Profile.shownHistory s)
     = Nat.min 10 (length (Profile.pastReservations s))
  /\ Profile.pastReservations s
     = (Profile.shownHistory s ++ skipn 10 (Profile.pastReservations s))%list
  /\ (forall r, In r (Profile.shownHistory s) ->
                In r (Profile.pastReservations s)
                /\ ~ In r (Profile.activeReservations s))
  /\ (Profile.shownHistory s = Profile.pastReservations s
      <-> (length (Profile.pastReservations s) <= 10)%nat).
Proof.
  destruct (shown_history_is_a_prefix s) as (L & X & I & A).
  assert (D : forall r, In r (Profile.activeReservations s) ->
                        ~ In r (Profile.pastReservations s)).
  { unfold Profile.activeReservations, Profile.pastReservations.
    intros r Ac P. apply filter_In in Ac as [_ Ac], P as [_ P].
    rewrite Ac in P. discriminate. }
  split; [apply (count_complement Profile.isActive)|]. split.
  - unfold Profile.activeReservations, Profile.pastReservations.
    intro r. rewrite !filter_In. split.
    + intro J. destruct (Profile.isActive r); [left | right]; auto.
    + intros [[J _]|[J _]]; exact J.
  - split; [exact D|]. split; [exact L|]. split; [exact X|].
    split; [|exact A].
    intros r J. split; [now apply I|].
    intro Ac. apply (D r Ac). now apply I.
Qed.

(** X18: a cancellation whose reservation update succeeds keeps the number
    of reservations, moves the cancelled reservation, marked
    ['cancelled'], from the active list into the past list, and leaves
    every reservation with another id exactly as it was, in its list.  The
    history card renders the first ten past reservations, so it displays
    the cancelled reservation whenever there are at most ten past
    reservations after the cancellation. *)
Theorem cancellation_moves_the_reservation_to_history
        (be : Backend) (st : Profile.State) (l : Log) (r : Reservation) :
  In r (Profile.activeReservations st) ->
  write_error be (requests l)
    (UpdateReservationStatus "cancelled" (res_id r)) = None ->
  let st' := state_of (Profile.cancelButton r be st l) in
  length (Profile.reservations st') = length (Profile.reservations st)
  /\ In (Profile.with_status r "cancelled") (Profile.pastReservations st')
  /\ ~ In (Profile.with_status r "cancelled")
          (Profile.activeReservations st')
  /\ ((length (Profile.pastReservations st') <= 10)%nat ->
      In (Profile.with_status r "cancelled") (Profile.shownHistory st'))
  /\ (forall x, res_id x <> res_id r ->
        (In x (Profile.activeReservations st')
         <-> In x (Profile.activeReservations st))
        /\ (In x (Profile.pastReservations st')
            <-> In x (Profile.pastReservations st))).
Proof.
  intros A W. cbv zeta.
  set (st' := state_of (Profile.cancelButton r be st l)).
  destruct (shown_history_is_a_prefix st') as (_ & _ & _ & All).
  assert (E : Profile.reservations st'
              = map (Profile.markCancelled (res_id r))
                    (Profile.reservations st)).
  { unfold st', Profile.cancelButton.
    rewrite cancel_run, W. unfold state_of. cbn [fst snd].
    reflexivity. }
  assert (M : forall x, res_id x <> res_id r ->
              (In x (map (Profile.markCancelled (res_id r))
                         (Profile.reservations st))
               <-> In x (Profile.reservations st))).
  { intros x N. rewrite in_map_iff. split.
    - intros (y & Ey & I). unfold Profile.markCancelled in Ey.
      destruct (res_id y =? res_id r)%string eqn:B.
      + apply String.eqb_eq in B. subst x. cbn in N. contradiction.
      + now subst y.
    - intro I. exists x. split; [|exact I].
      unfold Profile.markCancelled.
      apply String.eqb_neq in N. now rewrite N. }
  assert (P : In (Profile.with_status r "cancelled")
                 (Profile.pastReservations st')).
  { unfold Profile.pastReservations. rewrite E.
    apply filter_In. split; [|reflexivity].
    apply in_map_iff. exists r. unfold Profile.markCancelled.
    rewrite String.eqb_refl. split; [reflexivity|].
    unfold Profile.activeReservations in A. now apply filter_In in A. }
  split; [rewrite E; apply length_map|].
  split; [exact P|].
  split.
  { unfold Profile.activeReservations. intro I.
    apply filter_In in I as [_ I]. discriminate I. }
  split.
  { intro H. apply All in H. rewrite H. exact P. }
  intros x N.
  unfold Profile.activeReservations, Profile.pastReservations.
  rewrite E, !filter_In, (M x N). split; reflexivity.
Qed.

Lemma cancellation_moves_the_reservation_to_history_witness :
  let r := Scenario.reservation "r-1" "slot-4" "active" in
  let st' := state_of (Profile.cancelButton r Scenario.slot_update_fails
                         Scenario.profile empty_log) in
  In r (Profile.activeReservations Scenario.profile)
  /\ length (Profile.reservations st') = 2%nat
  /\ In (Scenario.reservation "r-1" "slot-4" "cancelled")
        (Profile.pastReservations st')
  /\ In (Scenario.reservation "r-1" "slot-4" "cancelled")
        (Profile.shownHistory st').
Proof.
  cbv zeta.
  assert (A : In (Scenario.reservation "r-1" "slot-4" "active")
                 (Profile.activeReservations Scenario.profile))
    by (left; reflexivity).
  destruct (cancellation_moves_the_reservation_to_history
              Scenario.slot_update_fails Scenario.profile empty_log _ A
              eq_refl) as (L & P & _ & S & _).
  split; [exact A|]. split; [exact L|]. split; [exact P|].
  apply S. vm_compute. lia.
Defined.

(** ** The status indicator: what is displayed *)

Section Display.
Import SystemStatusIndicator StatusCard.

Variable getTime : string -> option Z.

Lemma stored_after_calculate (now : Z) (hb status : string) (s : State) :
  systemStatus (calculateStatusLevel getTime now hb status s)
  = systemStatus s.
Proof.
  unfold calculateStatusLevel.
  destruct (status =? "online")%string; [reflexivity|].
  destruct (status =? "offline")%string; [|reflexivity].
  destruct (less_than _ _); reflexivity.
Qed.

Lemma calculate_consistent (now : Z) (row : SystemStatus) (s : State) :
  systemStatus s = Some row ->
  consistent
    (calculateStatusLevel getTime now (last_heartbeat row) (sys_status row) s).
Proof.
  intro H. unfold consistent.
  rewrite stored_after_calculate, level_of_calculate, H. reflexivity.
Qed.

Lemma step_consistent (c : Component) (e : Event) :
  consistent (state c) -> consistent (state (step getTime c e)).
Proof.
  intro H. destruct e as [id | now [resp|] | now [p|] | now];
    cbn [step state].
  - reflexivity.
  - unfold fetchSystemStatus.
    destruct (error resp); [reflexivity|].
    destruct (data resp) as [d|]; [|exact H].
    now apply calculate_consistent.
  - reflexivity.
  - unfold onPayload.
    destruct (_ =? _)%string; [|exact H].
    now apply calculate_consistent.
  - exact H.
  - unfold onInterval.
    destruct (systemStatus (state c)) as [row|] eqn:S; [|exact H].
    destruct (_ && _); [|exact H].
    now apply calculate_consistent.
Qed.

Lemma run_consistent (events : list Event) (c : Component) :
  consistent (state c) ->
  consistent (state (fold_left (step getTime) events c)).
Proof.
  revert c. induction events as [|e events IH]; intros c H; [exact H|].
  cbn [fold_left]. apply IH. now apply step_consistent.
Qed.

Lemma every_run_is_consistent (systemId : option string)
      (events : list Event) :
  consistent (state (run getTime systemId events)).
Proof.
  unfold run. apply run_consistent. reflexivity.
Qed.

End Display.

(** X19: at every moment the displayed level is the one that the stored
    record calls for: [healthy] when a record is stored and its status is
    ['online'], [critical] when the stored record has another status or no
    record is stored.  This holds after any sequence of system-id changes,
    settled fetches, subscription payloads and interval ticks. *)
Theorem level_follows_the_stored_record
        (getTime : string -> option Z) (systemId : option string)
        (events : list SystemStatusIndicator.Event) :
  let s := SystemStatusIndicator.state
             (SystemStatusIndicator.run getTime systemId events) in
  SystemStatusIndicator.statusLevel s
  = match SystemStatusIndicator.systemStatus s with
    | Some row =>
        if (sys_status row =? "online")%string
        then SystemStatusIndicator.healthy
        else SystemStatusIndicator.critical
    | None => SystemStatusIndicator.critical
    end.
Proof.
  cbv zeta.
  exact (every_run_is_consistent getTime systemId events).
Qed.

(** X20: an interval tick refreshes the last-seen text only: at any moment
    of any run it leaves the stored record and the displayed level as they
    are, and before a record is stored it leaves the whole state as it
    is. *)
Theorem interval_tick_keeps_the_level
        (getTime : string -> option Z) (systemId : option string)
        (events : list SystemStatusIndicator.Event) (now : Z) :
  let before := SystemStatusIndicator.run getTime systemId events in
  let after := SystemStatusIndicator.step getTime before
                 (SystemStatusIndicator.Interval now) in
  SystemStatusIndicator.statusLevel (SystemStatusIndicator.state after)
  = SystemStatusIndicator.statusLevel (SystemStatusIndicator.state before)
  /\ SystemStatusIndicator.systemStatus (SystemStatusIndicator.state after)
     = SystemStatusIndicator.systemStatus (SystemStatusIndicator.state before)
  /\ (SystemStatusIndicator.systemStatus (SystemStatusIndicator.state before)
      = None ->
      after = before).
Proof.
  cbv zeta.
  pose proof (every_run_is_consistent getTime systemId events)
    as C.
  set (c := SystemStatusIndicator.run getTime systemId events) in *.
  cbn [SystemStatusIndicator.step SystemStatusIndicator.state].
  unfold SystemStatusIndicator.onInterval.
  destruct (SystemStatusIndicator.systemStatus
              (SystemStatusIndicator.state c)) as [row|] eqn:S.
  - destruct (_ && _).
    + rewrite level_of_calculate, stored_after_calculate, S.
      split; [|split; [reflexivity | discriminate]].
      unfold StatusCard.consistent in C. rewrite C, S. reflexivity.
    + split; [reflexivity|]. split; [congruence | discriminate].
  - split; [reflexivity|]. split; [congruence|].
    intros _. destruct c; reflexivity.
Qed.

(** X21: the card never shows the ['Warning'] label: after any run its
    label is ['Online'] when a record with status ['online'] is stored and
    ['Offline'] in every other case, with the green and the red palette
    respectively. *)
Theorem card_shows_online_or_offline
        (getTime : string -> option Z) (systemId : option string)
        (events : list SystemStatusIndicator.Event) :
  let s := SystemStatusIndicator.state
             (SystemStatusIndicator.run getTime systemId events) in
  let card := StatusCard.getStatusConfig
                (SystemStatusIndicator.statusLevel s) in
  (StatusCard.label card = "Online"
   <-> exists row, SystemStatusIndicator.systemStatus s = Some row
                   /\ sys_status row = "online")
  /\ (StatusCard.label card = "Online"
      /\ StatusCard.color card = "text-green-600"
      \/ StatusCard.label card = "Offline"
         /\ StatusCard.color card = "text-red-600").
Proof.
  cbv zeta.
  rewrite (every_run_is_consistent getTime systemId events).
  unfold StatusCard.expectedLevel.
  destruct (SystemStatusIndicator.systemStatus _) as [row|].
  - destruct (sys_status row =? "online")%string eqn:E.
    + apply String.eqb_eq in E. split; [|left; split; reflexivity].
      split; [intros _; now exists row | reflexivity].
    + apply String.eqb_neq in E. split; [|right; split; reflexivity].
      split; [discriminate|]. intros (r & R & O). congruence.
  - split; [|right; split; reflexivity].
    split; [discriminate|]. intros (r & R & _). discriminate.
Qed.

(** X22: the last-seen text of a fetched record.  With a heartbeat that is
    [d] milliseconds old: an online system shows ['Just now'] when
    [0 <= d < 60000] and the whole minutes otherwise, however old; an
    offline system shows the whole minutes below one hour (also for a
    heartbeat in the future) and the whole hours from one hour on.  A
    heartbeat that does not parse shows as ['NaN min ago'] or ['NaNh ago'],
    and a status that is neither ['online'] nor ['offline'] as
    ['Unknown']. *)
Theorem last_seen_text_of_a_record
        (getTime : string -> option Z) (now : Z) (row : SystemStatus)
        (s : SystemStatusIndicator.State) :
  let text := SystemStatusIndicator.lastSeenText
                (SystemStatusIndicator.fetchSystemStatus getTime now
                   (SystemStatusIndicator.Answered
                      {| data := Some row; error := None |}) s) in
  (forall t, getTime (last_heartbeat row) = Some t ->
     let d := now - t in
     (sys_status row = "online" ->
      (0 <= d < 60000 -> text = "Just now")
      /\ (~ 0 <= d < 60000 ->
          text = JS.show_number (Some (d / 60000)) ++ " min ago"))
     /\ (sys_status row = "offline" ->
         (d < 3600000 ->
          text = JS.show_number (Some (d / 60000)) ++ " min ago")
         /\ (3600000 <= d ->
             text = JS.show_number (Some (d / 3600000)) ++ "h ago")))
  /\ (getTime (last_heartbeat row) = None ->
      (sys_status row = "online" -> text = "NaN min ago")
      /\ (sys_status row = "offline" -> text = "NaNh ago"))
  /\ (sys_status row <> "online" -> sys_status row <> "offline" ->
      text = "Unknown").
Proof.
  cbv zeta. unfold SystemStatusIndicator.fetchSystemStatus.
  cbn [error data]. unfold SystemStatusIndicator.calculateStatusLevel,
    SystemStatusIndicator.diffMinutes.
  split; [|split].
  - intros t T. rewrite T. cbn [option_map].
    change (1000 * 60) with 60000.
    split.
    + intros ->. cbn [String.eqb Ascii.eqb Bool.eqb].
      cbn [SystemStatusIndicator.lastSeenText
           SystemStatusIndicator.setLastSeenText
           SystemStatusIndicator.is_zero].
      split; intro H.
      * rewrite (Z.div_small _ _ H). reflexivity.
      * destruct ((now - t) / 60000 =? 0) eqn:E; [|reflexivity].
        apply Z.eqb_eq in E. apply Z.div_small_iff in E; lia.
    + intros ->. cbn [String.eqb Ascii.eqb Bool.eqb].
      cbn [SystemStatusIndicator.less_than].
      split; intro H.
      * replace ((now - t) / 60000 <? 60) with true;
          [reflexivity|].
        symmetry. apply Z.ltb_lt. apply Z.div_lt_upper_bound; lia.
      * replace ((now - t) / 60000 <? 60) with false.
        -- cbn [option_map SystemStatusIndicator.lastSeenText
                SystemStatusIndicator.setLastSeenText].
           rewrite Z.div_div by lia. reflexivity.
        -- symmetry. apply Z.ltb_ge. apply Z.div_le_lower_bound; lia.
  - intro T. rewrite T. cbn [option_map].
    split; intros ->; reflexivity.
  - intros O F. apply String.eqb_neq in O, F. rewrite O, F. reflexivity.
Qed.

Lemma last_seen_text_of_a_record_witness :
  let text := fun status now =>
    SystemStatusIndicator.lastSeenText
      (SystemStatusIndicator.fetchSystemStatus Cases.epoch now
         (SystemStatusIndicator.Answered
            {| data := Some (Cases.record status); error := None |})
         SystemStatusIndicator.initialState) in
  (Cases.epoch (last_heartbeat (Cases.record "offline")) = Some 0
   /\ 3600000 <= 7200000 - 0)
  /\ text "offline" 7200000 = "2h ago"
  /\ text "online" 7200000 = "120 min ago"
  /\ text "online" 59999 = "Just now".
Proof.
  cbv zeta.
  assert (T : Cases.epoch (last_heartbeat (Cases.record "offline")) = Some 0)
    by reflexivity.
  assert (H : 3600000 <= 7200000 - 0) by lia.
  split; [split; [exact T | exact H]|].
  split; [|split; reflexivity].
  destruct (last_seen_text_of_a_record Cases.epoch 7200000
              (Cases.record "offline") SystemStatusIndicator.initialState)
    as (P & _).
  destruct (P 0 T) as (_ & O).
  destruct (O eq_refl) as (_ & Hours).
  rewrite (Hours H). reflexivity.
Defined.

(** X23: records arrive on two paths that treat the system id differently.
    A subscription payload is applied only when its system id is the
    monitored one and is otherwise ignored; a settled fetch is applied
    whatever system its record belongs to, so a fetch that settles after
    the monitored system has changed still replaces the stored record. *)
Theorem only_payloads_are_filtered_by_system
        (getTime : string -> option Z) (now : Z) (row : SystemStatus)
        (c : SystemStatusIndicator.Component) :
  (system_id row
   <> SystemStatusIndicator.targetSystemId
        (SystemStatusIndicator.systemId c) ->
   SystemStatusIndicator.step getTime c
     (SystemStatusIndicator.Payload now (Some row)) = c)
  /\ (system_id row
      = SystemStatusIndicator.targetSystemId
          (SystemStatusIndicator.systemId c) ->
      SystemStatusIndicator.systemStatus
        (SystemStatusIndicator.state
           (SystemStatusIndicator.step getTime c
              (SystemStatusIndicator.Payload now (Some row))))
      = Some row)
  /\ (forall other : option string,
        SystemStatusIndicator.systemStatus
          (SystemStatusIndicator.state
             (fold_left (SystemStatusIndicator.step getTime)
                [ SystemStatusIndicator.SystemIdChanged other;
                  SystemStatusIndicator.FetchSettled now
                    (SystemStatusIndicator.Answered
                       {| data := Some row; error := None |}) ] c))
        = Some row).
Proof.
  split; [|split].
  - intro N. apply String.eqb_neq in N.
    cbn [SystemStatusIndicator.step]. unfold SystemStatusIndicator.onPayload.
    rewrite N. destruct c; reflexivity.
  - intro E. apply String.eqb_eq in E.
    cbn [SystemStatusIndicator.step SystemStatusIndicator.state].
    unfold SystemStatusIndicator.onPayload. rewrite E.
    now rewrite stored_after_calculate.
  - intro other. cbn [fold_left SystemStatusIndicator.step
                      SystemStatusIndicator.state].
    unfold SystemStatusIndicator.fetchSystemStatus. cbn [error data].
    now rewrite stored_after_calculate.
Qed.

Lemma only_payloads_are_filtered_by_system_witness :
  let c := SystemStatusIndicator.mounted (Some "parking_monitor_mall") in
  let row := Cases.record "online" in
  system_id row
  <> SystemStatusIndicator.targetSystemId (SystemStatusIndicator.systemId c)
  /\ SystemStatusIndicator.step Cases.epoch c
       (SystemStatusIndicator.Payload 0 (Some row)) = c
  /\ SystemStatusIndicator.systemStatus
       (SystemStatusIndicator.state
          (SystemStatusIndicator.step Cases.epoch c
             (SystemStatusIndicator.FetchSettled 0
                (SystemStatusIndicator.Answered
                   {| data := Some row; error := None |}))))
     = Some row.
Proof.
  cbv zeta.
  assert (N : system_id (Cases.record "online")
              <> SystemStatusIndicator.targetSystemId
                   (SystemStatusIndicator.systemId
                      (SystemStatusIndicator.mounted
                         (Some "parking_monitor_mall"))))
    by discriminate.
  split; [exact N|]. split; [|reflexivity].
  exact (proj1 (only_payloads_are_filtered_by_system Cases.epoch 0
                  (Cases.record "online")
                  (SystemStatusIndicator.mounted
                     (Some "parking_monitor_mall"))) N).
Defined.

(** ** The marker: every activation sequence *)

Section AnyGesture.
Import MapTilerMap MarkerLifecycle.

Variable areaId : string.
Variable hasLayer : Z -> bool.

Lemma clear_only_timer (timer : nat) (due : Z) :
  clearTimeout timer [(timer, due)] = [].
Proof. unfold clearTimeout. cbn. now rewrite Nat.eqb_refl. Qed.

Lemma count_snoc {A : Type} (p : A -> bool) (l : list A) (x : A) :
  JS.count p (l ++ [x]) = (JS.count p l + if p x then 1 else 0)%nat.
Proof.
  unfold JS.count. rewrite filter_app, length_app. cbn [filter].
  destruct (p x); reflexivity.
Qed.

Lemma open_now_le (s : Sim) : (open_now s <= 1)%nat.
Proof. unfold open_now. destruct (popupOpen s); lia. Qed.

(** [openPopup] and [closePopup] keep the handler's variables and change
    the counts by what they add to the outputs. *)
Lemma openPopup_counts (s : Sim) :
  let s' := openPopup areaId s in
  clickCount s' = clickCount s /\ clickTimeout s' = clickTimeout s
  /\ pending s' = pending s
  /\ selections s' = selections s
  /\ closings s' = closings s
  /\ open_now s' = 1%nat
  /\ (openings s' + open_now s = openings s + 1)%nat.
Proof.
  cbv zeta. unfold openPopup, selections, closings, openings, open_now.
  destruct (popupOpen s) eqn:P.
  - rewrite P. repeat split; lia.
  - cbn [clickCount clickTimeout pending outputs popupOpen].
    rewrite !count_snoc. cbn [is_navigation is_closing is_opening].
    repeat split; lia.
Qed.

Lemma closePopup_counts (s : Sim) :
  let s' := closePopup areaId s in
  clickCount s' = clickCount s /\ clickTimeout s' = clickTimeout s
  /\ pending s' = pending s
  /\ selections s' = selections s
  /\ openings s' = openings s
  /\ open_now s' = 0%nat
  /\ (closings s' = closings s + open_now s)%nat.
Proof.
  cbv zeta. unfold closePopup, selections, closings, openings, open_now.
  destruct (popupOpen s) eqn:P.
  - cbn [clickCount clickTimeout pending outputs popupOpen].
    rewrite !count_snoc. cbn [is_navigation is_closing is_opening].
    repeat split; lia.
  - rewrite P. repeat split; lia.
Qed.

(** The bound listener keeps the handler's variables; it opens or closes
    the popup once if the marker is on the map. *)
Lemma boundPopupClick_counts (t : Z) (s : Sim) :
  let s' := boundPopupClick areaId hasLayer t s in
  clickCount s' = clickCount s /\ clickTimeout s' = clickTimeout s
  /\ pending s' = pending s
  /\ selections s' = selections s
  /\ (openings s' + closings s + open_now s
      = openings s + closings s' + open_now s')%nat
  /\ (openings s' + closings s' <= openings s + closings s + 1)%nat
  /\ (openings s <= openings s')%nat /\ (closings s <= closings s')%nat
  /\ (hasLayer t = true ->
      (openings s' + closings s' = openings s + closings s + 1)%nat).
Proof.
  cbv zeta. unfold boundPopupClick.
  pose proof (open_now_le s) as Le.
  destruct (hasLayer t).
  - destruct (popupOpen s) eqn:P.
    + destruct (closePopup_counts s) as (A & B & C & D & E & F & G).
      assert (O : open_now s = 1%nat) by (unfold open_now; now rewrite P).
      repeat split; try assumption; lia.
    + destruct (openPopup_counts s) as (A & B & C & D & E & F & G).
      assert (O : open_now s = 0%nat) by (unfold open_now; now rewrite P).
      repeat split; try assumption; lia.
  - repeat split; try lia; discriminate.
Qed.

Lemma onTimeout_counts (t : Z) (s : Sim) :
  let s' := onTimeout areaId hasLayer t s in
  clickCount s' = 0%nat /\ clickTimeout s' = clickTimeout s
  /\ pending s' = pending s
  /\ selections s' = selections s
  /\ closings s' = closings s
  /\ (openings s' + open_now s = openings s + open_now s')%nat
  /\ (openings s' <= openings s + 1)%nat
  /\ (openings s <= openings s')%nat.
Proof.
  cbv zeta. unfold onTimeout.
  pose proof (open_now_le s) as Le.
  destruct (hasLayer t).
  - destruct (openPopup_counts s) as (A & B & C & D & E & F & G).
    set (o := openPopup areaId s) in *.
    change (open_now {| clickCount := 0; clickTimeout := clickTimeout o;
                        pending := pending o; nextTimer := nextTimer o;
                        popupOpen := popupOpen o; outputs := outputs o |})
      with (open_now o).
    change (openings {| clickCount := 0; clickTimeout := clickTimeout o;
                        pending := pending o; nextTimer := nextTimer o;
                        popupOpen := popupOpen o; outputs := outputs o |})
      with (openings o).
    change (closings {| clickCount := 0; clickTimeout := clickTimeout o;
                        pending := pending o; nextTimer := nextTimer o;
                        popupOpen := popupOpen o; outputs := outputs o |})
      with (closings o).
    change (selections {| clickCount := 0; clickTimeout := clickTimeout o;
                          pending := pending o; nextTimer := nextTimer o;
                          popupOpen := popupOpen o; outputs := outputs o |})
      with (selections o).
    cbn [clickCount clickTimeout pending].
    repeat split; try assumption; lia.
  - unfold selections, closings, openings, open_now in *.
    cbn [clickCount clickTimeout pending outputs popupOpen].
    repeat split; lia.
Qed.

(** The only timer fires: the handler forgets the click it counted. *)
Lemma timer_fires_counts (due : Z) (s : Sim) :
  let s' := onTimeout areaId hasLayer due
              {| clickCount := clickCount s;
                 clickTimeout := clickTimeout s;
                 pending := [];
                 nextTimer := nextTimer s;
                 popupOpen := popupOpen s;
                 outputs := outputs s |} in
  clickCount s' = 0%nat /\ clickTimeout s' = clickTimeout s
  /\ pending s' = []
  /\ selections s' = selections s
  /\ closings s' = closings s
  /\ (openings s' + open_now s = openings s + open_now s')%nat
  /\ (openings s' <= openings s + 1)%nat
  /\ (openings s <= openings s')%nat.
Proof.
  exact (onTimeout_counts due
           {| clickCount := clickCount s;
              clickTimeout := clickTimeout s;
              pending := [];
              nextTimer := nextTimer s;
              popupOpen := popupOpen s;
              outputs := outputs s |}).
Qed.

(** The invariant of the marker between activations, and what one
    activation adds to the counts. *)
Lemma activate_shape (s : Sim) (t : Z) :
  idle s \/ waiting s ->
  let s' := activate areaId hasLayer s t in
  (idle s' \/ waiting s')
  /\ (openings s' + closings s + open_now s
      = openings s + closings s' + open_now s')%nat
  /\ (2 * selections s' + clickCount s'
      <= S (2 * selections s + clickCount s))%nat
  /\ (openings s' + closings s' + 2 * selections s' + clickCount s'
      <= 2 + (openings s + closings s + 2 * selections s + clickCount s))%nat
  /\ (openings s + closings s <= openings s' + closings s')%nat
  /\ (hasLayer t = true ->
      (S (openings s + closings s) <= openings s' + closings s')%nat).
Proof.
  intros H. cbv zeta. unfold activate, click.
  set (a := advance areaId hasLayer t s).
  assert (A : (idle a \/ waiting a)
              /\ selections a = selections s
              /\ closings a = closings s
              /\ (openings a + open_now s = openings s + open_now a)%nat
              /\ (openings a + clickCount a <= openings s + clickCount s)%nat
              /\ (clickCount a <= clickCount s)%nat
              /\ (openings s <= openings a)%nat).
  { unfold a, advance.
    destruct H as [[C P] | (C & timer & due & T & P)].
    - rewrite P. cbn [fire]. rewrite C.
      repeat split; try lia. left. now split.
    - rewrite P. cbn [fire]. destruct (due <=? t).
      + rewrite P, clear_only_timer.
        destruct (timer_fires_counts due s)
          as (A1 & A2 & A3 & A4 & A5 & A6 & A7 & A8).
        set (o := onTimeout _ _ _ _) in *.
        repeat split; try assumption; try lia.
        left. split; assumption.
      + repeat split; try lia. right. split; [exact C|]. eauto. }
  destruct A as (Sh & As & Ac & Ao & Aoc & Acc & Aoo).
  set (h := handleMarkerClick areaId t a).
  assert (B : (idle h \/ waiting h)
              /\ openings h = openings a /\ closings h = closings a
              /\ popupOpen h = popupOpen a
              /\ (2 * selections h + clickCount h
                  = S (2 * selections a + clickCount a))%nat).
  { unfold h, handleMarkerClick.
    destruct Sh as [[C P] | (C & timer & due & T & P)].
    - rewrite C. cbn [Nat.eqb].
      unfold idle, waiting, selections, openings, closings.
      cbn [clickCount clickTimeout pending outputs popupOpen].
      rewrite P. cbn [app]. repeat split; try lia.
      right. split; [reflexivity|]. eauto.
    - rewrite C. cbn [Nat.eqb].
      unfold idle, waiting, selections, openings, closings.
      cbn [clickCount clickTimeout pending outputs popupOpen].
      rewrite T, P, clear_only_timer. rewrite !count_snoc.
      cbn [is_navigation is_opening is_closing].
      repeat split; try lia. left. split; reflexivity. }
  destruct B as (Bs & Bo & Bc & Bp & Bn).
  destruct (boundPopupClick_counts t h)
    as (C1 & C2 & C3 & C4 & C5 & C6 & C7 & C8 & C9).
  set (b := boundPopupClick areaId hasLayer t h) in *.
  assert (On : open_now h = open_now a) by (unfold open_now; now rewrite Bp).
  split.
  - unfold idle, waiting in *. rewrite C1, C2, C3. exact Bs.
  - repeat split; try lia. intro L. specialize (C9 L). lia.
Qed.

Lemma run_shape (times : list Z) (s : Sim) :
  idle s \/ waiting s ->
  let s' := fold_left (activate areaId hasLayer) times s in
  let n := length times in
  (idle s' \/ waiting s')
  /\ (openings s' + closings s + open_now s
      = openings s + closings s' + open_now s')%nat
  /\ (2 * selections s' + clickCount s'
      <= 2 * selections s + clickCount s + n)%nat
  /\ (openings s' + closings s' + 2 * selections s' + clickCount s'
      <= openings s + closings s + 2 * selections s + clickCount s
         + 2 * n)%nat
  /\ ((forall u, In u times -> hasLayer u = true) ->
      (openings s + closings s + n <= openings s' + closings s')%nat).
Proof.
  revert s. induction times as [|t times IH]; intros s H; cbv zeta.
  - cbn [fold_left length]. split; [exact H|]. repeat split; lia.
  - cbn [fold_left length].
    destruct (activate_shape s t H) as (H1 & B1 & N1 & T1 & M1 & L1).
    destruct (IH _ H1) as (H2 & B2 & N2 & T2 & L2).
    split; [exact H2|]. repeat split; try lia.
    intro A.
    assert (A1 : hasLayer t = true) by (apply A; now left).
    assert (A2 : forall u, In u times -> hasLayer u = true)
      by (intros u I; apply A; now right).
    specialize (L1 A1). specialize (L2 A2). lia.
Qed.

Lemma settle_shape (s : Sim) :
  idle s \/ waiting s ->
  let s' := settle areaId hasLayer s in
  idle s'
  /\ selections s' = selections s
  /\ closings s' = closings s
  /\ (openings s' + open_now s = openings s + open_now s')%nat
  /\ (openings s' + clickCount s' <= openings s + clickCount s)%nat
  /\ (openings s <= openings s')%nat.
Proof.
  intros H. cbv zeta. unfold settle.
  destruct H as [[C P] | (C & timer & due & T & P)].
  - rewrite P. cbn [fire]. rewrite C.
    repeat split; try lia; assumption.
  - rewrite P. cbn [fire]. rewrite P, clear_only_timer.
    destruct (timer_fires_counts due s)
      as (A1 & A2 & A3 & A4 & A5 & A6 & A7 & A8).
    set (o := onTimeout _ _ _ _) in *.
    repeat split; try assumption; lia.
Qed.

Lemma start_is_idle : idle start.
Proof. split; reflexivity. Qed.

End AnyGesture.

(** X24: whatever the activation times, between two activations the
    handler has counted no click and no timer is scheduled, or it has
    counted one click and the timer it remembers is the only one scheduled.
    The counter therefore never exceeds one and at most one timer is ever
    pending, so the handler's branch for a third click is never taken. *)
Theorem handler_counts_at_most_one_click
        (areaId : string) (hasLayer : Z -> bool) (times : list Z) :
  let s := fold_left (MapTilerMap.activate areaId hasLayer) times
             MapTilerMap.start in
  (MarkerLifecycle.idle s \/ MarkerLifecycle.waiting s)
  /\ (MapTilerMap.clickCount s <= 1)%nat
  /\ (length (MapTilerMap.pending s) <= 1)%nat.
Proof.
  cbv zeta.
  destruct (run_shape areaId hasLayer times MapTilerMap.start
              (or_introl start_is_idle)) as (H & _).
  split; [exact H|].
  destruct H as [[C P] | (C & timer & due & _ & P)];
    rewrite C, P; cbn; lia.
Qed.

(** X25: every activation is accounted for at most once.  When the marker
    is left alone after any sequence of activations, twice the number of
    area selections is at most the number of activations, no click is left
    counted and no timer is left scheduled.  The popup was opened once more
    than it was closed if it is open in the end, and as often as it was
    closed if not.  Openings and closings together are at most twice the
    activations that led to no selection, and at least the number of
    activations when the marker was on the map at each of them. *)
Theorem activations_are_accounted_for
        (areaId : string) (hasLayer : Z -> bool) (times : list Z) :
  let s := MapTilerMap.gesture areaId hasLayer times in
  let n := length times in
  (2 * MarkerLifecycle.selections s <= n)%nat
  /\ MapTilerMap.clickCount s = 0%nat
  /\ MapTilerMap.pending s = []
  /\ (MarkerLifecycle.openings s
      = MarkerLifecycle.closings s + MarkerLifecycle.open_now s)%nat
  /\ (MarkerLifecycle.openings s + MarkerLifecycle.closings s
      + 2 * MarkerLifecycle.selections s <= 2 * n)%nat
  /\ ((forall t, In t times -> hasLayer t = true) ->
      (n <= MarkerLifecycle.openings s + MarkerLifecycle.closings s)%nat).
Proof.
  cbv zeta. unfold MapTilerMap.gesture.
  destruct (run_shape areaId hasLayer times MapTilerMap.start
              (or_introl start_is_idle)) as (H & B & N & T & L).
  destruct (settle_shape areaId hasLayer _ H)
    as ((C & P) & S1 & S2 & S3 & S4 & S5).
  change (MarkerLifecycle.selections MapTilerMap.start) with 0%nat in *.
  change (MarkerLifecycle.openings MapTilerMap.start) with 0%nat in *.
  change (MarkerLifecycle.closings MapTilerMap.start) with 0%nat in *.
  change (MarkerLifecycle.open_now MapTilerMap.start) with 0%nat in *.
  change (MapTilerMap.clickCount MapTilerMap.start) with 0%nat in *.
  rewrite C in *.
  split; [lia|]. split; [reflexivity|]. split; [exact P|].
  split; [lia|]. split; [lia|].
  intro A. specialize (L A). lia.
Qed.

Lemma activations_are_accounted_for_witness :
  let shown := fun _ : Z => true in
  let times := [0; 100; 1000; 2000; 2100] in
  let s := MapTilerMap.gesture "area-1" shown times in
  (forall t, In t times -> shown t = true)
  /\ MapTilerMap.outputs s
     = [ MapTilerMap.OpenPopup "area-1"; MapTilerMap.AreaSelect "area-1";
         MapTilerMap.ClosePopup "area-1"; MapTilerMap.OpenPopup "area-1";
         MapTilerMap.ClosePopup "area-1"; MapTilerMap.AreaSelect "area-1";
         MapTilerMap.OpenPopup "area-1" ]
  /\ (5 <= MarkerLifecycle.openings s + MarkerLifecycle.closings s)%nat.
Proof.
  cbv zeta.
  assert (A : forall t : Z, In t [0; 100; 1000; 2000; 2100]
                            -> (fun _ : Z => true) t = true)
    by reflexivity.
  split; [exact A|]. split; [reflexivity|].
  destruct (activations_are_accounted_for "area-1" (fun _ => true)
              [0; 100; 1000; 2000; 2100]) as (_ & _ & _ & _ & _ & L).
  exact (L A).
Defined.

(** X26: the marker's cleanup cancels whatever the handler was waiting
    for: after it no timer is scheduled, so without a further activation
    no popup opens later, whatever activations came before. *)
Theorem cleanup_cancels_the_pending_popup
        (areaId : string) (hasLayer : Z -> bool) (times : list Z) :
  let s := fold_left (MapTilerMap.activate areaId hasLayer) times
             MapTilerMap.start in
  let cleaned := MarkerLifecycle.clickCleanup s in
  MapTilerMap.pending cleaned = []
  /\ MapTilerMap.outputs (MapTilerMap.settle areaId hasLayer cleaned)
     = MapTilerMap.outputs s.
Proof.
  cbv zeta.
  destruct (run_shape areaId hasLayer times MapTilerMap.start
              (or_introl start_is_idle)) as (H & _).
  set (s := fold_left _ times MapTilerMap.start) in *.
  assert (P : MapTilerMap.pending (MarkerLifecycle.clickCleanup s) = []
              /\ MapTilerMap.outputs (MarkerLifecycle.clickCleanup s)
                 = MapTilerMap.outputs s).
  { unfold MarkerLifecycle.clickCleanup.
    destruct H as [[C P] | (C & timer & due & T & P)].
    - destruct (MapTilerMap.clickTimeout s); cbn; rewrite ?P; auto.
    - rewrite T, P. cbn [MapTilerMap.pending MapTilerMap.outputs].
      now rewrite clear_only_timer. }
  destruct P as [P O]. split; [exact P|].
  unfold MapTilerMap.settle. rewrite P. exact O.
Qed.

(** ** The markers that are drawn *)

(** X27: every marker on the map belongs to one of the given areas and is
    complete: its coordinates are present and different from 0, its title
    is a non-empty name, its label is a free-slot count, and its colour is
    one of the three occupancy colours. *)
Theorem drawn_markers_are_complete
        (areas : list (option MapTilerMap.ParkingAreaWithOccupancy))
        (m : MapTilerMap.Marker) :
  In m (MapTilerMap.renderMarkers areas) ->
  exists a la ln n f,
    In (Some a) areas
    /\ MapTilerMap.area m = MapTilerMap.id a
    /\ MapTilerMap.position m = (Some la, Some ln)
    /\ ~ (la == 0)%Q /\ ~ (ln == 0)%Q
    /\ MapTilerMap.title m = Some n /\ n <> ""
    /\ MapTilerMap.label m = Some f
    /\ (MapTilerMap.color m = "#EF4444"
        \/ MapTilerMap.color m = "#F59E0B"
        \/ MapTilerMap.color m = "#10B981").
Proof.
  unfold MapTilerMap.renderMarkers. intro H.
  apply in_flat_map in H as (oa & I & M).
  destruct oa as [a|]; [|contradiction].
  unfold MapTilerMap.markersOf in M.
  destruct (MapTilerMap.invalid (Some a)) eqn:V; [contradiction|].
  destruct M as [<-|[]].
  unfold MapTilerMap.invalid in V.
  apply orb_false_iff in V as [V F].
  apply orb_false_iff in V as [V N].
  apply orb_false_iff in V as [La Ln].
  apply negb_false_iff in La, Ln, N.
  apply truthy_number_spec in La as (la & La & Hla).
  apply truthy_number_spec in Ln as (ln & Ln & Hln).
  apply truthy_name_spec in N as (n & N & Hn).
  destruct (MapTilerMap.freeSlots a) as [f|] eqn:Fr; [|discriminate].
  exists a, la, ln, n, f. cbn [MapTilerMap.area MapTilerMap.position
                               MapTilerMap.title MapTilerMap.label
                               MapTilerMap.color].
  rewrite La, Ln, N.
  repeat (split; [first [assumption | reflexivity]|]).
  unfold MapTilerMap.occupancyColor.
  destruct (MapTilerMap.greater_than _ 80); [now left|].
  destruct (MapTilerMap.greater_than _ 50); [right; now left|].
  right. now right.
Qed.

Lemma drawn_markers_are_complete_witness :
  let m := {| MapTilerMap.position := (Some (1295 # 100), Some (7770 # 100));
              MapTilerMap.color := "#F59E0B";
              MapTilerMap.label := Some 12;
              MapTilerMap.title := Some "Mall";
              MapTilerMap.area := "area-Mall" |} in
  In m (MapTilerMap.renderMarkers Scenario.areas)
  /\ exists a, In (Some a) Scenario.areas
               /\ MapTilerMap.area m = MapTilerMap.id a.
Proof.
  cbv zeta.
  assert (I : In {| MapTilerMap.position :=
                      (Some (1295 # 100), Some (7770 # 100));
                    MapTilerMap.color := "#F59E0B";
                    MapTilerMap.label := Some 12;
                    MapTilerMap.title := Some "Mall";
                    MapTilerMap.area := "area-Mall" |}
                 (MapTilerMap.renderMarkers Scenario.areas))
    by (right; left; reflexivity).
  split; [exact I|].
  destruct (drawn_markers_are_complete Scenario.areas _ I)
    as (a & _ & _ & _ & _ & H & E & _).
  exists a. split; [exact H | exact E].
Defined.
